(** * Serverless multi-tenant task API: the handlers and their policy

    A shallow embedding of the Python Lambda handlers
    ([services/common/utils.py], [services/tasks/*.py],
    [services/auth/authorizer.py], [events/task_created_handler.py])
    and the properties of the permission policy, the task mutations,
    the authorizer and the event fan-out that can be read off the code.

    Python dictionaries are [gmap]s, JSON documents are values of [json],
    exceptions are values of [exn] carried by [outcome], and the managed
    services (table, event bus, archive bucket) are a [world] threaded
    through a small state-and-exception monad. *)

From stdpp Require Import gmap strings list fin_maps pretty.

#[local] Open Scope string_scope.
#[local] Set Warnings "-register-all".

(** ** Python values *)

(** What [json.loads] produces and what the table stores.  A JSON object is
    a dictionary keyed by strings.  Numbers are the integers: a document with
    a fraction is outside the values considered.  A number that [json.loads]
    produced is an [int]; a number read from the table is a [Decimal] (see
    [holds_number]). *)
Inductive json :=
| JNull
| JBool (b : bool)
| JInt (z : Z)
| JStr (s : string)
| JArr (l : list json)
| JObj (m : gmap string json).

(** The exception classes the handlers distinguish.  [JSONDecodeError] is a
    subclass of [ValueError], [ExpiredSignatureError] of [InvalidTokenError];
    [ServiceError] stands for every other subclass of [Exception] (botocore's
    [ClientError], the errors of [requests], [jwt.InvalidKeyError], ...). *)
Inductive exn :=
| KeyError (key : string)
| TypeError (msg : string)
| AttributeError (msg : string)
| ValueError (msg : string)
| JSONDecodeError
| ExpiredSignatureError
| InvalidTokenError (msg : string)
| ServiceError (msg : string).

Inductive outcome (A : Type) :=
| Ret (a : A)
| Raise (e : exn).
Arguments Ret {A} a.
Arguments Raise {A} e.

#[global] Instance outcome_ret : MRet outcome := fun _ a => Ret a.
#[global] Instance outcome_bind : MBind outcome := fun _ _ k c =>
  match c with
  | Ret a => k a
  | Raise e => Raise e
  end.

(** [type(v).__name__] *)
Definition type_name (v : json) : string :=
  match v with
  | JNull => "NoneType"
  | JBool _ => "bool"
  | JInt _ => "int"
  | JStr _ => "str"
  | JArr _ => "list"
  | JObj _ => "dict"
  end.

(** [str(e)] *)
Definition exn_str (e : exn) : string :=
  match e with
  | KeyError k => "'" ++ k ++ "'"
  | TypeError m | AttributeError m | ValueError m
  | InvalidTokenError m | ServiceError m => m
  | JSONDecodeError => "Expecting value"
  | ExpiredSignatureError => "Signature has expired"
  end.

(** [bool(v)] *)
Definition truthy (v : json) : bool :=
  match v with
  | JNull => false
  | JBool b => b
  | JInt z => negb (Z.eqb z 0)
  | JStr s => negb (String.eqb s "")
  | JArr l => match l with [] => false | _ => true end
  | JObj m => negb (bool_decide (m = ∅))
  end.

(** [v == s] for a string literal [s] *)
Definition eq_str (v : json) (s : string) : bool :=
  match v with
  | JStr s' => String.eqb s' s
  | _ => false
  end.

(** [s1 in s2] on two strings *)
Definition is_substring (s1 s2 : string) : bool :=
  match String.index 0 s1 s2 with
  | Some _ => true
  | None => false
  end.

(** [s in v] for a string literal [s] *)
Definition py_in (s : string) (v : json) : outcome bool :=
  match v with
  | JObj m => Ret (bool_decide (is_Some (m !! s)))
  | JArr l => Ret (existsb (fun x => eq_str x s) l)
  | JStr s' => Ret (is_substring s s')
  | _ => Raise (TypeError ("argument of type '" ++ type_name v ++ "' is not iterable"))
  end.

(** [v.get(k, d)] *)
Definition py_get (v : json) (k : string) (d : json) : outcome json :=
  match v with
  | JObj m => Ret (default d (m !! k))
  | _ => Raise (AttributeError ("'" ++ type_name v ++ "' object has no attribute 'get'"))
  end.

(** A [str] is kept as its UTF-8 encoding, and Python counts characters
    (code points), not bytes: in the encoding every byte begins a character
    except the continuation bytes [10xxxxxx]. *)
Definition continuation_byte (c : Ascii.ascii) : bool :=
  let n := Ascii.nat_of_ascii c in
  Nat.leb 128 n && Nat.ltb n 192.

Fixpoint characters (s : string) : nat :=
  match s with
  | EmptyString => 0
  | String c rest =>
    if continuation_byte c then characters rest else S (characters rest)
  end.

(** [s[:n]]: the first [n] characters of a string *)
Fixpoint first_characters (n : nat) (s : string) : string :=
  match s with
  | EmptyString => EmptyString
  | String c rest =>
    if continuation_byte c then String c (first_characters n rest)
    else
      match n with
      | O => EmptyString
      | S k => String c (first_characters k rest)
      end
  end.

(** Whether a value holds a number, at any depth.  boto3 hands the numbers
    of an item it read over as [Decimal]. *)
Fixpoint holds_number (v : json) : bool :=
  match v with
  | JInt _ => true
  | JArr l => existsb holds_number l
  | JObj m => map_fold (fun _ x found => holds_number x || found) false m
  | _ => false
  end.

(** [json.dumps(v)] for a value [v] whose numbers were read from the table:
    [json.dumps] refuses a [Decimal].  The text is not kept (a response
    keeps the dictionary). *)
Definition dumps_read (v : json) : outcome unit :=
  if holds_number v
  then Raise (TypeError "Object of type Decimal is not JSON serializable")
  else Ret ().

(** [len(v)] *)
Definition py_len (v : json) : outcome nat :=
  match v with
  | JStr s => Ret (characters s)
  | JArr l => Ret (length l)
  | JObj m => Ret (size m)
  | _ => Raise (TypeError ("object of type '" ++ type_name v ++ "' has no len()"))
  end.

(** [v in l] for a list [l] of string literals *)
Definition in_literals (v : json) (l : list string) : bool :=
  existsb (eq_str v) l.

(** ** services/common/utils.py *)

Module Utils.

(** The body handed to [json.dumps] is kept as the dictionary it is built
    from; the headers are a dictionary of strings. *)
Record response := {
  statusCode : Z;
  headers : gmap string string;
  body : gmap string json
}.

Definition validate_required_fields
    (data : gmap string json) (required_fields : list string) : option string :=
  let missing_fields :=
    List.filter (fun field =>
                   match data !! field with
                   | None => true
                   | Some JNull => true
                   | Some v => eq_str v ""
                   end) required_fields in
  match missing_fields with
  | [] => None
  | _ => Some ("Missing required fields: " ++ String.concat ", " missing_fields)
  end.

Definition valid_statuses : list string := ["OPEN"; "IN_PROGRESS"; "DONE"; "CANCELLED"].
Definition valid_priorities : list string := ["LOW"; "MEDIUM"; "HIGH"; "URGENT"].

Definition validate_task_data (task_data : gmap string json) : outcome (option string) :=
  match validate_required_fields task_data ["title"] with
  | Some validation_error => Ret (Some validation_error)
  | None =>
    let title := default (JStr "") (task_data !! "title") in
    n ← py_len title;
    if Nat.ltb 200 n then Ret (Some "Title cannot exceed 200 characters") else
    let description := default (JStr "") (task_data !! "description") in
    n ← py_len description;
    if Nat.ltb 1000 n then Ret (Some "Description cannot exceed 1000 characters") else
    let status := default (JStr "OPEN") (task_data !! "status") in
    if negb (in_literals status valid_statuses)
    then Ret (Some ("Status must be one of: " ++ String.concat ", " valid_statuses)) else
    let priority := default (JStr "MEDIUM") (task_data !! "priority") in
    if negb (in_literals priority valid_priorities)
    then Ret (Some ("Priority must be one of: " ++ String.concat ", " valid_priorities))
    else Ret None
  end.

Definition check_user_permissions
    (user_role action : string) (resource_owner current_user : option string) : bool :=
  if String.eqb user_role "ADMIN" then true
  else if String.eqb user_role "MEMBER" then
    if bool_decide (action ∈ ["create"; "read"]) then true
    else if bool_decide (action ∈ ["update"]) && bool_decide (resource_owner = current_user)
    then true
    else if String.eqb action "delete" then false
    else false
  else false.

End Utils.

(** ** The managed services *)

(** An entry handed to [eventbridge.put_events]; [Detail] is kept as the
    dictionary that [json.dumps] serialises, [EventBusName] is the deployment's
    constant. *)
Record bus_entry := {
  Source : string;
  DetailType : string;
  Detail : gmap string json
}.

(** The service calls a handler issues, as they are recorded.  The [SET]
    clause of an update expression is the list of its assignments
    [attribute = placeholder], in the order of the clause. *)
Inductive call :=
| GetItem (key : string * string)
| PutItem (item : gmap string json)
| UpdateItem (key : string * string)
    (update_expression : list (string * string)) (expression_values : gmap string json)
| DeleteItem (key : string * string)
| PutEvents (entry : bus_entry)
| PutObject (object_key : string) (object_body : gmap string json).

(** The single table (items under their primary key [(PK, SK)]), the event
    bus, the archive bucket, and the calls issued so far, oldest first. *)
Record world := {
  table : gmap (string * string) (gmap string json);
  bus : list bus_entry;
  bucket : gmap string (gmap string json);
  calls : list call
}.

(** What a handler cannot decide by itself: the clock and the random
    identifiers (read after [n] service calls), which service calls fail
    ([raises n]: call number [n] raises; [bus_rejects n]: [put_events] as
    call number [n] returns with [FailedEntryCount = 1]), and the text
    [str()] gives for a value that is not a string. *)
Record runtime := {
  utcnow_isoformat : nat -> string;
  uuid4 : nat -> string;
  raises : nat -> bool;
  bus_rejects : nat -> bool;
  str_of : json -> string
}.

(** Computations that read and change the world and may raise. *)
Definition M (A : Type) : Type := world -> outcome A * world.

#[global] Instance M_ret : MRet M := fun _ a w => (Ret a, w).
#[global] Instance M_bind : MBind M := fun _ _ k c w =>
  match c w with
  | (Ret a, w') => k a w'
  | (Raise e, w') => (Raise e, w')
  end.

Definition lift {A} (c : outcome A) : M A := fun w => (c, w).
Definition raise {A} (e : exn) : M A := fun w => (Raise e, w).

(** [try: c  except Exception as e: h e] *)
Definition try_except {A} (c : M A) (h : exn -> M A) : M A := fun w =>
  match c w with
  | (Ret a, w') => (Ret a, w')
  | (Raise e, w') => h e w'
  end.

Module Services.
Section WithRuntime.
Context (rt : runtime).

(** [f"{v}"] *)
Definition format (v : json) : string :=
  match v with
  | JStr s => s
  | _ => str_of rt v
  end.

Definition now : M string := fun w => (Ret (utcnow_isoformat rt (length (calls w))), w).
Definition new_uuid : M string := fun w => (Ret (uuid4 rt (length (calls w))), w).

Definition record_call (c : call) (w : world) : world :=
  {| table := table w; bus := bus w; bucket := bucket w; calls := calls w ++ [c] |}.

(** One call to a service: it is recorded, then it raises or takes effect. *)
Definition service {A} (c : call) (effect : world -> outcome A * world) : M A := fun w =>
  let w1 := record_call c w in
  if raises rt (length (calls w)) then (Raise (ServiceError "ClientError"), w1)
  else effect w1.

Definition set_table (t : gmap (string * string) (gmap string json)) (w : world) : world :=
  {| table := t; bus := bus w; bucket := bucket w; calls := calls w |}.

(** The primary key of an item, when it has one. *)
Definition item_key (item : gmap string json) : option (string * string) :=
  match item !! "PK", item !! "SK" with
  | Some (JStr pk), Some (JStr sk) => Some (pk, sk)
  | _, _ => None
  end.

(** [table.get_item(Key=...)]: the ['Item'] of the response, if any *)
Definition get_item (key : string * string) : M (option (gmap string json)) :=
  service (GetItem key) (fun w => (Ret (table w !! key), w)).

(** [table.put_item(Item=...)] *)
Definition put_item (item : gmap string json) : M unit :=
  service (PutItem item) (fun w =>
    match item_key item with
    | Some key => (Ret (), set_table (<[key := item]> (table w)) w)
    | None => (Raise (ServiceError "ValidationException"), w)
    end).

(** The reserved words of DynamoDB (Developer Guide, "Reserved words in
    DynamoDB"), which an expression may not use as an attribute name unless
    it goes through [ExpressionAttributeNames]; the handlers pass none. *)
Definition reserved_words : list string :=
  ["ABORT"; "ABSOLUTE"; "ACTION"; "ADD"; "AFTER"; "AGENT"; "AGGREGATE"; "ALL";
   "ALLOCATE"; "ALTER"; "ANALYZE"; "AND"; "ANY"; "ARCHIVE"; "ARE"; "ARRAY"; "AS";
   "ASC"; "ASCII"; "ASENSITIVE"; "ASSERTION"; "ASYMMETRIC"; "AT"; "ATOMIC";
   "ATTACH"; "ATTRIBUTE"; "AUTH"; "AUTHORIZATION"; "AUTHORIZE"; "AUTO"; "AVG";
   "BACK"; "BACKUP"; "BASE"; "BATCH"; "BEFORE"; "BEGIN"; "BETWEEN"; "BIGINT";
   "BINARY"; "BIT"; "BLOB"; "BLOCK"; "BOOLEAN"; "BOTH"; "BREADTH"; "BUCKET";
   "BULK"; "BY"; "BYTE"; "CALL"; "CALLED"; "CALLING"; "CAPACITY"; "CASCADE";
   "CASCADED"; "CASE"; "CAST"; "CATALOG"; "CHAR"; "CHARACTER"; "CHECK"; "CLASS";
   "CLOB"; "CLOSE"; "CLUSTER"; "CLUSTERED"; "CLUSTERING"; "CLUSTERS"; "COALESCE";
   "COLLATE"; "COLLATION"; "COLLECTION"; "COLUMN"; "COLUMNS"; "COMBINE";
   "COMMENT"; "COMMIT"; "COMPACT"; "COMPILE"; "COMPRESS"; "CONDITION";
   "CONFLICT"; "CONNECT"; "CONNECTION"; "CONSISTENCY"; "CONSISTENT";
   "CONSTRAINT"; "CONSTRAINTS"; "CONSTRUCTOR"; "CONSUMED"; "CONTINUE"; "CONVERT";
   "COPY"; "CORRESPONDING"; "COUNT"; "COUNTER"; "CREATE"; "CROSS"; "CUBE";
   "CURRENT"; "CURSOR"; "CYCLE"; "DATA"; "DATABASE"; "DATE"; "DATETIME"; "DAY";
   "DEALLOCATE"; "DEC"; "DECIMAL"; "DECLARE"; "DEFAULT"; "DEFERRABLE";
   "DEFERRED"; "DEFINE"; "DEFINED"; "DEFINITION"; "DELETE"; "DELIMITED"; "DEPTH";
   "DEREF"; "DESC"; "DESCRIBE"; "DESCRIPTOR"; "DETACH"; "DETERMINISTIC";
   "DIAGNOSTICS"; "DIRECTORIES"; "DISABLE"; "DISCONNECT"; "DISTINCT";
   "DISTRIBUTE"; "DO"; "DOMAIN"; "DOUBLE"; "DROP"; "DUMP"; "DURATION"; "DYNAMIC";
   "EACH"; "ELEMENT"; "ELSE"; "ELSEIF"; "EMPTY"; "ENABLE"; "END"; "EQUAL";
   "EQUALS"; "ERROR"; "ESCAPE"; "ESCAPED"; "EVAL"; "EVALUATE"; "EXCEEDED";
   "EXCEPT"; "EXCEPTION"; "EXCEPTIONS"; "EXCLUSIVE"; "EXEC"; "EXECUTE"; "EXISTS";
   "EXIT"; "EXPLAIN"; "EXPLODE"; "EXPORT"; "EXPRESSION"; "EXTENDED"; "EXTERNAL";
   "EXTRACT"; "FAIL"; "FALSE"; "FAMILY"; "FETCH"; "FIELDS"; "FILE"; "FILTER";
   "FILTERING"; "FINAL"; "FINISH"; "FIRST"; "FIXED"; "FLATTERN"; "FLOAT"; "FOR";
   "FORCE"; "FOREIGN"; "FORMAT"; "FORWARD"; "FOUND"; "FREE"; "FROM"; "FULL";
   "FUNCTION"; "FUNCTIONS"; "GENERAL"; "GENERATE"; "GET"; "GLOB"; "GLOBAL"; "GO";
   "GOTO"; "GRANT"; "GREATER"; "GROUP"; "GROUPING"; "HANDLER"; "HASH"; "HAVE";
   "HAVING"; "HEAP"; "HIDDEN"; "HOLD"; "HOUR"; "IDENTIFIED"; "IDENTITY"; "IF";
   "IGNORE"; "IMMEDIATE"; "IMPORT"; "IN"; "INCLUDING"; "INCLUSIVE"; "INCREMENT";
   "INCREMENTAL"; "INDEX"; "INDEXED"; "INDEXES"; "INDICATOR"; "INFINITE";
   "INITIALLY"; "INLINE"; "INNER"; "INNTER"; "INOUT"; "INPUT"; "INSENSITIVE";
   "INSERT"; "INSTEAD"; "INT"; "INTEGER"; "INTERSECT"; "INTERVAL"; "INTO";
   "INVALIDATE"; "IS"; "ISOLATION"; "ITEM"; "ITEMS"; "ITERATE"; "JOIN"; "KEY";
   "KEYS"; "LAG"; "LANGUAGE"; "LARGE"; "LAST"; "LATERAL"; "LEAD"; "LEADING";
   "LEAVE"; "LEFT"; "LENGTH"; "LESS"; "LEVEL"; "LIKE"; "LIMIT"; "LIMITED";
   "LINES"; "LIST"; "LOAD"; "LOCAL"; "LOCALTIME"; "LOCALTIMESTAMP"; "LOCATION";
   "LOCATOR"; "LOCK"; "LOCKS"; "LOG"; "LOGED"; "LONG"; "LOOP"; "LOWER"; "MAP";
   "MATCH"; "MATERIALIZED"; "MAX"; "MAXLEN"; "MEMBER"; "MERGE"; "METHOD";
   "METRICS"; "MIN"; "MINUS"; "MINUTE"; "MISSING"; "MOD"; "MODE"; "MODIFIES";
   "MODIFY"; "MODULE"; "MONTH"; "MULTI"; "MULTISET"; "NAME"; "NAMES"; "NATIONAL";
   "NATURAL"; "NCHAR"; "NCLOB"; "NEW"; "NEXT"; "NO"; "NONE"; "NOT"; "NULL";
   "NULLIF"; "NUMBER"; "NUMERIC"; "OBJECT"; "OF"; "OFFLINE"; "OFFSET"; "OLD";
   "ON"; "ONLINE"; "ONLY"; "OPAQUE"; "OPEN"; "OPERATOR"; "OPTION"; "OR"; "ORDER";
   "ORDINALITY"; "OTHER"; "OTHERS"; "OUT"; "OUTER"; "OUTPUT"; "OVER"; "OVERLAPS";
   "OVERRIDE"; "OWNER"; "PAD"; "PARALLEL"; "PARAMETER"; "PARAMETERS"; "PARTIAL";
   "PARTITION"; "PARTITIONED"; "PARTITIONS"; "PATH"; "PERCENT"; "PERCENTILE";
   "PERMISSION"; "PERMISSIONS"; "PIPE"; "PIPELINED"; "PLAN"; "POOL"; "POSITION";
   "PRECISION"; "PREPARE"; "PRESERVE"; "PRIMARY"; "PRIOR"; "PRIVATE";
   "PRIVILEGES"; "PROCEDURE"; "PROCESSED"; "PROJECT"; "PROJECTION"; "PROPERTY";
   "PROVISIONING"; "PUBLIC"; "PUT"; "QUERY"; "QUIT"; "QUORUM"; "RAISE"; "RANDOM";
   "RANGE"; "RANK"; "RAW"; "READ"; "READS"; "REAL"; "REBUILD"; "RECORD";
   "RECURSIVE"; "REDUCE"; "REF"; "REFERENCE"; "REFERENCES"; "REFERENCING";
   "REGEXP"; "REGION"; "REINDEX"; "RELATIVE"; "RELEASE"; "REMAINDER"; "RENAME";
   "REPEAT"; "REPLACE"; "REQUEST"; "RESET"; "RESIGNAL"; "RESOURCE"; "RESPONSE";
   "RESTORE"; "RESTRICT"; "RESULT"; "RETURN"; "RETURNING"; "RETURNS"; "REVERSE";
   "REVOKE"; "RIGHT"; "ROLE"; "ROLES"; "ROLLBACK"; "ROLLUP"; "ROUTINE"; "ROW";
   "ROWS"; "RULE"; "RULES"; "SAMPLE"; "SATISFIES"; "SAVE"; "SAVEPOINT"; "SCAN";
   "SCHEMA"; "SCOPE"; "SCROLL"; "SEARCH"; "SECOND"; "SECTION"; "SEGMENT";
   "SEGMENTS"; "SELECT"; "SELF"; "SEMI"; "SENSITIVE"; "SEPARATE"; "SEQUENCE";
   "SERIALIZABLE"; "SESSION"; "SET"; "SETS"; "SHARD"; "SHARE"; "SHARED"; "SHORT";
   "SHOW"; "SIGNAL"; "SIMILAR"; "SIZE"; "SKEWED"; "SMALLINT"; "SNAPSHOT"; "SOME";
   "SOURCE"; "SPACE"; "SPACES"; "SPARSE"; "SPECIFIC"; "SPECIFICTYPE"; "SPLIT";
   "SQL"; "SQLCODE"; "SQLERROR"; "SQLEXCEPTION"; "SQLSTATE"; "SQLWARNING";
   "START"; "STATE"; "STATIC"; "STATISTICS"; "STATUS"; "STORAGE"; "STORE";
   "STORED"; "STREAM"; "STRING"; "STRUCT"; "STYLE"; "SUB"; "SUBMULTISET";
   "SUBPARTITION"; "SUBSTRING"; "SUBTYPE"; "SUM"; "SUPER"; "SYMMETRIC";
   "SYNONYM"; "SYSTEM"; "TABLE"; "TABLESAMPLE"; "TEMP"; "TEMPORARY";
   "TERMINATED"; "TEXT"; "THAN"; "THEN"; "THROUGH"; "TIME"; "TIMESTAMP";
   "TIMEZONE"; "TINYINT"; "TO"; "TOKEN"; "TOTAL"; "TOUCH"; "TRAILING";
   "TRANSACTION"; "TRANSFORM"; "TRANSLATE"; "TRANSLATION"; "TREAT"; "TRIGGER";
   "TRIM"; "TRUE"; "TRUNCATE"; "TTL"; "TUPLE"; "TYPE"; "UNDER"; "UNDO"; "UNION";
   "UNIQUE"; "UNIT"; "UNKNOWN"; "UNLOGGED"; "UNNEST"; "UNPROCESSED"; "UNSIGNED";
   "UNTIL"; "UPDATE"; "UPPER"; "URL"; "USAGE"; "USE"; "USER"; "USERS"; "USING";
   "UUID"; "VACUUM"; "VALUE"; "VALUED"; "VALUES"; "VARCHAR"; "VARIABLE";
   "VARIANCE"; "VARINT"; "VARYING"; "VIEW"; "VIEWS"; "VIRTUAL"; "VOID"; "WAIT";
   "WHEN"; "WHENEVER"; "WHERE"; "WHILE"; "WINDOW"; "WITH"; "WITHIN"; "WITHOUT";
   "WORK"; "WRAPPED"; "WRITE"; "YEAR"; "ZONE"].

(** Reserved words are matched without regard to case. *)
Definition upper_ascii (c : Ascii.ascii) : Ascii.ascii :=
  let n := Ascii.nat_of_ascii c in
  if Nat.leb 97 n && Nat.leb n 122 then Ascii.ascii_of_nat (n - 32) else c.

Fixpoint upper (s : string) : string :=
  match s with
  | EmptyString => EmptyString
  | String c rest => String (upper_ascii c) (upper rest)
  end.

Definition is_reserved (attribute : string) : bool :=
  existsb (String.eqb (upper attribute)) reserved_words.

(** The [SET] clause applied to an item, one assignment after the other. *)
Fixpoint apply_set (update_expression : list (string * string))
    (expression_values : gmap string json) (item : gmap string json)
    : option (gmap string json) :=
  match update_expression with
  | [] => Some item
  | (attribute, placeholder) :: rest =>
    match expression_values !! placeholder with
    | Some v => apply_set rest expression_values (<[attribute := v]> item)
    | None => None
    end
  end.

(** [table.update_item(Key=..., UpdateExpression=..., ExpressionAttributeValues=...,
    ReturnValues='ALL_NEW')]: the ['Attributes'] of the response.  The store
    refuses an expression that assigns to a reserved word (the attribute
    names stand in the expression as they are) and writes nothing then.  An
    item that does not exist is created from its key. *)
Definition update_item (key : string * string)
    (update_expression : list (string * string)) (expression_values : gmap string json)
    : M (gmap string json) :=
  service (UpdateItem key update_expression expression_values) (fun w =>
    if existsb (fun assignment => is_reserved assignment.1) update_expression
    then (Raise (ServiceError "ValidationException"), w)
    else
      let old :=
        default (<["PK" := JStr key.1]> (<["SK" := JStr key.2]> ∅)) (table w !! key) in
      match apply_set update_expression expression_values old with
      | Some new => (Ret new, set_table (<[key := new]> (table w)) w)
      | None => (Raise (ServiceError "ValidationException"), w)
      end).

(** [table.delete_item(Key=...)] *)
Definition delete_item (key : string * string) : M unit :=
  service (DeleteItem key) (fun w => (Ret (), set_table (delete key (table w)) w)).

(** [eventbridge.put_events(Entries=[entry])]: the [FailedEntryCount] of the
    response *)
Definition put_events (entry : bus_entry) : M nat := fun w =>
  service (PutEvents entry) (fun w1 =>
    if bus_rejects rt (length (calls w)) then (Ret 1, w1)
    else (Ret 0, {| table := table w1; bus := bus w1 ++ [entry];
                    bucket := bucket w1; calls := calls w1 |})) w.

(** [s3.put_object(Bucket=..., Key=..., Body=json.dumps(...))] *)
Definition put_object (object_key : string) (object_body : gmap string json) : M unit :=
  service (PutObject object_key object_body) (fun w =>
    (Ret (), {| table := table w; bus := bus w;
                bucket := <[object_key := object_body]> (bucket w); calls := calls w |})).

End WithRuntime.
End Services.

(** ** The requests of the HTTP API *)

(** [event['body']] after [json.loads]: the key may be missing ([KeyError]),
    the value [null] ([TypeError]), not a JSON text ([JSONDecodeError]), or it
    decodes to a document. *)
Inductive request_body :=
| BodyMissing
| BodyNull
| BodyMalformed
| BodyJson (v : json).

(** A proxy event of the API gateway: the context the authorizer attached
    ([None]: [event['requestContext']['authorizer']] raises [KeyError]), the
    path parameters ([None]: [null]) and the body.  The gateway hands both
    dictionaries over with string values. *)
Record api_event := {
  authorizer : option (gmap string string);
  pathParameters : option (gmap string string);
  event_body : request_body
}.

(** [d[k]] on a dictionary of strings *)
Definition getitem (d : gmap string string) (k : string) : M string :=
  match d !! k with
  | Some v => mret v
  | None => raise (KeyError k)
  end.

(** [event['requestContext']['authorizer']] *)
Definition event_authorizer (event : api_event) : M (gmap string string) :=
  match authorizer event with
  | Some a => mret a
  | None => raise (KeyError "authorizer")
  end.

(** [event['pathParameters']['id']] *)
Definition event_path_id (event : api_event) : M string :=
  match pathParameters event with
  | Some p => getitem p "id"
  | None => raise (TypeError "'NoneType' object is not subscriptable")
  end.

(** [json.loads(event['body'])] *)
Definition event_json_body (event : api_event) : M json :=
  match event_body event with
  | BodyMissing => raise (KeyError "body")
  | BodyNull => raise (TypeError "the JSON object must be str, bytes or bytearray, not NoneType")
  | BodyMalformed => raise JSONDecodeError
  | BodyJson v => mret v
  end.

Definition json_headers : gmap string string :=
  {[ "Content-Type" := "application/json" ]}.
Definition cors_headers : gmap string string :=
  <["Content-Type" := "application/json"]> {[ "Access-Control-Allow-Origin" := "*" ]}.

Definition error_response (status : Z) (error message : string) : Utils.response :=
  {| Utils.statusCode := status;
     Utils.headers := json_headers;
     Utils.body := <["error" := JStr error]> {[ "message" := JStr message ]} |}.

(** ** services/tasks/create_task.py *)

Module CreateTask.
Section WithRuntime.
Context (rt : runtime).
Import Services.

Definition task_item (tenant_id user_id task_id current_time : string)
    (title status description priority assigned_to : json) : gmap string json :=
  <["PK" := JStr ("TENANT#" ++ tenant_id)]> (
  <["SK" := JStr ("TASK#" ++ task_id)]> (
  <["GSI1PK" := JStr ("TENANT#" ++ tenant_id)]> (
  <["GSI1SK" := JStr ("STATUS#" ++ format rt status ++ "#" ++ current_time)]> (
  <["task_id" := JStr task_id]> (
  <["tenant_id" := JStr tenant_id]> (
  <["title" := title]> (
  <["description" := description]> (
  <["status" := status]> (
  <["priority" := priority]> (
  <["assigned_to" := assigned_to]> (
  <["created_by" := JStr user_id]> (
  <["created_at" := JStr current_time]> (
  <["updated_at" := JStr current_time]> (
  {[ "entity_type" := JStr "TASK" ]})))))))))))))).

(** The attributes of [item] named in [fields], as the response lists them;
    [item[field]] raises on a missing one. *)
Fixpoint project (item : gmap string json) (fields : list string)
    : outcome (gmap string json) :=
  match fields with
  | [] => Ret ∅
  | field :: rest =>
    match item !! field with
    | Some v => m ← project item rest; Ret (<[field := v]> m)
    | None => Raise (KeyError field)
    end
  end.

Definition response_fields : list string :=
  ["task_id"; "tenant_id"; "title"; "description"; "status"; "priority";
   "assigned_to"; "created_by"; "created_at"; "updated_at"].

Definition handler_body (event : api_event) : M Utils.response :=
  authorizer ← event_authorizer event;
  tenant_id ← getitem authorizer "tenant_id";
  user_id ← getitem authorizer "user_id";
  user_role ← getitem authorizer "role";
  body ← event_json_body event;
  title ← lift (py_get body "title" JNull);
  if negb (truthy title) then
    mret (error_response 400 "Title is required" "Task title cannot be empty")
  else
    task_id ← new_uuid rt;
    t ← now rt;
    let current_time := t ++ "Z" in
    status ← lift (py_get body "status" (JStr "OPEN"));
    description ← lift (py_get body "description" (JStr ""));
    priority ← lift (py_get body "priority" (JStr "MEDIUM"));
    assigned_to ← lift (py_get body "assigned_to" (JStr ""));
    let item := task_item tenant_id user_id task_id current_time
                  title status description priority assigned_to in
    put_item rt item;;
    let event_detail : gmap string json :=
      <["task_id" := JStr task_id]> (
      <["tenant_id" := JStr tenant_id]> (
      <["title" := title]> (
      <["created_by" := JStr user_id]> (
      {[ "created_at" := JStr current_time ]})))) in
    put_events rt {| Source := "saas.tasks"; DetailType := "Task Created";
                  Detail := event_detail |};;
    response_task ← lift (project item response_fields);
    mret {| Utils.statusCode := 201;
            Utils.headers := cors_headers;
            Utils.body := response_task |}.

Definition handler (event : api_event) : M Utils.response :=
  try_except (handler_body event) (fun e =>
    match e with
    | KeyError _ =>
      mret (error_response 400 "Bad Request" ("Missing required field: " ++ exn_str e))
    | JSONDecodeError =>
      mret (error_response 400 "Invalid JSON" "Request body must be valid JSON")
    | _ =>
      mret (error_response 500 "Internal Server Error" "Failed to create task")
    end).

End WithRuntime.
End CreateTask.

(** ** services/tasks/update_task.py *)

(** [v[k]] for a string literal [k] *)
Definition py_getitem (v : json) (k : string) : outcome json :=
  match v with
  | JObj m => match m !! k with Some x => Ret x | None => Raise (KeyError k) end
  | JArr _ => Raise (TypeError "list indices must be integers or slices, not str")
  | JStr _ => Raise (TypeError "string indices must be integers")
  | _ => Raise (TypeError ("'" ++ type_name v ++ "' object is not subscriptable"))
  end.

Module UpdateTask.
Section WithRuntime.
Context (rt : runtime).
Import Services.

Definition updatable_fields : list string :=
  ["title"; "description"; "status"; "priority"; "assigned_to"].

(** The loop over [updatable_fields]: the assignments and the values it
    appends to those collected so far. *)
Fixpoint collect_fields (body : json) (fields : list string)
    (update_expression : list (string * string)) (expression_values : gmap string json)
    : outcome (list (string * string) * gmap string json) :=
  match fields with
  | [] => Ret (update_expression, expression_values)
  | field :: rest =>
    present ← py_in field body;
    if present : bool then
      v ← py_getitem body field;
      collect_fields body rest
        ((update_expression ++ [(field, ":" ++ field)%string])%list)
        (<[":" ++ field := v]> expression_values)
    else collect_fields body rest update_expression expression_values
  end.

(** The update expression and its values for a body, at time [updated_at]. *)
Definition build_update (body : json) (updated_at : string)
    : outcome (list (string * string) * gmap string json) :=
  '(update_expression, expression_values) ←
     collect_fields body updatable_fields
       [("updated_at", ":updated_at")] {[ ":updated_at" := JStr updated_at ]};
  has_status ← py_in "status" body;
  if has_status : bool then
    status ← py_getitem body "status";
    Ret ((update_expression ++ [("GSI1SK", ":gsi1sk")])%list,
         <[":gsi1sk" := JStr ("STATUS#" ++ format rt status ++ "#" ++ updated_at)]>
           expression_values)
  else Ret (update_expression, expression_values).

Definition response_task (updated_task : gmap string json) : outcome (gmap string json) :=
  task_id ← py_getitem (JObj updated_task) "task_id";
  tenant_id ← py_getitem (JObj updated_task) "tenant_id";
  title ← py_getitem (JObj updated_task) "title";
  let description := default (JStr "") (updated_task !! "description") in
  status ← py_getitem (JObj updated_task) "status";
  let priority := default (JStr "MEDIUM") (updated_task !! "priority") in
  let assigned_to := default (JStr "") (updated_task !! "assigned_to") in
  let created_by := default (JStr "") (updated_task !! "created_by") in
  created_at ← py_getitem (JObj updated_task) "created_at";
  updated_at ← py_getitem (JObj updated_task) "updated_at";
  Ret (<["task_id" := task_id]> (
       <["tenant_id" := tenant_id]> (
       <["title" := title]> (
       <["description" := description]> (
       <["status" := status]> (
       <["priority" := priority]> (
       <["assigned_to" := assigned_to]> (
       <["created_by" := created_by]> (
       <["created_at" := created_at]> (
       {[ "updated_at" := updated_at ]})))))))))).

Definition handler_body (event : api_event) : M Utils.response :=
  authorizer ← event_authorizer event;
  tenant_id ← getitem authorizer "tenant_id";
  user_id ← getitem authorizer "user_id";
  user_role ← getitem authorizer "role";
  task_id ← event_path_id event;
  body ← event_json_body event;
  let key := ("TENANT#" ++ tenant_id, "TASK#" ++ task_id) in
  existing_task_response ← get_item rt key;
  match existing_task_response with
  | None =>
    mret (error_response 404 "Task Not Found"
            ("Task " ++ task_id ++ " not found for tenant " ++ tenant_id))
  | Some existing_task =>
    if String.eqb user_role "MEMBER"
       && negb (eq_str (default JNull (existing_task !! "created_by")) user_id)
    then mret (error_response 403 "Forbidden" "Members can only update their own tasks")
    else
      t ← now rt;
      '(update_expression, expression_values) ← lift (build_update body (t ++ "Z"));
      updated_task ← update_item rt key update_expression expression_values;
      task ← lift (response_task updated_task);
      lift (dumps_read (JObj task));;
      mret {| Utils.statusCode := 200;
              Utils.headers := cors_headers;
              Utils.body := task |}
  end.

Definition handler (event : api_event) : M Utils.response :=
  try_except (handler_body event) (fun e =>
    match e with
    | KeyError _ =>
      mret (error_response 400 "Bad Request" ("Missing required field: " ++ exn_str e))
    | JSONDecodeError =>
      mret (error_response 400 "Invalid JSON" "Request body must be valid JSON")
    | _ =>
      mret (error_response 500 "Internal Server Error" "Failed to update task")
    end).

End WithRuntime.
End UpdateTask.

(** ** services/tasks/delete_task.py *)

Module DeleteTask.
Section WithRuntime.
Context (rt : runtime).
Import Services.

Definition handler_body (event : api_event) : M Utils.response :=
  authorizer ← event_authorizer event;
  tenant_id ← getitem authorizer "tenant_id";
  user_id ← getitem authorizer "user_id";
  user_role ← getitem authorizer "role";
  task_id ← event_path_id event;
  if negb (String.eqb user_role "ADMIN") then
    mret (error_response 403 "Forbidden" "Only administrators can delete tasks")
  else
    let key := ("TENANT#" ++ tenant_id, "TASK#" ++ task_id) in
    existing_task_response ← get_item rt key;
    match existing_task_response with
    | None =>
      mret (error_response 404 "Task Not Found"
              ("Task " ++ task_id ++ " not found for tenant " ++ tenant_id))
    | Some existing_task =>
      delete_item rt key;;
      let confirmation : gmap string json :=
        <["message" := JStr "Task deleted successfully"]>
        {[ "deleted_task" := JObj (
             <["task_id" := JStr task_id]> (
             <["tenant_id" := JStr tenant_id]> (
             <["title" := default (JStr "") (existing_task !! "title")]> (
             <["deleted_by" := JStr user_id]> (
             {[ "deleted_at" :=
                  default (JStr "") (existing_task !! "updated_at") ]}))))) ]} in
      lift (dumps_read (JObj confirmation));;
      mret {| Utils.statusCode := 200;
              Utils.headers := cors_headers;
              Utils.body := confirmation |}
    end.

Definition handler (event : api_event) : M Utils.response :=
  try_except (handler_body event) (fun e =>
    match e with
    | KeyError _ =>
      mret (error_response 400 "Bad Request" ("Missing required field: " ++ exn_str e))
    | _ =>
      mret (error_response 500 "Internal Server Error" "Failed to delete task")
    end).

End WithRuntime.
End DeleteTask.

(** ** services/auth/authorizer.py *)

(** [for x in v]: the elements the loop visits *)
Definition py_iter (v : json) : outcome (list json) :=
  match v with
  | JArr l => Ret l
  | JStr s => Ret ((fun c => JStr (String c "")) <$> String.list_ascii_of_string s)
  | JObj m => Ret ((fun kv => JStr kv.1) <$> map_to_list m)
  | _ => Raise (TypeError ("'" ++ type_name v ++ "' object is not iterable"))
  end.

(** [s.replace(old, '')]: every occurrence of [old], left to right, is left
    out; [skip] counts the characters of an occurrence still to drop. *)
Fixpoint remove_all (old : string) (skip : nat) (s : string) : string :=
  match s with
  | "" => ""
  | String c rest =>
    match skip with
    | S n => remove_all old n rest
    | O =>
      if String.prefix old s && negb (String.eqb old "")
      then remove_all old (String.length old - 1) rest
      else String c (remove_all old 0 rest)
    end
  end.

Module Authorizer.

(** What the handler takes from PyJWT, [requests] and the interpreter: the
    header of a token read without verification, the key set fetched from
    the issuer, the public key of a key-set entry, the verified claims of
    a token, and [==] on two values that are not both strings.  Each call
    returns or raises. *)
Record library := {
  public_key : Type;
  get_unverified_header : string -> outcome (gmap string json);
  fetch_jwks : outcome json;
  from_jwk : json -> outcome public_key;
  decode : string -> public_key -> outcome (gmap string json);
  py_eq : json -> json -> bool
}.

Record statement := {
  Action : string;
  Effect : string;
  Resource : json
}.

Record policy_document := {
  Version : string;
  Statement : list statement
}.

(** The returned policy; [context] is [None] when the dictionary has no
    ['context'] key. *)
Record policy := {
  principalId : json;
  policyDocument : policy_document;
  context : option (gmap string json)
}.

Section WithLibrary.
Context (lib : library).

Definition equal (a b : json) : bool :=
  match a, b with
  | JStr x, JStr y => String.eqb x y
  | _, _ => py_eq lib a b
  end.

(** [get_jwks], under [lru_cache(maxsize=1)]: the cache holds the key set
    once a fetch has returned; a fetch that raises leaves it empty. *)
Definition get_jwks (cache : option json) : outcome json * option json :=
  match cache with
  | Some jwks => (Ret jwks, cache)
  | None =>
    match fetch_jwks lib with
    | Ret jwks => (Ret jwks, Some jwks)
    | Raise e => (Raise e, None)
    end
  end.

Fixpoint find_key (keys : list json) (token_header : gmap string json)
    : outcome (public_key lib) :=
  match keys with
  | [] => Raise (ValueError "Public key not found")
  | key :: rest =>
    kid ← py_getitem key "kid";
    kid' ← py_getitem (JObj token_header) "kid";
    if equal kid kid' then from_jwk lib key else find_key rest token_header
  end.

Definition get_public_key (token_header : gmap string json) (cache : option json)
    : outcome (public_key lib) * option json :=
  match get_jwks cache with
  | (Ret jwks, cache') =>
    (keys ← py_getitem jwks "keys"; l ← py_iter keys; find_key l token_header, cache')
  | (Raise e, cache') => (Raise e, cache')
  end.

Definition verify_token (token : string) (cache : option json)
    : outcome (gmap string json) * option json :=
  let '(result, cache') :=
    match get_unverified_header lib token with
    | Ret unverified_header =>
      match get_public_key unverified_header cache with
      | (Ret key, cache') => (decode lib token key, cache')
      | (Raise e, cache') => (Raise e, cache')
      end
    | Raise e => (Raise e, cache)
    end in
  match result with
  | Raise ExpiredSignatureError => (Raise (ValueError "Token has expired"), cache')
  | Raise (InvalidTokenError m) => (Raise (ValueError ("Invalid token: " ++ m)), cache')
  | _ => (result, cache')
  end.

Definition extract_tenant_context (claims : gmap string json)
    : outcome (gmap string json) :=
  let tenant_id := default (JStr "karachi-tech") (claims !! "custom:tenant_id") in
  let user_id := default JNull (claims !! "sub") in
  let email := default (JStr "") (claims !! "email") in
  let role := default (JStr "MEMBER") (claims !! "custom:role") in
  let cognito_groups := default (JArr []) (claims !! "cognito:groups") in
  admin ← py_in "Administrators" cognito_groups;
  role ← (if admin : bool then Ret (JStr "ADMIN")
          else member ← py_in "Members" cognito_groups;
               Ret (if member : bool then JStr "MEMBER" else role));
  Ret (<["tenant_id" := tenant_id]> (
       <["user_id" := user_id]> (
       <["email" := email]> (
       {[ "role" := role ]})))).

Definition generate_policy (effect : string) (resource : json)
    (context : option (gmap string json)) : policy :=
  let attached :=
    match context with
    | Some c => if truthy (JObj c) then Some c else None
    | None => None
    end in
  {| principalId :=
       match attached with
       | Some c => default (JStr "unknown") (c !! "user_id")
       | None => JStr "unknown"
       end;
     policyDocument :=
       {| Version := "2012-10-17";
          Statement := [ {| Action := "execute-api:Invoke";
                            Effect := effect;
                            Resource := resource |} ] |};
     context := attached |}.

(** The statements of the [try] block. *)
Definition handler_body (event : json) (cache : option json)
    : outcome policy * option json :=
  match py_get event "authorizationToken" (JStr "") with
  | Ret (JStr auth_token) =>
    if negb (String.prefix "Bearer " auth_token)
    then (Raise (ValueError "Invalid authorization header"), cache)
    else
      let jwt_token := remove_all "Bearer " 0 auth_token in
      match verify_token jwt_token cache with
      | (Ret claims, cache') =>
        (tenant_context ← extract_tenant_context claims;
         arn ← py_getitem event "methodArn";
         Ret (generate_policy "Allow" arn (Some tenant_context)), cache')
      | (Raise e, cache') => (Raise e, cache')
      end
  | Ret v => (Raise (AttributeError
                       ("'" ++ type_name v ++ "' object has no attribute 'startswith'")), cache)
  | Raise e => (Raise e, cache)
  end.

(** Both [except] clauses return the same policy; [event['methodArn']] is
    evaluated again there and may raise out of the handler. *)
Definition handler (event : json) (cache : option json) : outcome policy * option json :=
  match handler_body event cache with
  | (Ret p, cache') => (Ret p, cache')
  | (Raise e, cache') =>
    (arn ← py_getitem event "methodArn"; Ret (generate_policy "Deny" arn None), cache')
  end.

End WithLibrary.
End Authorizer.

(** ** events/task_created_handler.py *)

(** [v[:7]] *)
Definition py_slice7 (v : json) : outcome json :=
  match v with
  | JStr s => Ret (JStr (first_characters 7 s))
  | JArr l => Ret (JArr (take 7 l))
  | _ => Raise (TypeError ("'" ++ type_name v ++ "' object is not subscriptable"))
  end.

Module TaskCreatedHandler.

(** One entry of [processed_events]. *)
Record processed_event := {
  task_id : json;
  tenant_id : json;
  analytics : gmap string json;
  notifications : gmap string json;
  audit : gmap string json
}.

(** The dictionary the handler returns: ['error'] only on the failure
    branch, ['results'] only on the success branch. *)
Record summary := {
  statusCode : Z;
  error : option string;
  processed_events : nat;
  results : option (list processed_event)
}.

Section WithRuntime.
Context (rt : runtime).
Import Services.

(** [except Exception as e: return {'status': 'error', 'error': str(e)}] *)
Definition contained (step : M (gmap string json)) : M (gmap string json) :=
  try_except step (fun e =>
    mret (<["status" := JStr "error"]> {[ "error" := JStr (exn_str e) ]})).

Definition await_process_analytics (event_detail : json) : M (gmap string json) :=
  contained (
    tenant_id ← lift (py_getitem event_detail "tenant_id");
    task_id ← lift (py_getitem event_detail "task_id");
    created_at ← lift (py_getitem event_detail "created_at");
    created_by ← lift (py_get event_detail "created_by" JNull);
    let analytics_item : gmap string json :=
      <["PK" := JStr ("TENANT#" ++ format rt tenant_id)]> (
      <["SK" := JStr ("ANALYTICS#" ++ format rt created_at ++ "#" ++ format rt task_id)]> (
      <["GSI1PK" := JStr ("ANALYTICS#" ++ format rt tenant_id)]> (
      <["GSI1SK" := JStr ("TASK_CREATED#" ++ format rt created_at)]> (
      <["event_type" := JStr "TASK_CREATED"]> (
      <["task_id" := task_id]> (
      <["tenant_id" := tenant_id]> (
      <["created_by" := created_by]> (
      <["timestamp" := created_at]> (
      {[ "entity_type" := JStr "ANALYTICS" ]}))))))))) in
    put_item rt analytics_item;;
    let metrics_item : gmap string json :=
      <["PK" := JStr ("TENANT#" ++ format rt tenant_id)]> (
      <["SK" := JStr "METRICS#TASKS"]> (
      <["total_tasks" := JInt 1]> (
      <["tasks_this_month" := JInt 1]> (
      <["last_task_created" := created_at]> (
      {[ "entity_type" := JStr "METRICS" ]}))))) in
    put_item rt metrics_item;;
    mret (<["status" := JStr "success"]> (
          <["analytics_recorded" := JBool true]> (
          {[ "metrics_updated" := JBool true ]})))).

Definition await_send_notifications (event_detail : json) : M (gmap string json) :=
  contained (
    tenant_id ← lift (py_getitem event_detail "tenant_id");
    task_id ← lift (py_getitem event_detail "task_id");
    title ← lift (py_getitem event_detail "title");
    created_by ← lift (py_get event_detail "created_by" JNull);
    t ← now rt;
    let sk := "NOTIFICATION#" ++ t ++ "Z#" ++ format rt task_id in
    let notification_item : gmap string json :=
      <["PK" := JStr ("TENANT#" ++ format rt tenant_id)]> (
      <["SK" := JStr sk]> (
      <["notification_type" := JStr "TASK_CREATED"]> (
      <["task_id" := task_id]> (
      <["tenant_id" := tenant_id]> (
      <["title" := title]> (
      <["created_by" := created_by]> (
      <["status" := JStr "SENT"]> (
      <["channels" := JArr [JStr "email"; JStr "slack"]]> (
      {[ "entity_type" := JStr "NOTIFICATION" ]}))))))))) in
    put_item rt notification_item;;
    mret (<["status" := JStr "success"]> (
          <["channels" := JArr [JStr "email"; JStr "slack"]]> (
          {[ "notification_id" := JStr sk ]})))).

Definition await_create_audit_log (event_detail : json) : M (gmap string json) :=
  contained (
    tenant_id ← lift (py_getitem event_detail "tenant_id");
    task_id ← lift (py_getitem event_detail "task_id");
    created_at ← lift (py_getitem event_detail "created_at");
    created_by ← lift (py_get event_detail "created_by" JNull);
    task_title ← lift (py_getitem event_detail "title");
    let audit_item : gmap string json :=
      <["PK" := JStr ("TENANT#" ++ format rt tenant_id)]> (
      <["SK" := JStr ("AUDIT#" ++ format rt created_at ++ "#" ++ format rt task_id)]> (
      <["GSI1PK" := JStr ("AUDIT#" ++ format rt tenant_id)]> (
      <["GSI1SK" := JStr ("TASK_CREATED#" ++ format rt created_at)]> (
      <["action" := JStr "TASK_CREATED"]> (
      <["resource_type" := JStr "TASK"]> (
      <["resource_id" := task_id]> (
      <["tenant_id" := tenant_id]> (
      <["user_id" := created_by]> (
      <["timestamp" := created_at]> (
      <["details" := JObj (<["task_title" := task_title]>
                           {[ "event_source" := JStr "task_management_api" ]})]> (
      {[ "entity_type" := JStr "AUDIT" ]}))))))))))) in
    put_item rt audit_item;;
    month ← lift (py_slice7 created_at);
    let audit_key := "audit-logs/" ++ format rt tenant_id ++ "/" ++ format rt month
                     ++ "/" ++ format rt task_id ++ ".json" in
    put_object rt audit_key audit_item;;
    mret (<["status" := JStr "success"]> (
          <["audit_recorded" := JBool true]> (
          <["s3_backup" := JBool true]> (
          {[ "s3_key" := JStr audit_key ]}))))).

(** The body of the loop for one record: [None] when the record is from
    another source. *)
Definition process_record (record : json) : M (option processed_event) :=
  source ← lift (py_get record "source" JNull);
  if eq_str source "saas.tasks" then
    detail ← lift (py_get record "detail" (JObj ∅));
    task_id ← lift (py_get detail "task_id" JNull);
    tenant_id ← lift (py_get detail "tenant_id" JNull);
    title ← lift (py_get detail "title" JNull);
    created_by ← lift (py_get detail "created_by" JNull);
    created_at ← lift (py_get detail "created_at" JNull);
    analytics_result ← await_process_analytics detail;
    notification_result ← await_send_notifications detail;
    audit_result ← await_create_audit_log detail;
    mret (Some {| task_id := task_id; tenant_id := tenant_id;
                  analytics := analytics_result;
                  notifications := notification_result;
                  audit := audit_result |})
  else mret None.

(** The [for] loop: [processed_events] as it stands when the loop ends, and
    the exception that ended it, if one did. *)
Fixpoint process_records (records : list json) (processed_events : list processed_event)
    (w : world) : (list processed_event * option exn) * world :=
  match records with
  | [] => ((processed_events, None), w)
  | record :: rest =>
    match process_record record w with
    | (Ret (Some p), w') => process_records rest (processed_events ++ [p]) w'
    | (Ret None, w') => process_records rest processed_events w'
    | (Raise e, w') => ((processed_events, Some e), w')
    end
  end.

Definition handler (event : json) (w : world) : summary * world :=
  match records ← py_get event "Records" (JArr []); py_iter records with
  | Ret records =>
    match process_records records [] w with
    | ((processed, None), w') =>
      ({| statusCode := 200; error := None;
          processed_events := length processed; results := Some processed |}, w')
    | ((processed, Some e), w') =>
      ({| statusCode := 500; error := Some (exn_str e);
          processed_events := length processed; results := None |}, w')
    end
  | Raise e =>
    ({| statusCode := 500; error := Some (exn_str e);
        processed_events := 0; results := None |}, w)
  end.

End WithRuntime.
End TaskCreatedHandler.

(** ** services/common/utils.py, the response and context helpers *)

Module UtilsRest.

Definition default_headers : gmap string string :=
  <["Content-Type" := "application/json"]> (
  <["Access-Control-Allow-Origin" := "*"]> (
  <["Access-Control-Allow-Headers" := "Content-Type,Authorization"]> (
  {[ "Access-Control-Allow-Methods" := "GET,POST,PUT,DELETE,OPTIONS" ]}))).

(** [default_headers.update(headers)] runs when [headers] is given and not
    empty; the given headers win. *)
Definition generate_response (status_code : Z) (body : gmap string json)
    (headers : option (gmap string string)) : Utils.response :=
  {| Utils.statusCode := status_code;
     Utils.headers :=
       match headers with
       | Some h => if bool_decide (h = ∅) then default_headers else h ∪ default_headers
       | None => default_headers
       end;
     Utils.body := body |}.

(** [utcnow] is the clock reading [datetime.utcnow().isoformat()]. *)
Definition generate_error_response (utcnow : string) (status_code : Z)
    (error_type message : string) (details : option (gmap string json)) : Utils.response :=
  let error_body : gmap string json :=
    <["error" := JStr error_type]> (
    <["message" := JStr message]> (
    {[ "timestamp" := JStr (utcnow ++ "Z") ]})) in
  let error_body :=
    match details with
    | Some d => if truthy (JObj d) then <["details" := JObj d]> error_body else error_body
    | None => error_body
    end in
  generate_response status_code error_body None.

(** [extract_tenant_context]: a [KeyError] is reported as [ValueError]; any
    other exception ([TypeError] on a value that is not a dictionary) leaves
    the function as it is. *)
Definition extract_tenant_context (event : json) : outcome (gmap string json) :=
  let attempt : outcome (gmap string json) :=
    request_context ← py_getitem event "requestContext";
    authorizer ← py_getitem request_context "authorizer";
    tenant_id ← py_getitem authorizer "tenant_id";
    user_id ← py_getitem authorizer "user_id";
    role ← py_getitem authorizer "role";
    email ← py_get authorizer "email" (JStr "");
    Ret (<["tenant_id" := tenant_id]> (
         <["user_id" := user_id]> (
         <["role" := role]> (
         {[ "email" := email ]})))) in
  match attempt with
  | Raise (KeyError k) =>
    Raise (ValueError ("Missing authorization context: " ++ exn_str (KeyError k)))
  | other => other
  end.
Definition sanitize_task_for_response (task_item : gmap string json) : gmap string json :=
  <["task_id" := default JNull (task_item !! "task_id")]> (
  <["tenant_id" := default JNull (task_item !! "tenant_id")]> (
  <["title" := default JNull (task_item !! "title")]> (
  <["description" := default (JStr "") (task_item !! "description")]> (
  <["status" := default JNull (task_item !! "status")]> (
  <["priority" := default (JStr "MEDIUM") (task_item !! "priority")]> (
  <["assigned_to" := default (JStr "") (task_item !! "assigned_to")]> (
  <["created_by" := default (JStr "") (task_item !! "created_by")]> (
  <["created_at" := default JNull (task_item !! "created_at")]> (
  {[ "updated_at" := default JNull (task_item !! "updated_at") ]}))))))))).

End UtilsRest.

(** ** services/tasks/list_tasks.py *)

Module ListTasks.

(** [Key(hash_key).eq(hash_value) & Key(range_key).begins_with(range_prefix)] *)
Record key_condition := {
  hash_key : string;
  hash_value : string;
  range_key : string;
  range_prefix : string
}.

(** The keyword arguments of [table.query]; an absent key is [None]. *)
Record query_kwargs := {
  KeyConditionExpression : key_condition;
  Limit : Z;
  ScanIndexForward : bool;
  ExclusiveStartKey : option json;
  IndexName : option string
}.

(** What [table.query] answers: the page of items, and the key to go on
    from when there is more. *)
Record query_response := {
  Items : list (gmap string json);
  LastEvaluatedKey : option json
}.

(** What the handler takes from the interpreter, [json] and boto3: [int] on
    a string ([None]: it raises [ValueError], whose text quotes [repr] of the
    string), [json.loads] on a string ([None]: it raises [JSONDecodeError]),
    [json.dumps], and the query of the table. *)
Record library := {
  int_of : string -> option Z;
  repr : string -> string;
  loads : string -> option json;
  dumps : json -> outcome string;
  query : query_kwargs -> outcome query_response
}.

(** The proxy event of [GET /tasks]: the context the authorizer attached
    ([None]: [event['requestContext']['authorizer']] raises [KeyError]) and
    the query string parameters ([None]: absent or [null]). *)
Record event := {
  authorizer : option (gmap string string);
  queryStringParameters : option (gmap string string)
}.

Section WithLibrary.
Context (lib : library).

(** [d[k]] on a dictionary of strings *)
Definition item_of (d : gmap string string) (k : string) : outcome string :=
  match d !! k with
  | Some v => Ret v
  | None => Raise (KeyError k)
  end.

(** The handler up to the call of [table.query]: the tenant, the status
    filter and the keyword arguments of the query. *)
Definition request_query (ev : event) : outcome (string * option string * query_kwargs) :=
  authorizer ← match authorizer ev with
               | Some a => Ret a
               | None => Raise (KeyError "authorizer")
               end;
  tenant_id ← item_of authorizer "tenant_id";
  user_id ← item_of authorizer "user_id";
  user_role ← item_of authorizer "role";
  let query_params := default ∅ (queryStringParameters ev) in
  let status_filter := query_params !! "status" in
  limit ← match query_params !! "limit" with
          | Some s =>
            match int_of lib s with
            | Some n => Ret n
            | None =>
              Raise (ValueError ("invalid literal for int() with base 10: " ++ repr lib s))
            end
          | None => Ret 50%Z
          end;
  let last_key_param := query_params !! "last_key" in
  let limit := if (100 <? limit)%Z then 100%Z else limit in
  let query_kwargs :=
    {| KeyConditionExpression :=
         {| hash_key := "PK"; hash_value := "TENANT#" ++ tenant_id;
            range_key := "SK"; range_prefix := "TASK#" |};
       Limit := limit;
       ScanIndexForward := false;
       ExclusiveStartKey := None;
       IndexName := None |} in
  let query_kwargs :=
    match last_key_param with
    | Some text =>
      if String.eqb text "" then query_kwargs else
      match loads lib text with
      | Some last_key =>
        {| KeyConditionExpression := KeyConditionExpression query_kwargs;
           Limit := Limit query_kwargs;
           ScanIndexForward := ScanIndexForward query_kwargs;
           ExclusiveStartKey := Some last_key;
           IndexName := IndexName query_kwargs |}
      | None => query_kwargs
      end
    | None => query_kwargs
    end in
  let query_kwargs :=
    match status_filter with
    | Some status =>
      if String.eqb status "" then query_kwargs else
      {| KeyConditionExpression :=
           {| hash_key := "GSI1PK"; hash_value := "TENANT#" ++ tenant_id;
              range_key := "GSI1SK"; range_prefix := "STATUS#" ++ status ++ "#" |};
         Limit := Limit query_kwargs;
         ScanIndexForward := ScanIndexForward query_kwargs;
         ExclusiveStartKey := ExclusiveStartKey query_kwargs;
         IndexName := Some "GSI1" |}
    | None => query_kwargs
    end in
  Ret (tenant_id, status_filter, query_kwargs).

(** [item[k]] on an item of the table *)
Definition attribute (item : gmap string json) (k : string) : outcome json :=
  match item !! k with
  | Some v => Ret v
  | None => Raise (KeyError k)
  end.

(** The dictionary built for one item, its values in the order the source
    evaluates them. *)
Definition task_of (item : gmap string json) : outcome (gmap string json) :=
  task_id ← attribute item "task_id";
  tenant_id ← attribute item "tenant_id";
  title ← attribute item "title";
  let description := default (JStr "") (item !! "description") in
  status ← attribute item "status";
  let priority := default (JStr "MEDIUM") (item !! "priority") in
  let assigned_to := default (JStr "") (item !! "assigned_to") in
  let created_by := default (JStr "") (item !! "created_by") in
  created_at ← attribute item "created_at";
  updated_at ← attribute item "updated_at";
  Ret (<["task_id" := task_id]> (
       <["tenant_id" := tenant_id]> (
       <["title" := title]> (
       <["description" := description]> (
       <["status" := status]> (
       <["priority" := priority]> (
       <["assigned_to" := assigned_to]> (
       <["created_by" := created_by]> (
       <["created_at" := created_at]> (
       {[ "updated_at" := updated_at ]})))))))))).

(** [item.get('entity_type') == 'TASK'] *)
Definition is_task (item : gmap string json) : bool :=
  eq_str (default JNull (item !! "entity_type")) "TASK".

(** The loop over [response['Items']], [tasks] being the list so far. *)
Fixpoint collect_tasks (items : list (gmap string json)) (tasks : list (gmap string json))
    : outcome (list (gmap string json)) :=
  match items with
  | [] => Ret tasks
  | item :: rest =>
    if is_task item then
      task ← task_of item;
      collect_tasks rest (tasks ++ [task])%list
    else collect_tasks rest tasks
  end.

Definition handler_body (ev : event) : outcome Utils.response :=
  '(tenant_id, status_filter, query_kwargs) ← request_query ev;
  response ← query lib query_kwargs;
  tasks ← collect_tasks (Items response) [];
  let pagination : gmap string json :=
    <["count" := JInt (Z.of_nat (length tasks))]> (
    {[ "has_more" := JBool (bool_decide (is_Some (LastEvaluatedKey response))) ]}) in
  pagination ← match LastEvaluatedKey response with
               | Some last_key =>
                 text ← dumps lib last_key;
                 Ret (<["last_key" := JStr text]> pagination)
               | None => Ret pagination
               end;
  let body : gmap string json :=
    <["tasks" := JArr (JObj <$> tasks)]> (
    <["pagination" := JObj pagination]> (
    {[ "filters" := JObj (<["status" := from_option JStr JNull status_filter]> (
                          {[ "tenant_id" := JStr tenant_id ]})) ]})) in
  dumps lib (JObj body);;
  Ret {| Utils.statusCode := 200;
         Utils.headers := cors_headers;
         Utils.body := body |}.

(** [except ValueError] also catches its subclass [JSONDecodeError]. *)
Definition handler (ev : event) : Utils.response :=
  match handler_body ev with
  | Ret response => response
  | Raise e =>
    match e with
    | ValueError _ | JSONDecodeError =>
      error_response 400 "Bad Request" ("Invalid parameter: " ++ exn_str e)
    | _ => error_response 500 "Internal Server Error" "Failed to retrieve tasks"
    end
  end.

End WithLibrary.

(** DynamoDB's reading of a key condition: the hash attribute of the item
    is the given string and its range attribute is a string that begins with
    the prefix. *)
Definition satisfies (c : key_condition) (item : gmap string json) : bool :=
  eq_str (default JNull (item !! hash_key c)) (hash_value c)
  && match item !! range_key c with
     | Some (JStr s) => String.prefix (range_prefix c) s
     | _ => false
     end.

End ListTasks.

(** ** Sample runtimes, stores and requests *)

Definition str_of_scalar (v : json) : string :=
  match v with
  | JNull => "None"
  | JBool true => "True"
  | JBool false => "False"
  | JInt z => pretty z
  | JStr s => s
  | JArr _ => "[...]"
  | JObj _ => "{...}"
  end.

(** Every service call succeeds. *)
Definition rt_ok : runtime :=
  {| utcnow_isoformat := fun n => "2024-05-01T10:00:0" ++ pretty n;
     uuid4 := fun _ => "task-456";
     raises := fun _ => false;
     bus_rejects := fun _ => false;
     str_of := str_of_scalar |}.

(** The second service call of the invocation raises. *)
Definition rt_second_call_raises : runtime :=
  {| utcnow_isoformat := utcnow_isoformat rt_ok;
     uuid4 := uuid4 rt_ok;
     raises := fun n => Nat.eqb n 1;
     bus_rejects := fun _ => false;
     str_of := str_of_scalar |}.

Definition empty_world : world :=
  {| table := ∅; bus := []; bucket := ∅; calls := [] |}.

Definition task_123_key : string * string := ("TENANT#karachi-tech", "TASK#task-123").

(** A task of tenant [karachi-tech], created by [ahmed-hassan]. *)
Definition task_123 : gmap string json :=
  CreateTask.task_item rt_ok "karachi-tech" "ahmed-hassan" "task-123" "2024-04-30T09:00:00Z"
    (JStr "Setup Lahore office network infrastructure") (JStr "OPEN")
    (JStr "Configure routers and switches for Lahore branch") (JStr "HIGH") (JStr "").

Definition world_with_task : world :=
  {| table := {[ task_123_key := task_123 ]}; bus := []; bucket := ∅; calls := [] |}.

Definition context_of (user_id role : string) : gmap string string :=
  <["tenant_id" := "karachi-tech"]> (<["user_id" := user_id]> {[ "role" := role ]}).

Definition request (user_id role : string) (body : request_body) : api_event :=
  {| authorizer := Some (context_of user_id role);
     pathParameters := Some {[ "id" := "task-123" ]};
     event_body := body |}.

(** The status code of a handler's answer, and an attribute of a stored item. *)
Definition status_of (r : outcome Utils.response * world) : option Z :=
  match r.1 with
  | Ret x => Some (Utils.statusCode x)
  | Raise _ => None
  end.

Definition stored (w : world) (key : string * string) (attribute : string) : option json :=
  table w !! key ≫= (.!! attribute).

Fixpoint text_of_length (n : nat) : string :=
  match n with
  | O => ""
  | S k => String (Ascii.ascii_of_nat 97) (text_of_length k)
  end.

Definition create_request (role : string) (body : gmap string json) : api_event :=
  {| authorizer := Some (context_of "ahmed-hassan" role);
     pathParameters := None;
     event_body := BodyJson (JObj body) |}.

Definition task_456_key : string * string := ("TENANT#karachi-tech", "TASK#task-456").

(** No call raises; the second service call, the one to the bus, returns
    with its entry rejected. *)
Definition rt_bus_rejects : runtime :=
  {| utcnow_isoformat := utcnow_isoformat rt_ok;
     uuid4 := uuid4 rt_ok;
     raises := fun _ => false;
     bus_rejects := fun n => Nat.eqb n 1;
     str_of := str_of_scalar |}.

Definition ship_v1 : gmap string json :=
  <["title" := JStr "Ship v1"]> {[ "priority" := JStr "HIGH" ]}.

(** The effects a policy states, one per statement. *)
Definition effects (p : Authorizer.policy) : list string :=
  Authorizer.Effect <$> Authorizer.Statement (Authorizer.policyDocument p).

(** A library whose key set holds the token's key and whose [decode] finds
    the token expired, and one whose [decode] returns the claims of an
    administrator. *)
Definition lib_expired : Authorizer.library :=
  {| Authorizer.public_key := unit;
     Authorizer.get_unverified_header := fun _ => Ret {[ "kid" := JStr "key-1" ]};
     Authorizer.fetch_jwks := Ret (JObj {[ "keys" := JArr [JObj {[ "kid" := JStr "key-1" ]}] ]});
     Authorizer.from_jwk := fun _ => Ret ();
     Authorizer.decode := fun _ _ => Raise ExpiredSignatureError;
     Authorizer.py_eq := fun _ _ => false |}.

Definition lib_valid : Authorizer.library :=
  {| Authorizer.public_key := unit;
     Authorizer.get_unverified_header := fun _ => Ret {[ "kid" := JStr "key-1" ]};
     Authorizer.fetch_jwks := Ret (JObj {[ "keys" := JArr [JObj {[ "kid" := JStr "key-1" ]}] ]});
     Authorizer.from_jwk := fun _ => Ret ();
     Authorizer.decode := fun _ _ =>
       Ret (<["sub" := JStr "ahmed-hassan"]> (
            <["custom:tenant_id" := JStr "karachi-tech"]> (
            {[ "cognito:groups" := JArr [JStr "Administrators"] ]})));
     Authorizer.py_eq := fun _ _ => false |}.

Definition method_arn : json :=
  JStr "arn:aws:execute-api:us-east-1:123456789012:api/prod/GET/tasks".

Definition authorizer_event : json :=
  JObj (<["authorizationToken" := JStr "Bearer header.payload.signature"]>
        {[ "methodArn" := method_arn ]}).

(** A well-formed record of the fan-out batch, and one from the same source
    whose [detail] is [null]. *)
Definition good_record : json :=
  JObj (<["source" := JStr "saas.tasks"]>
        {[ "detail" := JObj (<["task_id" := JStr "task-456"]> (
                             <["tenant_id" := JStr "karachi-tech"]> (
                             <["title" := JStr "Ship v1"]> (
                             <["created_by" := JStr "ahmed-hassan"]> (
                             {[ "created_at" := JStr "2024-05-01T10:00:00Z" ]}))))) ]}).

Definition malformed_record : json :=
  JObj (<["source" := JStr "saas.tasks"]> {[ "detail" := JNull ]}).

Definition batch (records : list json) : json :=
  JObj {[ "Records" := JArr records ]}.

(** ** What the update is meant to do to a stored task *)

(** [new] is [old] merged with [body] at time [updated_at]: each of
    [title], [description], [priority] and [assigned_to] takes the body's value
    when the body has the field and keeps its value otherwise, [updated_at] is
    the time of the update, and every other attribute (the status and the
    keys of the table and of the index among them) keeps its value. *)
Definition field_level_merge (body old new : gmap string json) (updated_at : string) : Prop :=
  (forall f, f ∈ ["title"; "description"; "priority"; "assigned_to"] ->
     new !! f = match body !! f with Some v => Some v | None => old !! f end)
  /\ new !! "updated_at" = Some (JStr updated_at)
  /\ (forall f, f ∉ ["title"; "description"; "priority"; "assigned_to"; "updated_at"] ->
      new !! f = old !! f).

(** The answer that ends an update: 200 with the task, unless the task that
    was read back holds a number. *)
Definition update_answer (task : gmap string json) : Utils.response :=
  if holds_number (JObj task)
  then error_response 500 "Internal Server Error" "Failed to update task"
  else {| Utils.statusCode := 200; Utils.headers := cors_headers; Utils.body := task |}.

(** What a delete reads from the stored task for its confirmation, the
    confirmation, and the answer that ends a delete: 200 with the
    confirmation, unless the stored title or time stamp holds a number. *)
Definition deleted_title (existing : gmap string json) : json :=
  default (JStr "") (existing !! "title").
Definition deleted_at (existing : gmap string json) : json :=
  default (JStr "") (existing !! "updated_at").

Definition delete_confirmation (tenant user id : string) (existing : gmap string json)
    : gmap string json :=
  <["message" := JStr "Task deleted successfully"]>
  {[ "deleted_task" := JObj (
       <["task_id" := JStr id]> (
       <["tenant_id" := JStr tenant]> (
       <["title" := deleted_title existing]> (
       <["deleted_by" := JStr user]> (
       {[ "deleted_at" := deleted_at existing ]}))))) ]}.

Definition delete_answer (tenant user id : string) (existing : gmap string json)
    : Utils.response :=
  if holds_number (deleted_title existing) || holds_number (deleted_at existing)
  then error_response 500 "Internal Server Error" "Failed to delete task"
  else {| Utils.statusCode := 200; Utils.headers := cors_headers;
          Utils.body := delete_confirmation tenant user id existing |}.

(** A stored task whose title is a number, as create stores the title 7. *)
Definition numbered_task : gmap string json :=
  CreateTask.task_item rt_ok "karachi-tech" "ahmed-hassan" "task-123" "2024-04-30T09:00:00Z"
    (JInt 7) (JStr "OPEN") (JStr "") (JStr "MEDIUM") (JStr "").

Definition world_with_numbered_task : world :=
  {| table := {[ task_123_key := numbered_task ]}; bus := []; bucket := ∅; calls := [] |}.

Definition status_done : gmap string json := {[ "status" := JStr "DONE" ]}.
Definition priority_low : gmap string json := {[ "priority" := JStr "LOW" ]}.

(** More sample runtimes and stores: the first service call raises; a
    store with a task of another tenant. *)
Definition rt_first_call_raises : runtime :=
  {| utcnow_isoformat := utcnow_isoformat rt_ok;
     uuid4 := uuid4 rt_ok;
     raises := fun n => Nat.eqb n 0;
     bus_rejects := fun _ => false;
     str_of := str_of_scalar |}.

Definition lahore_key : string * string := ("TENANT#lahore-soft", "TASK#task-123").

Definition lahore_task : gmap string json :=
  CreateTask.task_item rt_ok "lahore-soft" "bilal" "task-123" "2024-04-29T08:00:00Z"
    (JStr "Quarterly report") (JStr "OPEN") (JStr "") (JStr "LOW") (JStr "").

Definition two_tenant_world : world :=
  {| table := <[lahore_key := lahore_task]> {[ task_123_key := task_123 ]};
     bus := []; bucket := ∅; calls := [] |}.

(** A store where task-123 exists for another tenant only. *)
Definition lahore_only_world : world :=
  {| table := {[ lahore_key := lahore_task ]}; bus := []; bucket := ∅; calls := [] |}.

(** A request of [user_id] that names the task [id]. *)
Definition request_for (id user_id role : string) (body : request_body) : api_event :=
  {| authorizer := Some (context_of user_id role);
     pathParameters := Some {[ "id" := id ]};
     event_body := body |}.

(** ** The item and the event of a create request *)

(** The item create builds for a body [b] with title [title], and the entry
    it publishes. *)
Definition created_item (rt : runtime) (tenant user task_id current_time : string)
    (b : gmap string json) (title : json) : gmap string json :=
  CreateTask.task_item rt tenant user task_id current_time title
    (default (JStr "OPEN") (b !! "status")) (default (JStr "") (b !! "description"))
    (default (JStr "MEDIUM") (b !! "priority")) (default (JStr "") (b !! "assigned_to")).

Definition created_entry (tenant user task_id current_time : string) (title : json)
    : bus_entry :=
  {| Source := "saas.tasks"; DetailType := "Task Created";
     Detail := <["task_id" := JStr task_id]> (
               <["tenant_id" := JStr tenant]> (
               <["title" := title]> (
               <["created_by" := JStr user]> (
               {[ "created_at" := JStr current_time ]})))) |}.

(** ** What the validators accept *)

(** A field counts as given when it is present, not [None] and not the
    empty string. *)
Definition given (data : gmap string json) (field : string) : Prop :=
  exists v, data !! field = Some v /\ v <> JNull /\ v <> JStr "".

(** The UTF-8 encoding of a code point, and of a text. *)
Definition byte (n : N) : Ascii.ascii := Ascii.ascii_of_N n.

Definition utf8 (c : N) : string :=
  (if c <? 128 then String (byte c) ""
   else if c <? 2048 then
     String (byte (192 + c / 64)) (String (byte (128 + c mod 64)) "")
   else if c <? 65536 then
     String (byte (224 + c / 4096))
       (String (byte (128 + (c / 64) mod 64)) (String (byte (128 + c mod 64)) ""))
   else
     String (byte (240 + c / 262144))
       (String (byte (128 + (c / 4096) mod 64))
          (String (byte (128 + (c / 64) mod 64)) (String (byte (128 + c mod 64)) ""))))%N.

Fixpoint encode (text : list N) : string :=
  match text with
  | [] => ""
  | c :: rest => utf8 c ++ encode rest
  end.

(** A value of at most [limit] characters or, for a list or a dictionary,
    entries. *)
Definition at_most (limit : nat) (v : json) : Prop :=
  match v with
  | JStr s => characters s <= limit
  | JArr l => length l <= limit
  | JObj m => size m <= limit
  | _ => False
  end.

(** The task data [validate_task_data] lets through: a given title of at
    most 200 characters, a description (the empty string when absent) of at
    most 1000, a status (OPEN when absent) and a priority (MEDIUM when absent)
    of the enumerated sets. *)
Definition acceptable_task (d : gmap string json) : Prop :=
  given d "title"
  /\ at_most 200 (default (JStr "") (d !! "title"))
  /\ at_most 1000 (default (JStr "") (d !! "description"))
  /\ (exists s, default (JStr "OPEN") (d !! "status") = JStr s
               /\ s ∈ ["OPEN"; "IN_PROGRESS"; "DONE"; "CANCELLED"])
  /\ (exists s, default (JStr "MEDIUM") (d !! "priority") = JStr s
               /\ s ∈ ["LOW"; "MEDIUM"; "HIGH"; "URGENT"]).

(** A title of 101 two-byte characters: 202 bytes. *)
Definition accented_title : string := encode (repeat 233%N 101).

(** ** The tenant context of an event *)

(** The keys [extract_tenant_context] reads, the context it builds from the
    authorizer's dictionary [a], and an event that carries [a]. *)
Definition context_keys : list string :=
  ["requestContext"; "authorizer"; "tenant_id"; "user_id"; "role"].

Definition tenant_context (a : gmap string json) (tenant user role : json) : gmap string json :=
  <["tenant_id" := tenant]> (<["user_id" := user]> (<["role" := role]>
    {[ "email" := default (JStr "") (a !! "email") ]})).

Definition carries (event : json) (a : gmap string json) : Prop :=
  exists e rc, event = JObj e /\ e !! "requestContext" = Some (JObj rc)
               /\ rc !! "authorizer" = Some (JObj a).

(** ** Tokens and key sets *)

(** Claims with a [custom:role] of ADMIN but membership of the Members
    group only. *)
Definition member_claims : gmap string json :=
  <["custom:role" := JStr "ADMIN"]> {[ "cognito:groups" := JArr [JStr "Members"] ]}.

(** A token header, or a key-set entry, with the key id [kid]. *)
Definition kid_entry (kid : string) : gmap string json := {[ "kid" := JStr kid ]}.

(** Events of the authorizer: a Basic authorization header; no [methodArn]. *)
Definition basic_auth_event : gmap string json :=
  <["authorizationToken" := JStr "Basic dXNlcjpwYXNz"]> {[ "methodArn" := method_arn ]}.

Definition bearer_event : gmap string json :=
  <["authorizationToken" := JStr "Bearer header.payload.signature"]>
  {[ "methodArn" := method_arn ]}.

Definition no_arn_event : gmap string json :=
  {[ "authorizationToken" := JStr "Bearer header.payload.signature" ]}.

(** ** Records of the fan-out batch *)

(** Whenever [c] returns, what it returns satisfies [P]. *)
Definition yields {A} (P : A -> Prop) (c : M A) : Prop :=
  forall w, match (c w).1 with
            | Ret a => P a
            | Raise _ => True
            end.

(** The result of a projection step reports success or an error. *)
Definition step_result (r : gmap string json) : Prop :=
  r !! "status" = Some (JStr "success") \/ r !! "status" = Some (JStr "error").

(** A record from another source: an object whose [source] is not
    ["saas.tasks"]. *)
Definition foreign_record (record : json) : Prop :=
  exists m, record = JObj m /\ eq_str (default JNull (m !! "source")) "saas.tasks" = false.

(** A record the loop can read: an object that, when its source is
    ["saas.tasks"], has an object as [detail] (or none). *)
Definition readable_record (record : json) : Prop :=
  exists m, record = JObj m
            /\ (eq_str (default JNull (m !! "source")) "saas.tasks" = true ->
                exists d, default (JObj ∅) (m !! "detail") = JObj d).

(** The records of a batch that come from ["saas.tasks"]. *)
Definition from_tasks (record : json) : bool :=
  match record with
  | JObj m => eq_str (default JNull (m !! "source")) "saas.tasks"
  | _ => false
  end.

(** ** Key sets *)

(** A key-set entry that is an object with the string key id [kid]. *)
Definition has_kid (kid : string) (key : json) : Prop :=
  exists m, key = JObj m /\ m !! "kid" = Some (JStr kid).

(** A key-set entry that is an object with a string key id other than [kid]. *)
Definition has_other_kid (kid : string) (key : json) : Prop :=
  exists m kid', key = JObj m /\ m !! "kid" = Some (JStr kid') /\ kid' <> kid.

(** ** What a computation leaves alone, and how it answers *)

(** [c] never changes what the table holds under [key]. *)
Definition keeps (key : string * string) {A} (c : M A) : Prop :=
  forall w, table (c w).2 !! key = table w !! key.

(** [c] leaves the whole world as it is. *)
Definition reads_only {A} (c : M A) : Prop :=
  forall w, (c w).2 = w.

(** Whenever [c] returns a response, its status code is in [codes]. *)
Definition responds (codes : list Z) (c : M Utils.response) : Prop :=
  forall w, match (c w).1 with
            | Ret r => Utils.statusCode r ∈ codes
            | Raise _ => True
            end.

(** ** Listings *)

(** An authorizer context with the three keys the handlers read. *)
Definition complete_context (a : gmap string string) : Prop :=
  is_Some (a !! "tenant_id") /\ is_Some (a !! "user_id") /\ is_Some (a !! "role").

Definition required_attributes : list string :=
  ["task_id"; "tenant_id"; "title"; "status"; "created_at"; "updated_at"].

Definition complete_task (item : gmap string json) : Prop :=
  forall f, f ∈ required_attributes -> is_Some (item !! f).

(** [int] on a string, for the sample library: blanks, an optional sign, decimal
    digits, blanks.  (Python also reads digit groups joined by underscores
    and digits that are not ASCII; the sample does not.) *)
Definition blank (c : Ascii.ascii) : bool :=
  let n := Ascii.nat_of_ascii c in
  Nat.eqb n 32 || (Nat.leb 9 n && Nat.leb n 13).

Definition digit (c : Ascii.ascii) : bool :=
  let n := Ascii.nat_of_ascii c in
  Nat.leb 48 n && Nat.leb n 57.

Fixpoint all_blank (s : string) : bool :=
  match s with
  | EmptyString => true
  | String c rest => blank c && all_blank rest
  end.

Fixpoint strip_blanks (s : string) : string :=
  match s with
  | EmptyString => EmptyString
  | String c rest => if blank c then strip_blanks rest else s
  end.

Fixpoint decimal (s : string) (n : Z) : option Z :=
  match s with
  | EmptyString => Some n
  | String c rest =>
    if digit c then decimal rest (10 * n + Z.of_nat (Ascii.nat_of_ascii c - 48))
    else if all_blank s then Some n else None
  end.

Definition digits (s : string) : option Z :=
  match s with
  | String c _ => if digit c then decimal s 0 else None
  | EmptyString => None
  end.

Definition int_of_text (s : string) : option Z :=
  match strip_blanks s with
  | EmptyString => None
  | String c rest =>
    if Nat.eqb (Ascii.nat_of_ascii c) 45 then Z.opp <$> digits rest
    else if Nat.eqb (Ascii.nat_of_ascii c) 43 then digits rest
    else digits (String c rest)
  end.

(** A metrics record, as the fan-out handler writes it. *)
Definition metrics_record : gmap string json :=
  <["PK" := JStr "TENANT#karachi-tech"]> (
  <["SK" := JStr "METRICS#TASKS"]> (
  <["total_tasks" := JInt 1]> (
  {[ "entity_type" := JStr "METRICS" ]}))).

(** A task entity without a title. *)
Definition untitled_task : gmap string json := delete "title" task_123.

(** A sample library whose table holds [items]: a query with a [Limit] of
    at least 1 (boto3 refuses any other) answers with the items that satisfy
    its key condition, in one page. *)
Definition library_over (items : list (gmap string json)) : ListTasks.library :=
  {| ListTasks.int_of := int_of_text;
     ListTasks.repr := fun s => "'" ++ s ++ "'";
     ListTasks.loads := fun _ => None;
     ListTasks.dumps := fun _ => Ret "{}";
     ListTasks.query := fun k =>
       if (ListTasks.Limit k <? 1)%Z then Raise (ServiceError "ParamValidationError")
       else
         Ret {| ListTasks.Items :=
                  List.filter (ListTasks.satisfies (ListTasks.KeyConditionExpression k))
                              items;
                ListTasks.LastEvaluatedKey := None |} |}.

Definition sample_items : list (gmap string json) :=
  [task_123; lahore_task; metrics_record].

Definition list_request (params : gmap string string) : ListTasks.event :=
  {| ListTasks.authorizer := Some (context_of "ahmed-hassan" "MEMBER");
     ListTasks.queryStringParameters := Some params |}.

Definition limit_500 : gmap string string := {[ "limit" := "500" ]}.
Definition open_only : gmap string string := {[ "status" := "OPEN" ]}.
Definition no_parameters : gmap string string := ∅.

(** ** Batches of the fan-out *)

(** A record of another source, and the event that carries [records]. *)
Definition billing_record : json := JObj {[ "source" := JStr "saas.billing" ]}.

Definition batch_event (records : list json) : gmap string json :=
  {[ "Records" := JArr records ]}.

(** * Properties *)

(** ** Stepping through the monad *)

Lemma M_bind_ret {A B} (c : M A) (k : A -> M B) (w w' : world) (a : A) :
  c w = (Ret a, w') -> (c ≫= k) w = k a w'.
Proof. intros H. unfold mbind, M_bind. rewrite H. reflexivity. Qed.

Lemma M_bind_raise {A B} (c : M A) (k : A -> M B) (w w' : world) (e : exn) :
  c w = (Raise e, w') -> (c ≫= k) w = (Raise e, w').
Proof. intros H. unfold mbind, M_bind. rewrite H. reflexivity. Qed.

Ltac step H := rewrite (M_bind_ret _ _ _ _ _ H).

Lemma getitem_some (d : gmap string string) (k v : string) (w : world) :
  d !! k = Some v -> getitem d k w = (Ret v, w).
Proof. intros H. unfold getitem. rewrite H. reflexivity. Qed.

Lemma event_authorizer_some (event : api_event) (a : gmap string string) (w : world) :
  authorizer event = Some a -> event_authorizer event w = (Ret a, w).
Proof. intros H. unfold event_authorizer. rewrite H. reflexivity. Qed.

Lemma getitem_none (d : gmap string string) (k : string) (w : world) :
  d !! k = None -> getitem d k w = (Raise (KeyError k), w).
Proof. intros H. unfold getitem. rewrite H. reflexivity. Qed.

Lemma event_authorizer_none (event : api_event) (w : world) :
  authorizer event = None -> event_authorizer event w = (Raise (KeyError "authorizer"), w).
Proof. intros H. unfold event_authorizer. rewrite H. reflexivity. Qed.

(** Reading the path parameter returns or raises; it leaves the world alone. *)
Lemma event_path_id_total (event : api_event) (w : world) :
  (exists id, event_path_id event w = (Ret id, w))
  \/ (exists e, event_path_id event w = (Raise e, w)).
Proof.
  unfold event_path_id, getitem.
  destruct (pathParameters event) as [p|]; [|right; eauto].
  destruct (p !! "id"); [left|right]; eauto.
Qed.

Lemma event_path_id_some (event : api_event) (p : gmap string string) (id : string) (w : world) :
  pathParameters event = Some p -> p !! "id" = Some id ->
  event_path_id event w = (Ret id, w).
Proof. intros H1 H2. unfold event_path_id. rewrite H1. apply getitem_some, H2. Qed.

Lemma event_json_body_some (event : api_event) (v : json) (w : world) :
  event_body event = BodyJson v -> event_json_body event w = (Ret v, w).
Proof. intros H. unfold event_json_body. rewrite H. reflexivity. Qed.

Lemma get_item_ok (rt : runtime) (key : string * string) (w : world) :
  raises rt (length (calls w)) = false ->
  Services.get_item rt key w = (Ret (table w !! key), Services.record_call (GetItem key) w).
Proof. intros H. unfold Services.get_item, Services.service. rewrite H. reflexivity. Qed.

Example remove_all_bearer :
  remove_all "Bearer " 0 "Bearer header.payload.signature" = "header.payload.signature"
  /\ remove_all "Bearer " 0 "Bearer Bearer x" = "x"
  /\ remove_all "Bearer " 0 "Bearer a Bearer b" = "a b".
Proof. repeat split; reflexivity. Qed.

Example validate_task_data_accepts :
  Utils.validate_task_data ship_v1 = Ret None
  /\ Utils.validate_task_data {[ "title" := JStr "" ]}
     = Ret (Some "Missing required fields: title")
  /\ Utils.validate_task_data {[ "title" := JInt 5 ]}
     = Raise (TypeError "object of type 'int' has no len()").
Proof. vm_compute. repeat split; reflexivity. Qed.

(** ** The permission policy *)

Lemma member_update_decides (resource_owner current_user : option string) :
  Utils.check_user_permissions "MEMBER" "update" resource_owner current_user
  = bool_decide (resource_owner = current_user).
Proof.
  unfold Utils.check_user_permissions.
  change (String.eqb "MEMBER" "ADMIN") with false.
  change (String.eqb "MEMBER" "MEMBER") with true.
  change (String.eqb "update" "delete") with false.
  replace (bool_decide ("update" ∈ ["create"; "read"])) with false by (vm_compute; reflexivity).
  replace (bool_decide ("update" ∈ ["update"])) with true by (vm_compute; reflexivity).
  cbn [andb]. destruct (bool_decide (resource_owner = current_user)); reflexivity.
Qed.

(** C1.  [check_user_permissions] is a total function to [bool] that follows
    the matrix: ADMIN may do everything; MEMBER may create and read, may
    update exactly when the resource owner is the current user, and may not
    delete; every other role is denied. *)
Theorem check_user_permissions_matrix
    (role action : string) (resource_owner current_user : option string) :
  Utils.check_user_permissions "ADMIN" action resource_owner current_user = true
  /\ Utils.check_user_permissions "MEMBER" "create" resource_owner current_user = true
  /\ Utils.check_user_permissions "MEMBER" "read" resource_owner current_user = true
  /\ (Utils.check_user_permissions "MEMBER" "update" resource_owner current_user = true
      <-> resource_owner = current_user)
  /\ Utils.check_user_permissions "MEMBER" "delete" resource_owner current_user = false
  /\ (role <> "ADMIN" -> role <> "MEMBER" ->
      Utils.check_user_permissions role action resource_owner current_user = false).
Proof.
  repeat split; try reflexivity.
  - rewrite member_update_decides. apply bool_decide_eq_true_1.
  - intros ->. rewrite member_update_decides. apply bool_decide_eq_true_2. reflexivity.
  - intros Ha Hm. unfold Utils.check_user_permissions.
    apply String.eqb_neq in Ha, Hm. rewrite Ha, Hm. reflexivity.
Qed.

Lemma check_user_permissions_matrix_witness :
  Utils.check_user_permissions "VIEWER" "read" None None = false.
Proof.
  apply (check_user_permissions_matrix "VIEWER" "read" None None); discriminate.
Defined.

(** C10.  A MEMBER update is allowed whenever the owner equals the current
    user, also when both are [None]: without any ownership information the
    comparison succeeds. *)
Theorem member_update_allowed_on_equal_owner (resource_owner current_user : option string) :
  resource_owner = current_user ->
  Utils.check_user_permissions "MEMBER" "update" resource_owner current_user = true.
Proof.
  intros Heq. rewrite member_update_decides. apply bool_decide_eq_true_2, Heq.
Qed.

Lemma member_update_allowed_without_owner :
  Utils.check_user_permissions "MEMBER" "update" None None = true.
Proof. apply (member_update_allowed_on_equal_owner None None). reflexivity. Defined.

(** ** Delete *)

Section DeleteProps.
Context (rt : runtime).

(** A request that does not carry the role ADMIN never reaches the table:
    whatever else it holds, the world is left as it was. *)
Lemma delete_without_admin_role_keeps_world (event : api_event) (w : world) :
  (forall a, authorizer event = Some a -> a !! "role" <> Some "ADMIN") ->
  (DeleteTask.handler rt event w).2 = w.
Proof.
  intros Hrole.
  unfold DeleteTask.handler, try_except, DeleteTask.handler_body.
  destruct (authorizer event) as [a|] eqn:Ha;
    [step (event_authorizer_some _ _ w Ha)
    |rewrite (M_bind_raise _ _ _ _ _ (event_authorizer_none _ w Ha)); reflexivity].
  specialize (Hrole a eq_refl).
  destruct (a !! "tenant_id") as [tenant|] eqn:Ht;
    [step (getitem_some _ _ _ w Ht)
    |rewrite (M_bind_raise _ _ _ _ _ (getitem_none _ _ w Ht)); reflexivity].
  destruct (a !! "user_id") as [user|] eqn:Hu;
    [step (getitem_some _ _ _ w Hu)
    |rewrite (M_bind_raise _ _ _ _ _ (getitem_none _ _ w Hu)); reflexivity].
  destruct (a !! "role") as [role|] eqn:Hr;
    [step (getitem_some _ _ _ w Hr)
    |rewrite (M_bind_raise _ _ _ _ _ (getitem_none _ _ w Hr)); reflexivity].
  assert (String.eqb role "ADMIN" = false) as Hne
    by (apply String.eqb_neq; congruence).
  destruct (event_path_id_total event w) as [[id Hid]|[e He]];
    [step Hid; rewrite Hne; reflexivity
    |rewrite (M_bind_raise _ _ _ _ _ He); destruct e; reflexivity].
Qed.

(** C6.  With the tenant context and the task id in the request: a role
    other than ADMIN is answered 403 and the world is untouched (no call to
    the table is issued); ADMIN naming a task absent from the tenant's
    partition is answered 404 after the one read, the table unchanged and no
    delete issued. *)
Theorem delete_admin_only_fails_closed
    (event : api_event) (w : world) (a p : gmap string string)
    (tenant user role id : string) :
  authorizer event = Some a ->
  a !! "tenant_id" = Some tenant -> a !! "user_id" = Some user -> a !! "role" = Some role ->
  pathParameters event = Some p -> p !! "id" = Some id ->
  let key := ("TENANT#" ++ tenant, "TASK#" ++ id) in
  (role <> "ADMIN" ->
     DeleteTask.handler rt event w
     = (Ret (error_response 403 "Forbidden" "Only administrators can delete tasks"), w))
  /\ (role = "ADMIN" -> table w !! key = None -> raises rt (length (calls w)) = false ->
      exists w',
        DeleteTask.handler rt event w
        = (Ret (error_response 404 "Task Not Found"
                  ("Task " ++ id ++ " not found for tenant " ++ tenant)), w')
        /\ table w' = table w
        /\ calls w' = (calls w ++ [GetItem key])%list).
Proof.
  intros Ha Ht Hu Hr Hp Hid key.
  split.
  - intros Hne.
    unfold DeleteTask.handler, try_except, DeleteTask.handler_body.
    step (event_authorizer_some _ _ w Ha).
    step (getitem_some _ _ _ w Ht). step (getitem_some _ _ _ w Hu).
    step (getitem_some _ _ _ w Hr). step (event_path_id_some _ _ _ w Hp Hid).
    apply String.eqb_neq in Hne. rewrite Hne. reflexivity.
  - intros -> Hnone Hok.
    exists (Services.record_call (GetItem key) w).
    split; [|split; reflexivity].
    unfold DeleteTask.handler, try_except, DeleteTask.handler_body.
    step (event_authorizer_some _ _ w Ha).
    step (getitem_some _ _ _ w Ht). step (getitem_some _ _ _ w Hu).
    step (getitem_some _ _ _ w Hr). step (event_path_id_some _ _ _ w Hp Hid).
    cbn [String.eqb Ascii.eqb Bool.eqb negb].
    step (get_item_ok rt key w Hok).
    fold key. rewrite Hnone. reflexivity.
Qed.

End DeleteProps.

Lemma delete_admin_only_fails_closed_witness :
  DeleteTask.handler rt_ok (request "sara-malik" "MEMBER" BodyNull) world_with_task
  = (Ret (error_response 403 "Forbidden" "Only administrators can delete tasks"),
     world_with_task)
  /\ exists w',
       DeleteTask.handler rt_ok (request "ahmed-hassan" "ADMIN" BodyNull) empty_world
       = (Ret (error_response 404 "Task Not Found"
                 "Task task-123 not found for tenant karachi-tech"), w')
       /\ table w' = ∅
       /\ calls w' = [GetItem task_123_key].
Proof.
  split.
  - apply (delete_admin_only_fails_closed rt_ok (request "sara-malik" "MEMBER" BodyNull)
             world_with_task (context_of "sara-malik" "MEMBER") {[ "id" := "task-123" ]}
             "karachi-tech" "sara-malik" "MEMBER" "task-123");
      try reflexivity.
    discriminate.
  - apply (delete_admin_only_fails_closed rt_ok (request "ahmed-hassan" "ADMIN" BodyNull)
             empty_world (context_of "ahmed-hassan" "ADMIN") {[ "id" := "task-123" ]}
             "karachi-tech" "ahmed-hassan" "ADMIN" "task-123");
      reflexivity.
Defined.

(** ** Update *)

Section UpdateProps.
Context (rt : runtime).

Lemma collect_fields_present (b : gmap string json) (f : string) (rest : list string)
    (ue : list (string * string)) (ev : gmap string json) (v : json) :
  b !! f = Some v ->
  UpdateTask.collect_fields (JObj b) (f :: rest) ue ev
  = UpdateTask.collect_fields (JObj b) rest (ue ++ [(f, ":" ++ f)]) (<[":" ++ f := v]> ev).
Proof. intros H. cbn [UpdateTask.collect_fields py_in py_getitem]. rewrite H. reflexivity. Qed.

Lemma collect_fields_absent (b : gmap string json) (f : string) (rest : list string)
    (ue : list (string * string)) (ev : gmap string json) :
  b !! f = None ->
  UpdateTask.collect_fields (JObj b) (f :: rest) ue ev
  = UpdateTask.collect_fields (JObj b) rest ue ev.
Proof. intros H. cbn [UpdateTask.collect_fields py_in py_getitem]. rewrite H. reflexivity. Qed.

Lemma apply_set_cons (a p : string) (rest : list (string * string))
    (ev item : gmap string json) (v : json) :
  ev !! p = Some v ->
  Services.apply_set ((a, p) :: rest) ev item = Services.apply_set rest ev (<[a := v]> item).
Proof. intros H. cbn [Services.apply_set]. rewrite H. reflexivity. Qed.

Ltac collect_field b f :=
  let v := fresh "v" in let H := fresh "H" in
  destruct (b !! f) as [v|] eqn:H;
  [rewrite (collect_fields_present _ _ _ _ _ _ H)
  |rewrite (collect_fields_absent _ _ _ _ _ H)].

Ltac lookup_placeholder :=
  cbn [String.append]; rewrite ?lookup_insert_ne by done;
  first [apply lookup_insert_eq | apply lookup_singleton_eq].

(** The expression built for a JSON object without a status names no
    reserved word and, applied to a stored item, is the field-level merge.
    One case per subset of the four fields. *)
Lemma build_update_merges (b old : gmap string json) (updated_at : string) :
  b !! "status" = None ->
  exists ue ev new,
    UpdateTask.build_update rt (JObj b) updated_at = Ret (ue, ev)
    /\ existsb (fun assignment => Services.is_reserved assignment.1) ue = false
    /\ Services.apply_set ue ev old = Some new
    /\ field_level_merge b old new updated_at.
Proof.
  intros Hstatus.
  unfold UpdateTask.build_update, UpdateTask.updatable_fields.
  collect_field b "title"; collect_field b "description";
    rewrite (collect_fields_absent _ _ _ _ _ Hstatus);
    collect_field b "priority"; collect_field b "assigned_to".
  all: cbn [UpdateTask.collect_fields mbind outcome_bind py_in py_getitem app].
  all: rewrite Hstatus.
  all: cbn [bool_decide decide_rel is_Some_dec option_eq_None_dec mbind outcome_bind].
  all: eexists _, _, _; split; [reflexivity|].
  all: split; [vm_compute; reflexivity|].
  all: split; [repeat (erewrite apply_set_cons by lookup_placeholder); reflexivity|].
  all: unfold field_level_merge; repeat split.
  all: try (intros f Hf;
            repeat (apply elem_of_cons in Hf as [-> | Hf]);
            [..|by apply elem_of_nil in Hf];
            rewrite ?H, ?H0, ?H1, ?H2; by simplify_map_eq).
  all: try by simplify_map_eq.
  all: intros f Hnot; rewrite ?lookup_insert_ne; try done.
  all: intros <-; apply Hnot; set_solver.
Qed.


Lemma response_task_total (item : gmap string json) :
  (exists t, UpdateTask.response_task item = Ret t)
  \/ (exists k, UpdateTask.response_task item = Raise (KeyError k)).
Proof.
  unfold UpdateTask.response_task, py_getitem.
  destruct (item !! "task_id"); cbn [mbind outcome_bind]; [|right; eauto].
  destruct (item !! "tenant_id"); cbn [mbind outcome_bind]; [|right; eauto].
  destruct (item !! "title"); cbn [mbind outcome_bind]; [|right; eauto].
  destruct (item !! "status"); cbn [mbind outcome_bind]; [|right; eauto].
  destruct (item !! "created_at"); cbn [mbind outcome_bind]; [|right; eauto].
  destruct (item !! "updated_at"); cbn [mbind outcome_bind]; [|right; eauto].
  left; eauto.
Qed.

(** The guard of the handler lets a request through unless the role is
    MEMBER and the stored [created_by] differs from the caller. *)
Lemma guard_passes (role user : string) (old : gmap string json) :
  (role = "MEMBER" -> old !! "created_by" = Some (JStr user)) ->
  String.eqb role "MEMBER" && negb (eq_str (default JNull (old !! "created_by")) user) = false.
Proof.
  intros H. destruct (String.eqb_spec role "MEMBER") as [Hr|Hr]; [|reflexivity].
  rewrite (H Hr). cbn. rewrite String.eqb_refl. reflexivity.
Qed.

(** An update without a status that passes the guard and whose two service
    calls succeed issues one read and then a single write, an [update_item]
    whose effect on the stored task is the field-level merge.  The answer is
    200 with the merged task; 500 if the merged task holds a number, 400 if
    it lacks an attribute the response reads: the task is written all the
    same. *)
Lemma update_merges_without_status
    (event : api_event) (w : world) (a p : gmap string string)
    (tenant user role id : string) (b old : gmap string json) :
  authorizer event = Some a ->
  a !! "tenant_id" = Some tenant -> a !! "user_id" = Some user -> a !! "role" = Some role ->
  pathParameters event = Some p -> p !! "id" = Some id ->
  event_body event = BodyJson (JObj b) -> b !! "status" = None ->
  let key := ("TENANT#" ++ tenant, "TASK#" ++ id) in
  let n := length (calls w) in
  let updated_at := utcnow_isoformat rt (S n) ++ "Z" in
  table w !! key = Some old ->
  (role = "MEMBER" -> old !! "created_by" = Some (JStr user)) ->
  raises rt n = false -> raises rt (S n) = false ->
  exists ue ev new r,
    UpdateTask.handler rt event w
    = (Ret r, {| table := <[key := new]> (table w); bus := bus w; bucket := bucket w;
                 calls := (calls w ++ [GetItem key; UpdateItem key ue ev])%list |})
    /\ field_level_merge b old new updated_at
    /\ match UpdateTask.response_task new with
       | Ret t => r = update_answer t
       | Raise _ => Utils.statusCode r = 400%Z
       end.
Proof.
  intros Ha Ht Hu Hr Hp Hid Hb Hstatus key n updated_at Hold Hguard Hok1 Hok2.
  destruct (build_update_merges b old updated_at Hstatus)
    as (ue & ev & new & Hbuild & Hnames & Hset & Hmerge).
  exists ue, ev, new.
  assert (length (calls (Services.record_call (GetItem key) w)) = S n) as Hlen
    by (cbn; rewrite length_app; cbn; unfold n; lia).
  assert (exists r,
    UpdateTask.handler rt event w
    = (Ret r, {| table := <[key := new]> (table w); bus := bus w; bucket := bucket w;
                 calls := (calls w ++ [GetItem key; UpdateItem key ue ev])%list |})
    /\ match UpdateTask.response_task new with
       | Ret t => r = update_answer t
       | Raise _ => Utils.statusCode r = 400%Z
       end) as (r & Hrun & Hresp); [|exists r; auto].
  unfold UpdateTask.handler, try_except, UpdateTask.handler_body.
  step (event_authorizer_some _ _ w Ha).
  step (getitem_some _ _ _ w Ht). step (getitem_some _ _ _ w Hu).
  step (getitem_some _ _ _ w Hr). step (event_path_id_some _ _ _ w Hp Hid).
  step (event_json_body_some _ _ w Hb).
  step (get_item_ok rt key w Hok1).
  fold key. rewrite Hold, (guard_passes _ _ _ Hguard).
  unfold mbind at 1, M_bind at 1, Services.now at 1. rewrite Hlen. fold updated_at.
  unfold mbind at 1, M_bind at 1, lift at 1. rewrite Hbuild.
  unfold mbind at 1, M_bind at 1, Services.update_item at 1, Services.service at 1.
  rewrite Hlen, Hok2, Hnames.
  cbn [Services.record_call table calls bus bucket].
  rewrite Hold. cbn [default]. change (Datatypes.id old) with old. rewrite Hset.
  unfold Services.set_table.
  cbn [Services.record_call table calls bus bucket].
  rewrite <- app_assoc. cbn [app].
  unfold mbind at 1, M_bind at 1, lift at 1.
  destruct (response_task_total new) as [[t Hrt]|[k Hrt]]; rewrite Hrt.
  - unfold mbind at 1, M_bind at 1, lift at 1, dumps_read, update_answer.
    destruct (holds_number (JObj t)); eexists; split; reflexivity.
  - eexists; split; reflexivity.
Qed.



(** A MEMBER who did not create the task is answered 403 after the read;
    nothing is written. *)
Lemma update_member_not_owner_forbidden
    (event : api_event) (w : world) (a p : gmap string string)
    (tenant user id : string) (body : json) (old : gmap string json) :
  authorizer event = Some a ->
  a !! "tenant_id" = Some tenant -> a !! "user_id" = Some user ->
  a !! "role" = Some "MEMBER" ->
  pathParameters event = Some p -> p !! "id" = Some id ->
  event_body event = BodyJson body ->
  let key := ("TENANT#" ++ tenant, "TASK#" ++ id) in
  table w !! key = Some old ->
  eq_str (default JNull (old !! "created_by")) user = false ->
  raises rt (length (calls w)) = false ->
  UpdateTask.handler rt event w
  = (Ret (error_response 403 "Forbidden" "Members can only update their own tasks"),
     Services.record_call (GetItem key) w).
Proof.
  intros Ha Ht Hu Hr Hp Hid Hb key Hold Hne Hok.
  unfold UpdateTask.handler, try_except, UpdateTask.handler_body.
  step (event_authorizer_some _ _ w Ha).
  step (getitem_some _ _ _ w Ht). step (getitem_some _ _ _ w Hu).
  step (getitem_some _ _ _ w Hr). step (event_path_id_some _ _ _ w Hp Hid).
  step (event_json_body_some _ _ w Hb).
  step (get_item_ok rt key w Hok).
  fold key. rewrite Hold, Hne. reflexivity.
Qed.

End UpdateProps.


(** The refusal is the store's, not a validation: a priority outside the
    enumerated set is stored and answered 200. *)
Example update_stores_unknown_priority :
  let event := request "ahmed-hassan" "ADMIN"
                 (BodyJson (JObj {[ "priority" := JStr "BOGUS" ]})) in
  let result := UpdateTask.handler rt_ok event world_with_task in
  status_of result = Some 200%Z
  /\ stored result.2 task_123_key "priority" = Some (JStr "BOGUS").
Proof. vm_compute. repeat split; reflexivity. Qed.

(** C5.  A status is never merged: an ADMIN's update of an existing task
    with the valid status DONE, no service failing, builds one write that
    assigns [updated_at], [status] and [GSI1SK], the store refuses it for the
    reserved word [status], and the request is answered 500; the stored
    status, [updated_at] and index key are the old ones. *)
Theorem update_never_applies_status :
  let event := request "ahmed-hassan" "ADMIN" (BodyJson (JObj status_done)) in
  let result := UpdateTask.handler rt_ok event world_with_task in
  Utils.validate_task_data (<["status" := JStr "DONE"]> task_123) = Ret None
  /\ result.1 = Ret (error_response 500 "Internal Server Error" "Failed to update task")
  /\ calls result.2
     = [GetItem task_123_key;
        UpdateItem task_123_key
          [("updated_at", ":updated_at"); ("status", ":status"); ("GSI1SK", ":gsi1sk")]
          (<[":updated_at" := JStr "2024-05-01T10:00:01Z"]> (
           <[":status" := JStr "DONE"]> (
           {[ ":gsi1sk" := JStr "STATUS#DONE#2024-05-01T10:00:01Z" ]})))]
  /\ stored result.2 task_123_key "status" = Some (JStr "OPEN")
  /\ stored result.2 task_123_key "updated_at" = Some (JStr "2024-04-30T09:00:00Z")
  /\ stored result.2 task_123_key "GSI1SK" = Some (JStr "STATUS#OPEN#2024-04-30T09:00:00Z").
Proof. vm_compute. repeat split; reflexivity. Qed.

(** C2.  The guard of the update handler names MEMBER only: a caller whose
    role is neither ADMIN nor MEMBER, who does not own the task, is answered
    200 and the stored task is rewritten, although [check_user_permissions]
    denies the same update. *)
Theorem update_admits_unknown_role :
  let event := request "intruder" "VIEWER" (BodyJson (JObj {[ "title" := JStr "taken over" ]})) in
  let result := UpdateTask.handler rt_ok event world_with_task in
  stored world_with_task task_123_key "created_by" = Some (JStr "ahmed-hassan")
  /\ Utils.check_user_permissions "VIEWER" "update" (Some "ahmed-hassan") (Some "intruder")
     = false
  /\ status_of result = Some 200%Z
  /\ stored result.2 task_123_key "title" = Some (JStr "taken over")
  /\ stored result.2 task_123_key "updated_at" = Some (JStr "2024-05-01T10:00:01Z").
Proof. vm_compute. repeat split; reflexivity. Qed.

(** ** Create *)

(** C3.  The create handler checks only that the title is present: a title
    of 201 characters and a description of 1001 characters are answered 201
    and stored, although [validate_task_data] rejects both bodies; a title of
    200 characters is answered 201. *)
Theorem create_stores_overlong_fields :
  let long_title : gmap string json := {[ "title" := JStr (text_of_length 201) ]} in
  let long_description : gmap string json :=
    <["title" := JStr "Ship v1"]> {[ "description" := JStr (text_of_length 1001) ]} in
  let title_200 : gmap string json := {[ "title" := JStr (text_of_length 200) ]} in
  let created body := CreateTask.handler rt_ok (create_request "MEMBER" body) empty_world in
  Utils.validate_task_data long_title = Ret (Some "Title cannot exceed 200 characters")
  /\ status_of (created long_title) = Some 201%Z
  /\ stored (created long_title).2 task_456_key "title" = Some (JStr (text_of_length 201))
  /\ Utils.validate_task_data long_description
     = Ret (Some "Description cannot exceed 1000 characters")
  /\ status_of (created long_description) = Some 201%Z
  /\ stored (created long_description).2 task_456_key "description"
     = Some (JStr (text_of_length 1001))
  /\ Utils.validate_task_data title_200 = Ret None
  /\ status_of (created title_200) = Some 201%Z.
Proof. vm_compute. repeat split; reflexivity. Qed.

Section CreateProps.
Context (rt : runtime).

Lemma task_item_key (tenant user task_id time : string)
    (title status description priority assigned_to : json) :
  Services.item_key
    (CreateTask.task_item rt tenant user task_id time
       title status description priority assigned_to)
  = Some ("TENANT#" ++ tenant, "TASK#" ++ task_id).
Proof.
  unfold Services.item_key, CreateTask.task_item.
  rewrite lookup_insert_eq, lookup_insert_ne, lookup_insert_eq by done.
  reflexivity.
Qed.

Lemma project_task_item (tenant user task_id time : string)
    (title status description priority assigned_to : json) :
  exists t,
    CreateTask.project
      (CreateTask.task_item rt tenant user task_id time
         title status description priority assigned_to)
      CreateTask.response_fields
    = Ret t.
Proof.
  unfold CreateTask.response_fields, CreateTask.task_item.
  cbn [CreateTask.project].
  repeat (rewrite ?lookup_insert_ne by done;
          first [rewrite lookup_insert_eq | rewrite lookup_singleton_eq];
          cbn [mbind outcome_bind]).
  eexists; reflexivity.
Qed.

Lemma py_get_obj (b : gmap string json) (k : string) (d : json) (w : world) :
  lift (py_get (JObj b) k d) w = (Ret (default d (b !! k)), w).
Proof. reflexivity. Qed.

Lemma put_item_ok (item : gmap string json) (key : string * string) (w : world) :
  raises rt (length (calls w)) = false ->
  Services.item_key item = Some key ->
  Services.put_item rt item w
  = (Ret (), {| table := <[key := item]> (table w); bus := bus w; bucket := bucket w;
                calls := (calls w ++ [PutItem item])%list |}).
Proof.
  intros Hok Hkey. unfold Services.put_item, Services.service.
  rewrite Hok, Hkey. reflexivity.
Qed.

Lemma put_events_raises (entry : bus_entry) (w : world) :
  raises rt (length (calls w)) = true ->
  Services.put_events rt entry w
  = (Raise (ServiceError "ClientError"), Services.record_call (PutEvents entry) w).
Proof. intros H. unfold Services.put_events, Services.service. rewrite H. reflexivity. Qed.

Lemma put_events_rejected (entry : bus_entry) (w : world) :
  raises rt (length (calls w)) = false ->
  bus_rejects rt (length (calls w)) = true ->
  Services.put_events rt entry w = (Ret 1, Services.record_call (PutEvents entry) w).
Proof.
  intros H1 H2. unfold Services.put_events, Services.service. rewrite H1, H2. reflexivity.
Qed.

(** C9, as the code has it.  Once the task is written, a failure to
    publish the event leaves the written task in the table and nothing on
    the bus; it is not reported apart from the request: when [put_events]
    raises the answer is 500 Internal Server Error, and when it returns with
    the entry rejected the answer is the plain 201. *)
Theorem create_publish_failure_keeps_task
    (event : api_event) (w : world) (a : gmap string string)
    (tenant user role : string) (b : gmap string json) (title : json) :
  authorizer event = Some a ->
  a !! "tenant_id" = Some tenant -> a !! "user_id" = Some user -> a !! "role" = Some role ->
  event_body event = BodyJson (JObj b) ->
  b !! "title" = Some title -> truthy title = true ->
  let n := length (calls w) in
  let task_id := uuid4 rt n in
  let item :=
    CreateTask.task_item rt tenant user task_id (utcnow_isoformat rt n ++ "Z") title
      (default (JStr "OPEN") (b !! "status")) (default (JStr "") (b !! "description"))
      (default (JStr "MEDIUM") (b !! "priority")) (default (JStr "") (b !! "assigned_to")) in
  let key := ("TENANT#" ++ tenant, "TASK#" ++ task_id) in
  raises rt n = false ->
  (raises rt (S n) = true ->
     exists w',
       CreateTask.handler rt event w
       = (Ret (error_response 500 "Internal Server Error" "Failed to create task"), w')
       /\ table w' = <[key := item]> (table w) /\ bus w' = bus w)
  /\ (raises rt (S n) = false -> bus_rejects rt (S n) = true ->
      exists r w',
        CreateTask.handler rt event w = (Ret r, w')
        /\ Utils.statusCode r = 201%Z
        /\ table w' = <[key := item]> (table w) /\ bus w' = bus w).
Proof.
  intros Ha Ht Hu Hr Hb Htitle Htruthy n task_id item key Hok.
  pose proof (task_item_key tenant user task_id (utcnow_isoformat rt n ++ "Z") title
                (default (JStr "OPEN") (b !! "status"))
                (default (JStr "") (b !! "description"))
                (default (JStr "MEDIUM") (b !! "priority"))
                (default (JStr "") (b !! "assigned_to"))) as Hkey.
  fold item key in Hkey.
  set (w1 := {| table := <[key := item]> (table w); bus := bus w; bucket := bucket w;
                calls := (calls w ++ [PutItem item])%list |}).
  assert (length (calls w1) = S n) as Hlen
    by (cbn; rewrite length_app; cbn; unfold n; lia).
  assert (Services.put_item rt item w = (Ret (), w1)) as Hput
    by (apply put_item_ok; assumption).
  split.
  - intros Hraise.
    exists (Services.record_call
              (PutEvents {| Source := "saas.tasks"; DetailType := "Task Created";
                            Detail := <["task_id" := JStr task_id]> (
                                      <["tenant_id" := JStr tenant]> (
                                      <["title" := title]> (
                                      <["created_by" := JStr user]> (
                                      {[ "created_at" := JStr (utcnow_isoformat rt n ++ "Z") ]}))))
                         |}) w1).
    split; [|split; reflexivity].
    unfold CreateTask.handler, try_except, CreateTask.handler_body.
    step (event_authorizer_some _ _ w Ha).
    step (getitem_some _ _ _ w Ht). step (getitem_some _ _ _ w Hu).
    step (getitem_some _ _ _ w Hr). step (event_json_body_some _ _ w Hb).
    step (py_get_obj b "title" JNull w). rewrite Htitle. cbn [default from_option].
    change (Datatypes.id title) with title. rewrite Htruthy. cbn [negb].
    step (eq_refl : Services.new_uuid rt w = (Ret task_id, w)).
    step (eq_refl : Services.now rt w = (Ret (utcnow_isoformat rt n), w)).
    step (py_get_obj b "status" (JStr "OPEN") w).
    step (py_get_obj b "description" (JStr "") w).
    step (py_get_obj b "priority" (JStr "MEDIUM") w).
    step (py_get_obj b "assigned_to" (JStr "") w).
    fold item. step Hput.
    rewrite (M_bind_raise _ _ _ _ _ (put_events_raises _ w1 ltac:(rewrite Hlen; exact Hraise))).
    reflexivity.
  - intros Hno Hrej.
    destruct (project_task_item tenant user task_id (utcnow_isoformat rt n ++ "Z") title
                (default (JStr "OPEN") (b !! "status"))
                (default (JStr "") (b !! "description"))
                (default (JStr "MEDIUM") (b !! "priority"))
                (default (JStr "") (b !! "assigned_to"))) as [t Hproj].
    fold item in Hproj.
    set (entry := {| Source := "saas.tasks"; DetailType := "Task Created";
                     Detail := <["task_id" := JStr task_id]> (
                               <["tenant_id" := JStr tenant]> (
                               <["title" := title]> (
                               <["created_by" := JStr user]> (
                               {[ "created_at" := JStr (utcnow_isoformat rt n ++ "Z") ]}))))
                  |}).
    exists {| Utils.statusCode := 201; Utils.headers := cors_headers; Utils.body := t |},
           (Services.record_call (PutEvents entry) w1).
    split; [|repeat split; reflexivity].
    unfold CreateTask.handler, try_except, CreateTask.handler_body.
    step (event_authorizer_some _ _ w Ha).
    step (getitem_some _ _ _ w Ht). step (getitem_some _ _ _ w Hu).
    step (getitem_some _ _ _ w Hr). step (event_json_body_some _ _ w Hb).
    step (py_get_obj b "title" JNull w). rewrite Htitle. cbn [default from_option].
    change (Datatypes.id title) with title. rewrite Htruthy. cbn [negb].
    step (eq_refl : Services.new_uuid rt w = (Ret task_id, w)).
    step (eq_refl : Services.now rt w = (Ret (utcnow_isoformat rt n), w)).
    step (py_get_obj b "status" (JStr "OPEN") w).
    step (py_get_obj b "description" (JStr "") w).
    step (py_get_obj b "priority" (JStr "MEDIUM") w).
    step (py_get_obj b "assigned_to" (JStr "") w).
    fold item. step Hput. fold entry.
    step (put_events_rejected entry w1 ltac:(rewrite Hlen; exact Hno)
            ltac:(rewrite Hlen; exact Hrej)).
    unfold mbind at 1, M_bind at 1, lift at 1. rewrite Hproj.
    reflexivity.
Qed.

End CreateProps.

Lemma create_publish_failure_keeps_task_witness :
  exists w',
    CreateTask.handler rt_second_call_raises (create_request "ADMIN" ship_v1) empty_world
    = (Ret (error_response 500 "Internal Server Error" "Failed to create task"), w')
    /\ table w'
       = <[task_456_key :=
             CreateTask.task_item rt_second_call_raises "karachi-tech" "ahmed-hassan"
               "task-456" "2024-05-01T10:00:00Z" (JStr "Ship v1") (JStr "OPEN") (JStr "")
               (JStr "HIGH") (JStr "")]> ∅
    /\ bus w' = [].
Proof.
  apply (create_publish_failure_keeps_task rt_second_call_raises
           (create_request "ADMIN" ship_v1) empty_world (context_of "ahmed-hassan" "ADMIN")
           "karachi-tech" "ahmed-hassan" "ADMIN" ship_v1 (JStr "Ship v1"));
    reflexivity.
Defined.

(** C9, as it is stated, fails: with the task written and [put_events]
    raising, the request is answered 500, a failure response, while the task
    stays in the table and no event is on the bus. *)
Lemma create_publish_failure_fails_request :
  let result :=
    CreateTask.handler rt_second_call_raises (create_request "ADMIN" ship_v1) empty_world in
  status_of result = Some 500%Z
  /\ stored result.2 task_456_key "title" = Some (JStr "Ship v1")
  /\ bus result.2 = []
  /\ status_of (CreateTask.handler rt_ok (create_request "ADMIN" ship_v1) empty_world)
     = Some 201%Z.
Proof. vm_compute. repeat split; reflexivity. Qed.

(** A rejected entry goes unnoticed: the request is answered 201, the task is
    stored and the bus holds no event. *)
Example create_rejected_entry_unnoticed :
  let result :=
    CreateTask.handler rt_bus_rejects (create_request "ADMIN" ship_v1) empty_world in
  status_of result = Some 201%Z
  /\ stored result.2 task_456_key "status" = Some (JStr "OPEN")
  /\ bus result.2 = [].
Proof. vm_compute. repeat split; reflexivity. Qed.

(** ** The authorizer *)

Section AuthorizerProps.
Context (lib : Authorizer.library).

Lemma tenant_context_keys (claims tenant_context : gmap string json) :
  Authorizer.extract_tenant_context claims = Ret tenant_context ->
  dom tenant_context = ({[ "tenant_id"; "user_id"; "role"; "email" ]} : gset string)
  /\ truthy (JObj tenant_context) = true.
Proof.
  unfold Authorizer.extract_tenant_context.
  destruct (py_in "Administrators" _) as [[|]|]; cbn [mbind outcome_bind]; [| |discriminate].
  2: destruct (py_in "Members" _) as [member|]; cbn [mbind outcome_bind]; [|discriminate].
  all: intros [= <-]; split;
    [rewrite !dom_insert_L, dom_singleton_L; set_solver
    |cbn [truthy]; rewrite bool_decide_eq_false_2; [reflexivity|apply insert_non_empty]].
Qed.

(** What the [try] block can return: an Allow policy that carries the
    tenant context. *)
Lemma handler_body_returns (event : json) (cache cache' : option json)
    (p : Authorizer.policy) :
  Authorizer.handler_body lib event cache = (Ret p, cache') ->
  exists arn claims tenant_context,
    Authorizer.extract_tenant_context claims = Ret tenant_context
    /\ p = Authorizer.generate_policy "Allow" arn (Some tenant_context).
Proof.
  unfold Authorizer.handler_body.
  destruct (py_get event "authorizationToken" (JStr "")) as [[| | |s| |]|];
    try (intros [= ]; fail).
  destruct (negb (String.prefix "Bearer " s)); [intros [= ]|].
  destruct (Authorizer.verify_token lib _ cache) as [[claims|e] c]; [|intros [= ]].
  destruct (Authorizer.extract_tenant_context claims) as [tc|] eqn:Htc;
    cbn [mbind outcome_bind]; [|intros [= ]].
  destruct (py_getitem event "methodArn") as [arn|]; cbn [mbind outcome_bind]; [|intros [= ]].
  intros [= <- <-]. eauto.
Qed.

(** C7.  If verifying the token of an event raises, whatever the
    exception, the handler returns the Deny policy for the event's
    [methodArn], without a context, and in no case an Allow policy; and a
    policy the handler returns carries a context only when it allows: a Deny
    policy has none, an Allow policy has the context with exactly the keys
    [tenant_id], [user_id], [role] and [email]. *)
Theorem authorizer_fails_closed (event : json) (cache : option json) :
  (forall token e cache' arn,
      py_get event "authorizationToken" (JStr "") = Ret (JStr token) ->
      String.prefix "Bearer " token = true ->
      Authorizer.verify_token lib (remove_all "Bearer " 0 token) cache = (Raise e, cache') ->
      (py_getitem event "methodArn" = Ret arn ->
       Authorizer.handler lib event cache
       = (Ret (Authorizer.generate_policy "Deny" arn None), cache')
       /\ effects (Authorizer.generate_policy "Deny" arn None) = ["Deny"]
       /\ Authorizer.context (Authorizer.generate_policy "Deny" arn None) = None)
      /\ (forall p c, Authorizer.handler lib event cache = (Ret p, c) ->
          effects p = ["Deny"]))
  /\ (forall p c, Authorizer.handler lib event cache = (Ret p, c) ->
        (effects p = ["Deny"] /\ Authorizer.context p = None)
        \/ (effects p = ["Allow"]
            /\ exists tenant_context,
                 Authorizer.context p = Some tenant_context
                 /\ dom tenant_context
                    = ({[ "tenant_id"; "user_id"; "role"; "email" ]} : gset string))).
Proof.
  split.
  - intros token e cache' arn Htoken Hprefix Hverify.
    assert (Authorizer.handler_body lib event cache = (Raise e, cache')) as Hbody.
    { unfold Authorizer.handler_body. rewrite Htoken, Hprefix. cbn [negb].
      rewrite Hverify. reflexivity. }
    unfold Authorizer.handler. rewrite Hbody. split.
    + intros ->. cbn [mbind outcome_bind]. repeat split.
    + intros p c. destruct (py_getitem event "methodArn"); cbn [mbind outcome_bind];
        intros [= <- <-]. reflexivity.
  - intros p c. unfold Authorizer.handler.
    destruct (Authorizer.handler_body lib event cache) as [[p'|e] c'] eqn:Hbody.
    + intros [= <- <-]. right.
      destruct (handler_body_returns _ _ _ _ Hbody) as (arn & claims & tc & Htc & ->).
      destruct (tenant_context_keys _ _ Htc) as [Hdom Htruthy].
      split; [reflexivity|]. exists tc. split; [|exact Hdom].
      unfold Authorizer.generate_policy. cbn [Authorizer.context]. rewrite Htruthy.
      reflexivity.
    + destruct (py_getitem event "methodArn"); cbn [mbind outcome_bind];
        intros [= <- <-]. left. split; reflexivity.
Qed.

End AuthorizerProps.

Lemma authorizer_fails_closed_witness :
  Authorizer.handler lib_expired authorizer_event None
  = (Ret (Authorizer.generate_policy "Deny" method_arn None),
     Some (JObj {[ "keys" := JArr [JObj {[ "kid" := JStr "key-1" ]}] ]})).
Proof.
  apply (proj1 (authorizer_fails_closed lib_expired authorizer_event None)
           "Bearer header.payload.signature" (ValueError "Token has expired"));
    reflexivity.
Defined.

Example authorizer_allows_valid_token :
  let result := Authorizer.handler lib_valid authorizer_event None in
  (effects <$> (match result.1 with Ret p => Some p | Raise _ => None end)) = Some ["Allow"]
  /\ (match result.1 with
      | Ret p => Authorizer.context p ≫= (.!! "role")
      | Raise _ => None
      end) = Some (JStr "ADMIN").
Proof. vm_compute. split; reflexivity. Qed.

(** ** The event fan-out *)

(** C8.  The loop over the records stands inside one [try]: an exception
    raised while a record is read ends the whole batch.  With the malformed
    record first, its well-formed sibling is never processed (no call is
    issued, the table stays empty) and the answer is 500 without [results];
    with the malformed record last, the sibling has been processed but the
    answer is still 500 without [results].  Alone, the well-formed record
    is processed and listed. *)
Theorem fan_out_aborts_whole_batch :
  let alone := TaskCreatedHandler.handler rt_ok (batch [good_record]) empty_world in
  let bad_first :=
    TaskCreatedHandler.handler rt_ok (batch [malformed_record; good_record]) empty_world in
  let bad_last :=
    TaskCreatedHandler.handler rt_ok (batch [good_record; malformed_record]) empty_world in
  (TaskCreatedHandler.statusCode alone.1 = 200%Z
   /\ length <$> TaskCreatedHandler.results alone.1 = Some 1
   /\ length (calls alone.2) = 5)
  /\ (TaskCreatedHandler.statusCode bad_first.1 = 500%Z
      /\ TaskCreatedHandler.error bad_first.1
         = Some "'NoneType' object has no attribute 'get'"
      /\ TaskCreatedHandler.results bad_first.1 = None
      /\ TaskCreatedHandler.processed_events bad_first.1 = 0
      /\ calls bad_first.2 = []
      /\ table bad_first.2 = ∅)
  /\ (TaskCreatedHandler.statusCode bad_last.1 = 500%Z
      /\ TaskCreatedHandler.results bad_last.1 = None
      /\ TaskCreatedHandler.processed_events bad_last.1 = 1).
Proof. vm_compute. repeat split; reflexivity. Qed.

(** * Further properties of the code *)

(** ** Validation and formatting helpers *)

Lemma in_literals_spec (v : json) (l : list string) :
  in_literals v l = true <-> exists s, v = JStr s /\ s ∈ l.
Proof.
  unfold in_literals. rewrite existsb_exists. split.
  - intros (s & Hin & Heq). destruct v; try discriminate.
    cbn in Heq. apply String.eqb_eq in Heq. subst. exists s. split; [done|].
    by apply list_elem_of_In.
  - intros (s & -> & Hin). exists s. split; [by apply list_elem_of_In|].
    cbn. apply String.eqb_refl.
Qed.

Lemma given_dec (data : gmap string json) (field : string) :
  (match data !! field with
   | None => true
   | Some JNull => true
   | Some v => eq_str v ""
   end) = false <-> given data field.
Proof.
  unfold given. destruct (data !! field) as [v|]; split.
  - intros H. exists v. split; [done|].
    destruct v; try done. cbn in H. apply String.eqb_neq in H. split; congruence.
  - intros (v' & [= <-] & Hn & He). destruct v; try done.
    cbn. apply String.eqb_neq. congruence.
  - discriminate.
  - intros (v & Hv & _). discriminate.
Qed.

(** X1.  [validate_required_fields] returns [None] exactly when every
    required field is given; otherwise it returns a message. *)
Theorem validate_required_fields_none_iff
    (data : gmap string json) (required_fields : list string) :
  Utils.validate_required_fields data required_fields = None
  <-> Forall (given data) required_fields.
Proof.
  unfold Utils.validate_required_fields.
  induction required_fields as [|f fs IH]; cbn [List.filter].
  - split; [constructor|reflexivity].
  - pose proof (given_dec data f) as Hdec.
    destruct (match data !! f with
              | None => true | Some JNull => true | Some v => eq_str v "" end).
    + split; [discriminate|]. intros HF. inversion HF as [|? ? Hg _]; subst.
      apply Hdec in Hg. discriminate.
    + rewrite IH. split.
      * intros HF. constructor; [by apply Hdec | done].
      * intros HF. by inversion HF.
Qed.

Lemma required_title (d : gmap string json) :
  Utils.validate_required_fields d ["title"] = None <-> given d "title".
Proof.
  unfold Utils.validate_required_fields. cbn [List.filter].
  rewrite <- given_dec.
  destruct (match d !! "title" with
            | None => true | Some JNull => true | Some v => eq_str v "" end);
    split; (done || discriminate).
Qed.

Lemma leading_byte (n : N) :
  (n < 128 \/ (192 <= n /\ n < 256))%N -> continuation_byte (byte n) = false.
Proof.
  intros H. unfold continuation_byte, byte, Ascii.nat_of_ascii.
  rewrite Ascii.N_ascii_embedding by lia.
  destruct (Nat.leb_spec 128 (N.to_nat n)), (Nat.ltb_spec (N.to_nat n) 192); cbn;
    try reflexivity; lia.
Qed.

Lemma trailing_byte (n : N) :
  (n < 64)%N -> continuation_byte (byte (128 + n)) = true.
Proof.
  intros H. unfold continuation_byte, byte, Ascii.nat_of_ascii.
  rewrite Ascii.N_ascii_embedding by lia.
  destruct (Nat.leb_spec 128 (N.to_nat (128 + n))),
    (Nat.ltb_spec (N.to_nat (128 + n)) 192); cbn; try reflexivity; lia.
Qed.

Lemma characters_utf8 (c : N) (rest : string) :
  (c < 1114112)%N -> characters (utf8 c ++ rest) = S (characters rest).
Proof.
  intros Hc. unfold utf8.
  assert (forall n, (n mod 64 < 64)%N) as Hmod by (intros n; apply N.mod_lt; lia).
  destruct (N.ltb_spec c 128) as [H1|H1].
  { change (String (byte c) "" ++ rest) with (String (byte c) rest).
    cbn [characters]. rewrite leading_byte by lia. reflexivity. }
  destruct (N.ltb_spec c 2048) as [H2|H2].
  { change (characters (String (byte (192 + c / 64)) (String (byte (128 + c mod 64)) rest))
            = S (characters rest)).
    cbn [characters]. rewrite trailing_byte by apply Hmod.
    rewrite leading_byte; [reflexivity|].
    right. assert (c / 64 < 32)%N as Hq by (apply N.Div0.div_lt_upper_bound; lia).
    revert Hq. generalize (c / 64)%N. intros q Hq. lia. }
  destruct (N.ltb_spec c 65536) as [H3|H3].
  { change (characters (String (byte (224 + c / 4096))
                          (String (byte (128 + (c / 64) mod 64))
                             (String (byte (128 + c mod 64)) rest)))
            = S (characters rest)).
    cbn [characters]. rewrite !trailing_byte by apply Hmod.
    rewrite leading_byte; [reflexivity|].
    right. assert (c / 4096 < 16)%N as Hq by (apply N.Div0.div_lt_upper_bound; lia).
    revert Hq. generalize (c / 4096)%N. intros q Hq. lia. }
  change (characters (String (byte (240 + c / 262144))
                        (String (byte (128 + (c / 4096) mod 64))
                           (String (byte (128 + (c / 64) mod 64))
                              (String (byte (128 + c mod 64)) rest))))
          = S (characters rest)).
  cbn [characters]. rewrite !trailing_byte by apply Hmod.
  rewrite leading_byte; [reflexivity|].
  right. assert (c / 262144 < 5)%N as Hq by (apply N.Div0.div_lt_upper_bound; lia).
  revert Hq. generalize (c / 262144)%N. intros q Hq. lia.
Qed.

(** [characters] counts the code points of an encoded text. *)
Lemma characters_encode (text : list N) :
  Forall (fun c => (c < 1114112)%N) text -> characters (encode text) = length text.
Proof.
  induction 1 as [|c rest Hc _ IH]; [reflexivity|].
  cbn [encode length]. rewrite characters_utf8 by exact Hc. by rewrite IH.
Qed.

Lemma py_len_at_most (v : json) (limit : nat) :
  (exists n, py_len v = Ret n /\ n <= limit) <-> at_most limit v.
Proof.
  destruct v; cbn [py_len at_most];
    (split; [intros (n & [= <-] & Hn); exact Hn || idtac | intros H; eauto || done]).
  all: try (intros (n & H & _); discriminate H).
Qed.

(** Characters are counted, not bytes. *)
Example accented_title_accepted :
  String.length accented_title = 202
  /\ characters accented_title = 101
  /\ Utils.validate_task_data {[ "title" := JStr accented_title ]} = Ret None
  /\ Utils.validate_task_data {[ "title" := JStr (encode (repeat 233%N 201)) ]}
     = Ret (Some "Title cannot exceed 200 characters").
Proof. vm_compute. repeat split; reflexivity. Qed.

(** X2.  [validate_task_data] returns [None] (no error, no exception)
    exactly on acceptable task data: a given title of at most 200 characters,
    a description of at most 1000 (characters, not bytes; of a list or a
    dictionary the entries), and a status and a priority, when given, of the
    enumerated sets. *)
Theorem validate_task_data_accepts_iff (d : gmap string json) :
  Utils.validate_task_data d = Ret None <-> acceptable_task d.
Proof.
  unfold Utils.validate_task_data, acceptable_task.
  rewrite <- (py_len_at_most _ 200), <- (py_len_at_most _ 1000).
  pose proof (required_title d) as Hreq.
  destruct (Utils.validate_required_fields d ["title"]) as [err|].
  { split; [discriminate|]. intros [Hg _]. apply Hreq in Hg. discriminate. }
  assert (given d "title") as Hg by (by apply Hreq). clear Hreq.
  destruct (py_len (default (JStr "") (d !! "title"))) as [n|e]; cbn [mbind outcome_bind];
    [|split; [discriminate|intros (_ & (? & [=] & _) & _)]].
  destruct (Nat.ltb_spec 200 n) as [Hn|Hn].
  { split; [discriminate|]. intros (_ & (n' & [= <-] & Hle) & _). lia. }
  destruct (py_len (default (JStr "") (d !! "description"))) as [m|e];
    cbn [mbind outcome_bind];
    [|split; [discriminate|intros (_ & _ & (? & [=] & _) & _)]].
  destruct (Nat.ltb_spec 1000 m) as [Hm|Hm].
  { split; [discriminate|]. intros (_ & _ & (m' & [= <-] & Hle) & _). lia. }
  pose proof (in_literals_spec (default (JStr "OPEN") (d !! "status")) Utils.valid_statuses)
    as Hs.
  destruct (in_literals (default (JStr "OPEN") (d !! "status")) Utils.valid_statuses);
    cbn [negb].
  2: { split; [discriminate|]. intros (_ & _ & _ & Hst & _).
       apply Hs in Hst. discriminate. }
  pose proof (in_literals_spec (default (JStr "MEDIUM") (d !! "priority"))
                Utils.valid_priorities) as Hp.
  destruct (in_literals (default (JStr "MEDIUM") (d !! "priority")) Utils.valid_priorities);
    cbn [negb].
  2: { split; [discriminate|]. intros (_ & _ & _ & _ & Hpr).
       apply Hp in Hpr. discriminate. }
  split; [intros _|reflexivity].
  repeat split; eauto.
  - by apply Hs.
  - by apply Hp.
Qed.

(** What a MEMBER may do, for every action string: create and read,
    and update of a resource whose owner is the current user; nothing else
    (in particular no action spelled differently). *)
Theorem member_permissions_iff (action : string) (resource_owner current_user : option string) :
  Utils.check_user_permissions "MEMBER" action resource_owner current_user = true
  <-> action = "create" \/ action = "read"
      \/ (action = "update" /\ resource_owner = current_user).
Proof.
  unfold Utils.check_user_permissions.
  change (String.eqb "MEMBER" "ADMIN") with false.
  change (String.eqb "MEMBER" "MEMBER") with true.
  cbv iota.
  case_bool_decide as H1.
  - split; [intros _|done]. set_solver.
  - case_bool_decide as H2; cbn [andb].
    + assert (action = "update") as -> by set_solver.
      case_bool_decide as H3.
      * split; [intros _; by right; right|done].
      * split; [by destruct ("update" =? "delete")|].
        intros [?|[?|[_ ?]]]; done.
    + split; [by destruct (action =? "delete")|].
      intros [->|[->|[-> _]]]; set_solver.
Qed.

(** X3.  [sanitize_task_for_response] answers with exactly the ten public
    fields, whatever the item holds (so never [PK], [SK], [GSI1PK], [GSI1SK]
    or [entity_type]), and keeps the value of every public field the item
    has. *)
Theorem sanitize_keeps_public_fields_only (task_item : gmap string json) :
  (forall f, is_Some (UtilsRest.sanitize_task_for_response task_item !! f)
             <-> f ∈ CreateTask.response_fields)
  /\ (forall f v, f ∈ CreateTask.response_fields -> task_item !! f = Some v ->
                  UtilsRest.sanitize_task_for_response task_item !! f = Some v).
Proof.
  split.
  - intros f. rewrite <- elem_of_dom.
    unfold UtilsRest.sanitize_task_for_response, CreateTask.response_fields.
    rewrite !dom_insert_L, dom_singleton_L.
    rewrite !elem_of_union, !elem_of_singleton, !elem_of_cons, elem_of_nil. tauto.
  - intros f v Hf Hv.
    unfold CreateTask.response_fields in Hf.
    repeat (apply elem_of_cons in Hf as [-> | Hf]); [..|by apply elem_of_nil in Hf];
      unfold UtilsRest.sanitize_task_for_response; rewrite Hv; by simplify_map_eq.
Qed.

Lemma py_getitem_cases (v : json) (k : string) :
  (exists m x, v = JObj m /\ m !! k = Some x /\ py_getitem v k = Ret x)
  \/ (exists m, v = JObj m /\ m !! k = None /\ py_getitem v k = Raise (KeyError k))
  \/ ((forall m, v <> JObj m) /\ exists msg, py_getitem v k = Raise (TypeError msg)).
Proof.
  destruct v as [| | | | |m]; try (right; right; split; [congruence|cbn; eauto]).
  cbn. destruct (m !! k) as [x|] eqn:H; [left|right; left]; eauto 6.
Qed.

(** X4.  [extract_tenant_context] returns the context exactly when
    [event['requestContext']['authorizer']] is a dictionary with [tenant_id],
    [user_id] and [role]; [email] is optional and defaults to the empty
    string.  A missing key, [requestContext] and [authorizer] among them, is
    raised as [ValueError] naming the key, never as [KeyError]; where
    the event, [requestContext] or [authorizer] is not a dictionary ([null],
    say) a [TypeError] leaves the function. *)
Theorem extract_tenant_context_spec (event : json) :
  (forall context,
      UtilsRest.extract_tenant_context event = Ret context
      <-> exists a tenant user role,
            carries event a
            /\ a !! "tenant_id" = Some tenant /\ a !! "user_id" = Some user
            /\ a !! "role" = Some role
            /\ context = tenant_context a tenant user role)
  /\ (forall x,
        UtilsRest.extract_tenant_context event = Raise x ->
        (exists k, k ∈ context_keys
                   /\ x = ValueError ("Missing authorization context: '" ++ k ++ "'"))
        \/ (exists msg, x = TypeError msg))
  /\ (forall e, event = JObj e -> e !! "requestContext" = None ->
        UtilsRest.extract_tenant_context event
        = Raise (ValueError "Missing authorization context: 'requestContext'"))
  /\ (forall e, event = JObj e -> e !! "requestContext" = Some JNull ->
        UtilsRest.extract_tenant_context event
        = Raise (TypeError "'NoneType' object is not subscriptable")).
Proof.
  assert ((exists a tenant user role,
              carries event a
              /\ a !! "tenant_id" = Some tenant /\ a !! "user_id" = Some user
              /\ a !! "role" = Some role
              /\ UtilsRest.extract_tenant_context event
                 = Ret (tenant_context a tenant user role))
          \/ ((forall a tenant user role,
                  carries event a -> a !! "tenant_id" = Some tenant ->
                  a !! "user_id" = Some user -> a !! "role" = Some role -> False)
              /\ ((exists k, k ∈ context_keys
                     /\ UtilsRest.extract_tenant_context event
                        = Raise (ValueError ("Missing authorization context: '" ++ k ++ "'")))
                  \/ (exists msg, UtilsRest.extract_tenant_context event
                                  = Raise (TypeError msg))))) as Hcases.
  { unfold UtilsRest.extract_tenant_context, carries.
    destruct (py_getitem_cases event "requestContext")
      as [(e & rc & -> & He & ->)|[(e & -> & He & ->)|(Hno & msg & ->)]];
      cbn [mbind outcome_bind].
    2: { right. split; [|left; exists "requestContext"; split; [set_solver|reflexivity]].
         intros a ? ? ? (? & ? & [= <-] & ? & _). congruence. }
    2: { right. split; [|right; eauto].
         intros a ? ? ? (e & ? & -> & _). by destruct (Hno e). }
    destruct (py_getitem_cases rc "authorizer")
      as [(r & a & -> & Hr & ->)|[(r & -> & Hr & ->)|(Hno & msg & ->)]];
      cbn [mbind outcome_bind].
    2: { right. split; [|left; exists "authorizer"; split; [set_solver|reflexivity]].
         intros a ? ? ? (? & ? & [= <-] & Hrc & Ha). rewrite He in Hrc.
         injection Hrc as <-. congruence. }
    2: { right. split; [|right; eauto].
         intros a ? ? ? (? & r & [= <-] & Hrc & _). rewrite He in Hrc.
         injection Hrc as ->. by destruct (Hno r). }
    destruct (py_getitem_cases a "tenant_id")
      as [(m & tenant & -> & Ht & ->)|[(m & -> & Ht & ->)|(Hno & msg & ->)]];
      cbn [mbind outcome_bind].
    2: { right. split; [|left; exists "tenant_id"; split; [set_solver|reflexivity]].
         intros a ? ? ? (? & ? & [= <-] & Hrc & Ha) ?. rewrite He in Hrc.
         injection Hrc as <-. rewrite Hr in Ha. injection Ha as <-. congruence. }
    2: { right. split; [|right; eauto].
         intros a' ? ? ? (? & ? & [= <-] & Hrc & Ha). rewrite He in Hrc.
         injection Hrc as <-. rewrite Hr in Ha. injection Ha as ->. by destruct (Hno a'). }
    unfold py_getitem, py_get.
    destruct (m !! "user_id") as [user|] eqn:Hu; cbn [mbind outcome_bind].
    2: { right. split; [|left; exists "user_id"; split; [set_solver|reflexivity]].
         intros a ? ? ? (? & ? & [= <-] & Hrc & Ha) ? ?. rewrite He in Hrc.
         injection Hrc as <-. rewrite Hr in Ha. injection Ha as <-. congruence. }
    destruct (m !! "role") as [role|] eqn:Hro; cbn [mbind outcome_bind].
    2: { right. split; [|left; exists "role"; split; [set_solver|reflexivity]].
         intros a ? ? ? (? & ? & [= <-] & Hrc & Ha) ? ? ?. rewrite He in Hrc.
         injection Hrc as <-. rewrite Hr in Ha. injection Ha as <-. congruence. }
    left. exists m, tenant, user, role. repeat split; eauto. }
  split; [|split; [|split]].
  - intros context. split.
    + intros Hret. destruct Hcases as [(a & t & u & r & Hc & Ht & Hu & Hr & Hrun)|[_ Hraise]].
      * exists a, t, u, r. repeat split; try assumption. congruence.
      * destruct Hraise as [(k & _ & H)|(msg & H)]; congruence.
    + intros (a & t & u & r & Hc & Ht & Hu & Hr & ->).
      destruct Hcases as [(a' & t' & u' & r' & Hc' & Ht' & Hu' & Hr' & Hrun)|[Hno _]].
      * rewrite Hrun.
        destruct Hc as (e & rc & -> & He & Ha), Hc' as (e' & rc' & [= <-] & He' & Ha').
        rewrite He in He'. injection He' as <-. rewrite Ha in Ha'. injection Ha' as <-.
        congruence.
      * destruct (Hno a t u r Hc Ht Hu Hr).
  - intros x Hx. destruct Hcases as [(a & t & u & r & _ & _ & _ & _ & Hrun)|[_ Hraise]];
      [congruence|].
    destruct Hraise as [(k & Hk & H)|(msg & H)]; rewrite H in Hx; injection Hx as <-; eauto.
  - intros e -> He. unfold UtilsRest.extract_tenant_context. cbn. rewrite He. reflexivity.
  - intros e -> He. unfold UtilsRest.extract_tenant_context. cbn. rewrite He. reflexivity.
Qed.

(** X5.  [generate_response] keeps the status code and the body and merges
    the headers: a given header wins, every other default header (the CORS
    headers among them) stays. *)
Theorem generate_response_merges_headers
    (status_code : Z) (body : gmap string json) (headers : option (gmap string string))
    (k : string) :
  let r := UtilsRest.generate_response status_code body headers in
  Utils.statusCode r = status_code
  /\ Utils.body r = body
  /\ Utils.headers r !! k
     = match headers ≫= (.!! k) with
       | Some v => Some v
       | None => UtilsRest.default_headers !! k
       end.
Proof.
  cbn zeta. repeat split. unfold UtilsRest.generate_response. cbn [Utils.headers].
  destruct headers as [h|]; cbn [mbind option_bind]; [|reflexivity].
  case_bool_decide as He.
  - subst h. rewrite lookup_empty. reflexivity.
  - rewrite lookup_union. destruct (h !! k), (UtilsRest.default_headers !! k); reflexivity.
Qed.

(** [generate_error_response] always answers with the default (CORS)
    headers and a body holding [error], [message] and [timestamp]; the body
    holds [details] exactly when details are given and not empty. *)
Theorem generate_error_response_shape
    (utcnow : string) (status_code : Z) (error_type message : string)
    (details : option (gmap string json)) :
  let r := UtilsRest.generate_error_response utcnow status_code error_type message details in
  Utils.statusCode r = status_code
  /\ Utils.headers r = UtilsRest.default_headers
  /\ Utils.body r !! "error" = Some (JStr error_type)
  /\ Utils.body r !! "message" = Some (JStr message)
  /\ Utils.body r !! "timestamp" = Some (JStr (utcnow ++ "Z"))
  /\ Utils.body r !! "details"
     = match details with
       | Some d => if bool_decide (d = ∅) then None else Some (JObj d)
       | None => None
       end.
Proof.
  cbn zeta. unfold UtilsRest.generate_error_response, UtilsRest.generate_response.
  cbn [Utils.statusCode Utils.headers Utils.body truthy].
  destruct details as [d|]; [case_bool_decide; cbn [negb]|];
    repeat split; by simplify_map_eq.
Qed.

(** ** What the handlers leave alone *)

Lemma reads_only_keeps (key : string * string) {A} (c : M A) :
  reads_only c -> keeps key c.
Proof. intros H w. rewrite H. reflexivity. Qed.

Lemma keeps_bind (key : string * string) {A B} (c : M A) (f : A -> M B) :
  keeps key c ->
  (forall a w w', c w = (Ret a, w') -> keeps key (f a)) ->
  keeps key (c ≫= f).
Proof.
  intros Hc Hf w. unfold mbind, M_bind.
  specialize (Hc w). destruct (c w) as [[a|e] w'] eqn:E; cbn [snd] in Hc.
  - rewrite (Hf a w w' E w'). exact Hc.
  - exact Hc.
Qed.

Lemma keeps_bind_pure (key : string * string) {A B} (c : M A) (f : A -> M B) :
  reads_only c -> (forall a, keeps key (f a)) -> keeps key (c ≫= f).
Proof. intros Hc Hf. apply keeps_bind; [by apply reads_only_keeps | auto]. Qed.

Lemma keeps_try (key : string * string) {A} (c : M A) (h : exn -> M A) :
  keeps key c -> (forall e, keeps key (h e)) -> keeps key (try_except c h).
Proof.
  intros Hc Hh w. unfold try_except.
  specialize (Hc w). destruct (c w) as [[a|e] w']; cbn [snd] in Hc |- *.
  - exact Hc.
  - rewrite (Hh e w'). exact Hc.
Qed.

Lemma reads_only_ret {A} (a : A) : reads_only (mret a : M A).
Proof. intros w. reflexivity. Qed.

Lemma reads_only_raise {A} (e : exn) : reads_only (raise e : M A).
Proof. intros w. reflexivity. Qed.

Lemma reads_only_lift {A} (c : outcome A) : reads_only (lift c).
Proof. intros w. reflexivity. Qed.

Lemma reads_only_getitem (d : gmap string string) (k : string) : reads_only (getitem d k).
Proof. intros w. unfold getitem. destruct (d !! k); reflexivity. Qed.

Lemma reads_only_event_authorizer (event : api_event) : reads_only (event_authorizer event).
Proof. intros w. unfold event_authorizer. destruct (authorizer event); reflexivity. Qed.

Lemma reads_only_event_path_id (event : api_event) : reads_only (event_path_id event).
Proof.
  intros w. unfold event_path_id.
  destruct (pathParameters event); [apply reads_only_getitem | reflexivity].
Qed.

Lemma reads_only_event_json_body (event : api_event) : reads_only (event_json_body event).
Proof. intros w. unfold event_json_body. destruct (event_body event); reflexivity. Qed.

Lemma reads_only_now (rt : runtime) : reads_only (Services.now rt).
Proof. intros w. reflexivity. Qed.

Lemma reads_only_new_uuid (rt : runtime) : reads_only (Services.new_uuid rt).
Proof. intros w. reflexivity. Qed.

Lemma keeps_service (rt : runtime) (key : string * string) {A} (c : call)
    (effect : world -> outcome A * world) :
  (forall w, table (effect w).2 !! key = table w !! key) ->
  keeps key (Services.service rt c effect).
Proof.
  intros H w. unfold Services.service.
  destruct (raises rt (length (calls w))); [reflexivity|].
  rewrite H. reflexivity.
Qed.

Lemma keeps_get_item (rt : runtime) (key k : string * string) :
  keeps key (Services.get_item rt k).
Proof. apply keeps_service. reflexivity. Qed.

Lemma keeps_put_item (rt : runtime) (key : string * string) (item : gmap string json) :
  Services.item_key item <> Some key -> keeps key (Services.put_item rt item).
Proof.
  intros Hne. apply keeps_service. intros w.
  destruct (Services.item_key item) as [k|]; [|reflexivity].
  cbn. apply lookup_insert_ne. congruence.
Qed.

Lemma keeps_update_item (rt : runtime) (key k : string * string)
    (ue : list (string * string)) (ev : gmap string json) :
  k <> key -> keeps key (Services.update_item rt k ue ev).
Proof.
  intros Hne. apply keeps_service. intros w. cbv zeta.
  destruct (existsb _ ue); [reflexivity|].
  match goal with |- context [Services.apply_set ue ev ?old] =>
    destruct (Services.apply_set ue ev old) end; [|reflexivity].
  cbn. by apply lookup_insert_ne.
Qed.

Lemma keeps_delete_item (rt : runtime) (key k : string * string) :
  k <> key -> keeps key (Services.delete_item rt k).
Proof. intros Hne. apply keeps_service. intros w. cbn. by apply lookup_delete_ne. Qed.

Lemma keeps_put_events (rt : runtime) (key : string * string) (entry : bus_entry) :
  keeps key (Services.put_events rt entry).
Proof.
  intros w. unfold Services.put_events, Services.service.
  destruct (raises rt (length (calls w))); [reflexivity|].
  destruct (bus_rejects rt (length (calls w))); reflexivity.
Qed.

Lemma getitem_returns (d : gmap string string) (k v : string) (w w' : world) :
  getitem d k w = (Ret v, w') -> d !! k = Some v.
Proof. unfold getitem. destruct (d !! k); intros [=]; congruence. Qed.

Lemma event_authorizer_returns (event : api_event) (a : gmap string string) (w w' : world) :
  event_authorizer event w = (Ret a, w') -> authorizer event = Some a.
Proof. unfold event_authorizer. destruct (authorizer event); intros [=]; congruence. Qed.

Lemma event_path_id_returns (event : api_event) (id : string) (w w' : world) :
  event_path_id event w = (Ret id, w') ->
  exists p, pathParameters event = Some p /\ p !! "id" = Some id.
Proof.
  unfold event_path_id. destruct (pathParameters event) as [p|]; [|intros [=]].
  intros H. exists p. split; [reflexivity|]. by eapply getitem_returns.
Qed.

Ltac keeps_pure :=
  first [ apply reads_only_ret | apply reads_only_raise | apply reads_only_lift
        | apply reads_only_getitem | apply reads_only_event_authorizer
        | apply reads_only_event_path_id | apply reads_only_event_json_body
        | apply reads_only_now | apply reads_only_new_uuid ].

Section Confinement.
Context (rt : runtime).

(** X6.  Create writes only in the caller's partition: an item whose
    partition key is not [TENANT#<tenant_id of the request>] is the same
    before and after, whatever the request holds and whichever service call
    fails. *)
Theorem create_keeps_other_partitions
    (event : api_event) (w : world) (key : string * string) :
  (forall a tenant, authorizer event = Some a -> a !! "tenant_id" = Some tenant ->
                    key.1 <> "TENANT#" ++ tenant) ->
  table (CreateTask.handler rt event w).2 !! key = table w !! key.
Proof.
  intros Hother. revert w. change (keeps key (CreateTask.handler rt event)).
  unfold CreateTask.handler. apply keeps_try.
  2: { intros e. apply reads_only_keeps. destruct e; apply reads_only_ret. }
  unfold CreateTask.handler_body.
  apply keeps_bind; [apply reads_only_keeps; keeps_pure|].
  intros a ? ? Ha%event_authorizer_returns.
  apply keeps_bind; [apply reads_only_keeps; keeps_pure|].
  intros tenant ? ? Ht%getitem_returns.
  apply keeps_bind_pure; [keeps_pure|]. intros user.
  apply keeps_bind_pure; [keeps_pure|]. intros role.
  apply keeps_bind_pure; [keeps_pure|]. intros body.
  apply keeps_bind_pure; [keeps_pure|]. intros title.
  destruct (negb (truthy title)); [apply reads_only_keeps; keeps_pure|].
  apply keeps_bind_pure; [keeps_pure|]. intros task_id.
  apply keeps_bind_pure; [keeps_pure|]. intros t.
  apply keeps_bind_pure; [keeps_pure|]. intros status.
  apply keeps_bind_pure; [keeps_pure|]. intros description.
  apply keeps_bind_pure; [keeps_pure|]. intros priority.
  apply keeps_bind_pure; [keeps_pure|]. intros assigned_to.
  apply keeps_bind.
  { apply keeps_put_item. rewrite task_item_key. intros [= Hk].
    apply (Hother a tenant Ha Ht). rewrite <- Hk. reflexivity. }
  intros _ _ _ _.
  apply keeps_bind; [apply keeps_put_events|]. intros _ _ _ _.
  apply keeps_bind_pure; [keeps_pure|]. intros response_task.
  apply reads_only_keeps; keeps_pure.
Qed.

(** X7.  Update writes only the addressed task: every item other than
    [(TENANT#<tenant_id>, TASK#<id>)] of the request is the same before and
    after, for every request and every failure of a service call; so a
    request never changes another tenant's partition. *)
Theorem update_keeps_other_items
    (event : api_event) (w : world) (key : string * string) :
  (forall a tenant p id,
      authorizer event = Some a -> a !! "tenant_id" = Some tenant ->
      pathParameters event = Some p -> p !! "id" = Some id ->
      key <> ("TENANT#" ++ tenant, "TASK#" ++ id)) ->
  table (UpdateTask.handler rt event w).2 !! key = table w !! key.
Proof.
  intros Hother. revert w. change (keeps key (UpdateTask.handler rt event)).
  unfold UpdateTask.handler. apply keeps_try.
  2: { intros e. apply reads_only_keeps. destruct e; apply reads_only_ret. }
  unfold UpdateTask.handler_body.
  apply keeps_bind; [apply reads_only_keeps; keeps_pure|].
  intros a ? ? Ha%event_authorizer_returns.
  apply keeps_bind; [apply reads_only_keeps; keeps_pure|].
  intros tenant ? ? Ht%getitem_returns.
  apply keeps_bind_pure; [keeps_pure|]. intros user.
  apply keeps_bind_pure; [keeps_pure|]. intros role.
  apply keeps_bind; [apply reads_only_keeps; keeps_pure|].
  intros id ? ? (p & Hp & Hid)%event_path_id_returns.
  apply keeps_bind_pure; [keeps_pure|]. intros body.
  apply keeps_bind; [apply keeps_get_item|]. intros [existing|] _ _ _.
  2: apply reads_only_keeps; keeps_pure.
  destruct (_ && _); [apply reads_only_keeps; keeps_pure|].
  apply keeps_bind_pure; [keeps_pure|]. intros t.
  apply keeps_bind_pure; [keeps_pure|]. intros [ue ev].
  apply keeps_bind.
  { apply keeps_update_item. intros Hk. by apply (Hother a tenant p id). }
  intros updated _ _ _.
  apply keeps_bind_pure; [keeps_pure|]. intros task.
  apply keeps_bind_pure; [keeps_pure|]. intros _.
  apply reads_only_keeps; keeps_pure.
Qed.

(** X8.  Delete removes at most the addressed task: every item other than
    [(TENANT#<tenant_id>, TASK#<id>)] of the request is the same before and
    after, for every request and every failure of a service call. *)
Theorem delete_keeps_other_items
    (event : api_event) (w : world) (key : string * string) :
  (forall a tenant p id,
      authorizer event = Some a -> a !! "tenant_id" = Some tenant ->
      pathParameters event = Some p -> p !! "id" = Some id ->
      key <> ("TENANT#" ++ tenant, "TASK#" ++ id)) ->
  table (DeleteTask.handler rt event w).2 !! key = table w !! key.
Proof.
  intros Hother. revert w. change (keeps key (DeleteTask.handler rt event)).
  unfold DeleteTask.handler. apply keeps_try.
  2: { intros e. apply reads_only_keeps. destruct e; apply reads_only_ret. }
  unfold DeleteTask.handler_body.
  apply keeps_bind; [apply reads_only_keeps; keeps_pure|].
  intros a ? ? Ha%event_authorizer_returns.
  apply keeps_bind; [apply reads_only_keeps; keeps_pure|].
  intros tenant ? ? Ht%getitem_returns.
  apply keeps_bind_pure; [keeps_pure|]. intros user.
  apply keeps_bind_pure; [keeps_pure|]. intros role.
  apply keeps_bind; [apply reads_only_keeps; keeps_pure|].
  intros id ? ? (p & Hp & Hid)%event_path_id_returns.
  destruct (negb _); [apply reads_only_keeps; keeps_pure|].
  apply keeps_bind; [apply keeps_get_item|]. intros [existing|] _ _ _.
  2: apply reads_only_keeps; keeps_pure.
  apply keeps_bind.
  { apply keeps_delete_item. intros Hk. by apply (Hother a tenant p id). }
  intros _ _ _ _.
  apply keeps_bind_pure; [keeps_pure|]. intros _.
  apply reads_only_keeps; keeps_pure.
Qed.

End Confinement.

Ltac other_item :=
  let Ha := fresh in let Ht := fresh in let Hp := fresh in let Hid := fresh in
  let Hk := fresh in
  first [ intros ? ? ? ? Ha Ht Hp Hid Hk; cbn in Ha, Hp; injection Ha as <-;
          injection Hp as <-; vm_compute in Ht, Hid; injection Ht as <-;
          injection Hid as <-; vm_compute in Hk; discriminate Hk
        | intros ? ? Ha Ht Hk; cbn in Ha; injection Ha as <-;
          vm_compute in Ht; injection Ht as <-; vm_compute in Hk; discriminate Hk ].

Lemma create_keeps_other_partitions_witness :
  table (CreateTask.handler rt_ok (create_request "MEMBER" ship_v1) two_tenant_world).2
    !! lahore_key
  = Some lahore_task.
Proof.
  rewrite (create_keeps_other_partitions rt_ok (create_request "MEMBER" ship_v1)
             two_tenant_world lahore_key); [reflexivity | other_item].
Defined.

Lemma update_keeps_other_items_witness :
  table (UpdateTask.handler rt_ok
           (request "ahmed-hassan" "ADMIN" (BodyJson (JObj {[ "status" := JStr "DONE" ]})))
           two_tenant_world).2 !! lahore_key
  = Some lahore_task.
Proof.
  rewrite (update_keeps_other_items rt_ok
             (request "ahmed-hassan" "ADMIN" (BodyJson (JObj {[ "status" := JStr "DONE" ]})))
             two_tenant_world lahore_key); [reflexivity | other_item].
Defined.

Lemma delete_keeps_other_items_witness :
  table (DeleteTask.handler rt_ok (request "ahmed-hassan" "ADMIN" BodyNull)
           two_tenant_world).2 !! lahore_key
  = Some lahore_task.
Proof.
  rewrite (delete_keeps_other_items rt_ok (request "ahmed-hassan" "ADMIN" BodyNull)
             two_tenant_world lahore_key); [reflexivity | other_item].
Defined.

(** ** How the handlers answer *)

Lemma responds_bind (codes : list Z) {A} (c : M A) (f : A -> M Utils.response) :
  (forall a, responds codes (f a)) -> responds codes (c ≫= f).
Proof.
  intros H w. unfold mbind, M_bind.
  destruct (c w) as [[a|e] w']; [apply H | exact I].
Qed.

Lemma responds_ret (codes : list Z) (r : Utils.response) :
  Utils.statusCode r ∈ codes -> responds codes (mret r).
Proof. intros H w. exact H. Qed.

Lemma try_except_answers (codes : list Z) (c : M Utils.response)
    (h : exn -> M Utils.response) (w : world) :
  responds codes c ->
  (forall e, exists r, h e = mret r /\ Utils.statusCode r ∈ codes) ->
  exists r w', try_except c h w = (Ret r, w') /\ Utils.statusCode r ∈ codes.
Proof.
  intros Hc Hh. unfold try_except. specialize (Hc w).
  destruct (c w) as [[r|e] w']; cbn [fst] in Hc.
  - eauto.
  - destruct (Hh e) as (r & -> & Hr). eauto.
Qed.

Ltac in_codes := cbn; rewrite ?elem_of_cons; tauto.

(** X9.  No exception leaves the task handlers: for every request, every
    store and every failure of a service call each handler returns a
    response, and its status code is 201, 400 or 500 for create and 200, 400,
    403, 404 or 500 for update and for delete. *)
Theorem task_handlers_always_answer (rt : runtime) (event : api_event) (w : world) :
  (exists r w', CreateTask.handler rt event w = (Ret r, w')
                /\ Utils.statusCode r ∈ [201; 400; 500]%Z)
  /\ (exists r w', UpdateTask.handler rt event w = (Ret r, w')
                   /\ Utils.statusCode r ∈ [200; 400; 403; 404; 500]%Z)
  /\ (exists r w', DeleteTask.handler rt event w = (Ret r, w')
                   /\ Utils.statusCode r ∈ [200; 400; 403; 404; 500]%Z).
Proof.
  split; [|split].
  - apply try_except_answers.
    2: { intros e. destruct e; eexists; (split; [reflexivity|in_codes]). }
    unfold CreateTask.handler_body.
    do 6 (apply responds_bind; intros ?).
    destruct (negb _); [apply responds_ret; in_codes|].
    do 9 (apply responds_bind; intros ?).
    apply responds_ret; in_codes.
  - apply try_except_answers.
    2: { intros e. destruct e; eexists; (split; [reflexivity|in_codes]). }
    unfold UpdateTask.handler_body.
    do 6 (apply responds_bind; intros ?).
    apply responds_bind; intros [existing|]; [|apply responds_ret; in_codes].
    destruct (_ && _); [apply responds_ret; in_codes|].
    apply responds_bind; intros ?.
    apply responds_bind; intros [ue ev].
    do 3 (apply responds_bind; intros ?).
    apply responds_ret; in_codes.
  - apply try_except_answers.
    2: { intros e. destruct e; eexists; (split; [reflexivity|in_codes]). }
    unfold DeleteTask.handler_body.
    do 5 (apply responds_bind; intros ?).
    destruct (negb _); [apply responds_ret; in_codes|].
    apply responds_bind; intros [existing|]; [|apply responds_ret; in_codes].
    do 2 (apply responds_bind; intros ?).
    apply responds_ret; in_codes.
Qed.

(** ** Create, the other paths *)

Section CreatePaths.
Context (rt : runtime).

Lemma project_task_item_sanitized (tenant user task_id time : string)
    (title status description priority assigned_to : json) :
  CreateTask.project
    (CreateTask.task_item rt tenant user task_id time
       title status description priority assigned_to)
    CreateTask.response_fields
  = Ret (UtilsRest.sanitize_task_for_response
           (CreateTask.task_item rt tenant user task_id time
              title status description priority assigned_to)).
Proof.
  set (item := CreateTask.task_item rt tenant user task_id time
                 title status description priority assigned_to).
  assert (item !! "task_id" = Some (JStr task_id)) as H1 by by simplify_map_eq.
  assert (item !! "tenant_id" = Some (JStr tenant)) as H2 by by simplify_map_eq.
  assert (item !! "title" = Some title) as H3 by by simplify_map_eq.
  assert (item !! "description" = Some description) as H4 by by simplify_map_eq.
  assert (item !! "status" = Some status) as H5 by by simplify_map_eq.
  assert (item !! "priority" = Some priority) as H6 by by simplify_map_eq.
  assert (item !! "assigned_to" = Some assigned_to) as H7 by by simplify_map_eq.
  assert (item !! "created_by" = Some (JStr user)) as H8 by by simplify_map_eq.
  assert (item !! "created_at" = Some (JStr time)) as H9 by by simplify_map_eq.
  assert (item !! "updated_at" = Some (JStr time)) as H10 by by simplify_map_eq.
  unfold CreateTask.response_fields, UtilsRest.sanitize_task_for_response.
  cbn [CreateTask.project].
  rewrite H1, H2, H3, H4, H5, H6, H7, H8, H9, H10.
  reflexivity.
Qed.

(** The run of a create request whose title is given, up to the write. *)
Lemma create_reaches_write
    (event : api_event) (w : world) (a : gmap string string)
    (tenant user role : string) (b : gmap string json) (title : json) :
  authorizer event = Some a ->
  a !! "tenant_id" = Some tenant -> a !! "user_id" = Some user -> a !! "role" = Some role ->
  event_body event = BodyJson (JObj b) ->
  b !! "title" = Some title -> truthy title = true ->
  let n := length (calls w) in
  let item := created_item rt tenant user (uuid4 rt n) (utcnow_isoformat rt n ++ "Z") b title in
  let entry := created_entry tenant user (uuid4 rt n) (utcnow_isoformat rt n ++ "Z") title in
  CreateTask.handler_body rt event w
  = (Services.put_item rt item ≫= fun _ =>
     Services.put_events rt entry ≫= fun _ =>
     lift (CreateTask.project item CreateTask.response_fields) ≫= fun response_task =>
     mret {| Utils.statusCode := 201; Utils.headers := cors_headers;
             Utils.body := response_task |}) w.
Proof.
  intros Ha Ht Hu Hr Hb Htitle Htruthy n item entry.
  unfold CreateTask.handler_body.
  step (event_authorizer_some _ _ w Ha).
  step (getitem_some _ _ _ w Ht). step (getitem_some _ _ _ w Hu).
  step (getitem_some _ _ _ w Hr). step (event_json_body_some _ _ w Hb).
  step (py_get_obj b "title" JNull w). rewrite Htitle. cbn [default from_option].
  change (Datatypes.id title) with title. rewrite Htruthy. cbn [negb].
  step (eq_refl : Services.new_uuid rt w = (Ret (uuid4 rt n), w)).
  step (eq_refl : Services.now rt w = (Ret (utcnow_isoformat rt n), w)).
  step (py_get_obj b "status" (JStr "OPEN") w).
  step (py_get_obj b "description" (JStr "") w).
  step (py_get_obj b "priority" (JStr "MEDIUM") w).
  step (py_get_obj b "assigned_to" (JStr "") w).
  reflexivity.
Qed.

(** The whole run when both service calls succeed. *)
Lemma create_runs
    (event : api_event) (w : world) (a : gmap string string)
    (tenant user role : string) (b : gmap string json) (title : json) :
  authorizer event = Some a ->
  a !! "tenant_id" = Some tenant -> a !! "user_id" = Some user -> a !! "role" = Some role ->
  event_body event = BodyJson (JObj b) ->
  b !! "title" = Some title -> truthy title = true ->
  let n := length (calls w) in
  let task_id := uuid4 rt n in
  let item := created_item rt tenant user task_id (utcnow_isoformat rt n ++ "Z") b title in
  let entry := created_entry tenant user task_id (utcnow_isoformat rt n ++ "Z") title in
  raises rt n = false -> raises rt (S n) = false -> bus_rejects rt (S n) = false ->
  CreateTask.handler rt event w
  = (Ret {| Utils.statusCode := 201; Utils.headers := cors_headers;
            Utils.body := UtilsRest.sanitize_task_for_response item |},
     {| table := <[("TENANT#" ++ tenant, "TASK#" ++ task_id) := item]> (table w);
        bus := (bus w ++ [entry])%list; bucket := bucket w;
        calls := (calls w ++ [PutItem item; PutEvents entry])%list |}).
Proof.
  intros Ha Ht Hu Hr Hb Htitle Htruthy n task_id item entry Hok1 Hok2 Hok3.
  unfold CreateTask.handler, try_except.
  rewrite (create_reaches_write event w a tenant user role b title
             Ha Ht Hu Hr Hb Htitle Htruthy).
  fold n task_id item entry.
  step (put_item_ok rt item ("TENANT#" ++ tenant, "TASK#" ++ task_id) w Hok1
          (task_item_key rt _ _ _ _ _ _ _ _ _)).
  unfold mbind at 1, M_bind at 1, Services.put_events, Services.service.
  cbn [calls]. rewrite length_app. cbn [length]. rewrite Nat.add_1_r. fold n.
  rewrite Hok2, Hok3.
  assert (CreateTask.project item CreateTask.response_fields
          = Ret (UtilsRest.sanitize_task_for_response item)) as Hproject
    by exact (project_task_item_sanitized tenant user task_id _ title _ _ _ _).
  unfold mbind at 1, M_bind at 1, lift at 1. rewrite Hproject.
  cbn [Services.record_call table bus bucket calls].
  rewrite <- app_assoc. reflexivity.
Qed.

(** X10.  A create request with a given title, both service calls
    succeeding, is answered 201 with the public fields of the new item; the
    item is written under [(TENANT#<tenant>, TASK#<fresh id>)] with the caller
    as [created_by], status OPEN and priority MEDIUM unless the body says
    otherwise, and the index key [STATUS#<status>#<time>]; exactly one entry,
    the Task Created event of that task, is put on the bus, after the write. *)
Theorem create_persists_and_publishes
    (event : api_event) (w : world) (a : gmap string string)
    (tenant user role : string) (b : gmap string json) (title : json) :
  authorizer event = Some a ->
  a !! "tenant_id" = Some tenant -> a !! "user_id" = Some user -> a !! "role" = Some role ->
  event_body event = BodyJson (JObj b) ->
  b !! "title" = Some title -> truthy title = true ->
  let n := length (calls w) in
  let task_id := uuid4 rt n in
  let time := utcnow_isoformat rt n ++ "Z" in
  let item := created_item rt tenant user task_id time b title in
  let entry := created_entry tenant user task_id time title in
  raises rt n = false -> raises rt (S n) = false -> bus_rejects rt (S n) = false ->
  exists r w',
    CreateTask.handler rt event w = (Ret r, w')
    /\ Utils.statusCode r = 201%Z
    /\ Utils.body r = UtilsRest.sanitize_task_for_response item
    /\ table w' = <[("TENANT#" ++ tenant, "TASK#" ++ task_id) := item]> (table w)
    /\ bus w' = (bus w ++ [entry])%list
    /\ calls w' = (calls w ++ [PutItem item; PutEvents entry])%list
    /\ item !! "title" = Some title
    /\ item !! "created_by" = Some (JStr user)
    /\ item !! "status" = Some (default (JStr "OPEN") (b !! "status"))
    /\ item !! "priority" = Some (default (JStr "MEDIUM") (b !! "priority"))
    /\ item !! "GSI1SK"
       = Some (JStr ("STATUS#" ++ Services.format rt (default (JStr "OPEN") (b !! "status"))
                     ++ "#" ++ time))
    /\ item !! "entity_type" = Some (JStr "TASK").
Proof.
  intros Ha Ht Hu Hr Hb Htitle Htruthy n task_id time item entry Hok1 Hok2 Hok3.
  eexists _, _. split.
  { exact (create_runs event w a tenant user role b title
             Ha Ht Hu Hr Hb Htitle Htruthy Hok1 Hok2 Hok3). }
  repeat split; by simplify_map_eq.
Qed.

(** X11.  A create request whose body is an object without a title, or with
    a title that is [null], empty, zero, [false] or an empty container, is
    answered 400 "Title is required"; no service is called and the world is
    as before. *)
Theorem create_without_title_rejected
    (event : api_event) (w : world) (a : gmap string string)
    (tenant user role : string) (b : gmap string json) :
  authorizer event = Some a ->
  a !! "tenant_id" = Some tenant -> a !! "user_id" = Some user -> a !! "role" = Some role ->
  event_body event = BodyJson (JObj b) ->
  truthy (default JNull (b !! "title")) = false ->
  CreateTask.handler rt event w
  = (Ret (error_response 400 "Title is required" "Task title cannot be empty"), w).
Proof.
  intros Ha Ht Hu Hr Hb Hfalsy.
  unfold CreateTask.handler, try_except, CreateTask.handler_body.
  step (event_authorizer_some _ _ w Ha).
  step (getitem_some _ _ _ w Ht). step (getitem_some _ _ _ w Hu).
  step (getitem_some _ _ _ w Hr). step (event_json_body_some _ _ w Hb).
  step (py_get_obj b "title" JNull w). rewrite Hfalsy. reflexivity.
Qed.

(** X12.  When the write of a create request fails, the request is
    answered 500 and nothing else happens: the table and the bus are as
    before, and no event is published for the task that was not written. *)
Theorem create_write_failure_publishes_nothing
    (event : api_event) (w : world) (a : gmap string string)
    (tenant user role : string) (b : gmap string json) (title : json) :
  authorizer event = Some a ->
  a !! "tenant_id" = Some tenant -> a !! "user_id" = Some user -> a !! "role" = Some role ->
  event_body event = BodyJson (JObj b) ->
  b !! "title" = Some title -> truthy title = true ->
  raises rt (length (calls w)) = true ->
  exists item,
    CreateTask.handler rt event w
    = (Ret (error_response 500 "Internal Server Error" "Failed to create task"),
       {| table := table w; bus := bus w; bucket := bucket w;
          calls := (calls w ++ [PutItem item])%list |}).
Proof.
  intros Ha Ht Hu Hr Hb Htitle Htruthy Hfail.
  eexists.
  unfold CreateTask.handler, try_except.
  rewrite (create_reaches_write event w a tenant user role b title
             Ha Ht Hu Hr Hb Htitle Htruthy).
  unfold mbind at 1, M_bind at 1, Services.put_item, Services.service.
  rewrite Hfail. reflexivity.
Qed.

End CreatePaths.

Lemma create_persists_and_publishes_witness :
  exists r w',
    CreateTask.handler rt_ok (create_request "MEMBER" ship_v1) empty_world = (Ret r, w')
    /\ Utils.statusCode r = 201%Z
    /\ Utils.body r !! "status" = Some (JStr "OPEN")
    /\ stored w' task_456_key "priority" = Some (JStr "HIGH")
    /\ length (bus w') = 1.
Proof.
  destruct (create_persists_and_publishes rt_ok (create_request "MEMBER" ship_v1) empty_world
              (context_of "ahmed-hassan" "MEMBER") "karachi-tech" "ahmed-hassan" "MEMBER"
              ship_v1 (JStr "Ship v1") eq_refl eq_refl eq_refl eq_refl eq_refl eq_refl
              eq_refl eq_refl eq_refl eq_refl)
    as (r & w' & Hrun & Hcode & Hbody & Htable & Hbus & _).
  exists r, w'. rewrite Hbody, Hbus. unfold stored. rewrite Htable.
  repeat split; [exact Hrun | exact Hcode].
Defined.

Lemma create_without_title_rejected_witness :
  CreateTask.handler rt_ok (create_request "MEMBER" {[ "title" := JStr "" ]}) empty_world
  = (Ret (error_response 400 "Title is required" "Task title cannot be empty"), empty_world).
Proof.
  apply (create_without_title_rejected rt_ok
           (create_request "MEMBER" {[ "title" := JStr "" ]}) empty_world
           (context_of "ahmed-hassan" "MEMBER") "karachi-tech" "ahmed-hassan" "MEMBER"
           {[ "title" := JStr "" ]});
    reflexivity.
Defined.

Lemma create_write_failure_publishes_nothing_witness :
  exists item,
    CreateTask.handler rt_first_call_raises (create_request "MEMBER" ship_v1) empty_world
    = (Ret (error_response 500 "Internal Server Error" "Failed to create task"),
       {| table := ∅; bus := []; bucket := ∅; calls := [PutItem item] |}).
Proof.
  apply (create_write_failure_publishes_nothing rt_first_call_raises
           (create_request "MEMBER" ship_v1) empty_world
           (context_of "ahmed-hassan" "MEMBER") "karachi-tech" "ahmed-hassan" "MEMBER"
           ship_v1 (JStr "Ship v1"));
    reflexivity.
Defined.

(** ** Delete and update, the other paths *)

Lemma holds_number_insert (m : gmap string json) (k : string) (v : json) :
  m !! k = None ->
  holds_number (JObj (<[k := v]> m)) = holds_number v || holds_number (JObj m).
Proof.
  intros H. cbn [holds_number].
  rewrite map_fold_insert_L; [reflexivity| |exact H].
  intros j1 j2 z1 z2 y _ _ _.
  destruct (holds_number z1), (holds_number z2), y; reflexivity.
Qed.

Lemma holds_number_singleton (k : string) (v : json) :
  holds_number (JObj {[ k := v ]}) = holds_number v.
Proof.
  rewrite <- insert_empty, holds_number_insert by apply lookup_empty.
  cbn [holds_number]. rewrite map_fold_empty. apply orb_false_r.
Qed.

(** Of a confirmation only the title and the time stamp, both read from the
    table, can hold a number. *)
Lemma holds_number_confirmation (tenant user id : string) (existing : gmap string json) :
  holds_number (JObj (delete_confirmation tenant user id existing))
  = holds_number (deleted_title existing) || holds_number (deleted_at existing).
Proof.
  unfold delete_confirmation.
  rewrite holds_number_insert by done.
  rewrite holds_number_singleton.
  rewrite !holds_number_insert, holds_number_singleton
    by (rewrite ?lookup_insert_ne by done; by apply lookup_singleton_ne).
  cbn [holds_number orb]. reflexivity.
Qed.

Section MutationPaths.
Context (rt : runtime).

Lemma delete_runs
    (event : api_event) (w : world) (a p : gmap string string)
    (tenant user id : string) (existing : gmap string json) :
  authorizer event = Some a ->
  a !! "tenant_id" = Some tenant -> a !! "user_id" = Some user ->
  a !! "role" = Some "ADMIN" ->
  pathParameters event = Some p -> p !! "id" = Some id ->
  let key := ("TENANT#" ++ tenant, "TASK#" ++ id) in
  let n := length (calls w) in
  table w !! key = Some existing ->
  raises rt n = false -> raises rt (S n) = false ->
  DeleteTask.handler rt event w
  = (Ret (delete_answer tenant user id existing),
     {| table := delete key (table w); bus := bus w; bucket := bucket w;
        calls := (calls w ++ [GetItem key; DeleteItem key])%list |}).
Proof.
  intros Ha Ht Hu Hr Hp Hid key n Hex Hok1 Hok2.
  unfold DeleteTask.handler, try_except, DeleteTask.handler_body.
  step (event_authorizer_some _ _ w Ha).
  step (getitem_some _ _ _ w Ht). step (getitem_some _ _ _ w Hu).
  step (getitem_some _ _ _ w Hr). step (event_path_id_some _ _ _ w Hp Hid).
  cbn [String.eqb Ascii.eqb Bool.eqb negb].
  step (get_item_ok rt key w Hok1).
  fold key. rewrite Hex.
  unfold mbind at 1, M_bind at 1, Services.delete_item, Services.service.
  cbn [Services.record_call calls]. rewrite length_app. cbn [length].
  rewrite Nat.add_1_r. fold n. rewrite Hok2.
  unfold Services.set_table.
  cbn [Services.record_call table bus bucket calls].
  rewrite <- app_assoc. cbn [app].
  fold (deleted_title existing). fold (deleted_at existing).
  fold (delete_confirmation tenant user id existing).
  unfold mbind at 1, M_bind at 1, lift at 1, dumps_read, delete_answer.
  rewrite holds_number_confirmation.
  destruct (holds_number (deleted_title existing) || holds_number (deleted_at existing));
    reflexivity.
Qed.

(** X13.  ADMIN deleting an existing task of the own tenant, both service
    calls succeeding: one read, then one delete, and the item is gone.  The
    answer is 200 and names the task, the stored title and the caller, unless
    the stored title or [updated_at] holds a number: then the confirmation
    cannot be serialised and the answer is 500, although the item is gone. *)
Theorem delete_removes_task
    (event : api_event) (w : world) (a p : gmap string string)
    (tenant user id : string) (existing : gmap string json) :
  authorizer event = Some a ->
  a !! "tenant_id" = Some tenant -> a !! "user_id" = Some user ->
  a !! "role" = Some "ADMIN" ->
  pathParameters event = Some p -> p !! "id" = Some id ->
  let key := ("TENANT#" ++ tenant, "TASK#" ++ id) in
  let n := length (calls w) in
  table w !! key = Some existing ->
  raises rt n = false -> raises rt (S n) = false ->
  exists r w',
    DeleteTask.handler rt event w = (Ret r, w')
    /\ table w' !! key = None
    /\ table w' = delete key (table w)
    /\ calls w' = (calls w ++ [GetItem key; DeleteItem key])%list
    /\ (holds_number (deleted_title existing) || holds_number (deleted_at existing) = false ->
        Utils.statusCode r = 200%Z
        /\ exists deleted,
             Utils.body r !! "deleted_task" = Some (JObj deleted)
             /\ deleted !! "task_id" = Some (JStr id)
             /\ deleted !! "title" = Some (deleted_title existing)
             /\ deleted !! "deleted_by" = Some (JStr user))
    /\ (holds_number (deleted_title existing) || holds_number (deleted_at existing) = true ->
        r = error_response 500 "Internal Server Error" "Failed to delete task").
Proof.
  intros Ha Ht Hu Hr Hp Hid key n Hex Hok1 Hok2.
  eexists _, _. split.
  { exact (delete_runs event w a p tenant user id existing
             Ha Ht Hu Hr Hp Hid Hex Hok1 Hok2). }
  cbn [table calls]. unfold delete_answer.
  split; [apply lookup_delete_eq|]. split; [reflexivity|]. split; [reflexivity|].
  split; intros ->; [|reflexivity].
  split; [reflexivity|]. eexists.
  cbn [Utils.body]. unfold delete_confirmation.
  split; [rewrite lookup_insert_ne by done; apply lookup_singleton_eq|].
  split; [apply lookup_insert_eq|].
  split; [rewrite !lookup_insert_ne by done; apply lookup_insert_eq|].
  rewrite !lookup_insert_ne by done. apply lookup_insert_eq.
Qed.

(** X14.  An update that names a task absent from the caller's partition
    is answered 404 after the one read, whatever the role and the body, and
    nothing is written; a task with that id in another tenant's partition
    makes no difference. *)
Theorem update_absent_task_not_found
    (event : api_event) (w : world) (a p : gmap string string)
    (tenant user role id : string) (body : json) :
  authorizer event = Some a ->
  a !! "tenant_id" = Some tenant -> a !! "user_id" = Some user -> a !! "role" = Some role ->
  pathParameters event = Some p -> p !! "id" = Some id ->
  event_body event = BodyJson body ->
  let key := ("TENANT#" ++ tenant, "TASK#" ++ id) in
  table w !! key = None ->
  raises rt (length (calls w)) = false ->
  UpdateTask.handler rt event w
  = (Ret (error_response 404 "Task Not Found"
            ("Task " ++ id ++ " not found for tenant " ++ tenant)),
     {| table := table w; bus := bus w; bucket := bucket w;
        calls := (calls w ++ [GetItem key])%list |}).
Proof.
  intros Ha Ht Hu Hr Hp Hid Hb key Hnone Hok.
  unfold UpdateTask.handler, try_except, UpdateTask.handler_body.
  step (event_authorizer_some _ _ w Ha).
  step (getitem_some _ _ _ w Ht). step (getitem_some _ _ _ w Hu).
  step (getitem_some _ _ _ w Hr). step (event_path_id_some _ _ _ w Hp Hid).
  step (event_json_body_some _ _ w Hb).
  step (get_item_ok rt key w Hok).
  fold key. rewrite Hnone. reflexivity.
Qed.

End MutationPaths.

Lemma delete_removes_task_witness :
  (exists r w',
     DeleteTask.handler rt_ok (request "ahmed-hassan" "ADMIN" BodyNull) two_tenant_world
     = (Ret r, w')
     /\ Utils.statusCode r = 200%Z
     /\ table w' !! task_123_key = None
     /\ table w' !! lahore_key = Some lahore_task)
  /\ (exists w',
        DeleteTask.handler rt_ok (request "ahmed-hassan" "ADMIN" BodyNull)
          world_with_numbered_task
        = (Ret (error_response 500 "Internal Server Error" "Failed to delete task"), w')
        /\ table w' !! task_123_key = None).
Proof.
  split.
  - destruct (delete_removes_task rt_ok (request "ahmed-hassan" "ADMIN" BodyNull)
                two_tenant_world (context_of "ahmed-hassan" "ADMIN") {[ "id" := "task-123" ]}
                "karachi-tech" "ahmed-hassan" "task-123" task_123
                eq_refl eq_refl eq_refl eq_refl eq_refl eq_refl eq_refl eq_refl eq_refl)
      as (r & w' & Hrun & Hgone & Htable & _ & Hstrings & _).
    exists r, w'. rewrite Htable.
    repeat split; [exact Hrun | exact (proj1 (Hstrings eq_refl))].
  - destruct (delete_removes_task rt_ok (request "ahmed-hassan" "ADMIN" BodyNull)
                world_with_numbered_task (context_of "ahmed-hassan" "ADMIN")
                {[ "id" := "task-123" ]}
                "karachi-tech" "ahmed-hassan" "task-123" numbered_task
                eq_refl eq_refl eq_refl eq_refl eq_refl eq_refl eq_refl eq_refl eq_refl)
      as (r & w' & Hrun & Hgone & _ & _ & _ & Hnumber).
    exists w'. rewrite <- (Hnumber eq_refl). split; [exact Hrun | exact Hgone].
Defined.

Lemma update_absent_task_not_found_witness :
  UpdateTask.handler rt_ok
    (request "ahmed-hassan" "ADMIN" (BodyJson (JObj {[ "status" := JStr "DONE" ]})))
    lahore_only_world
  = (Ret (error_response 404 "Task Not Found"
            "Task task-123 not found for tenant karachi-tech"),
     {| table := {[ lahore_key := lahore_task ]}; bus := []; bucket := ∅;
        calls := [GetItem task_123_key] |}).
Proof.
  apply (update_absent_task_not_found rt_ok
           (request "ahmed-hassan" "ADMIN" (BodyJson (JObj {[ "status" := JStr "DONE" ]})))
           lahore_only_world (context_of "ahmed-hassan" "ADMIN") {[ "id" := "task-123" ]}
           "karachi-tech" "ahmed-hassan" "ADMIN" "task-123"
           (JObj {[ "status" := JStr "DONE" ]}));
    reflexivity.
Defined.

(** ** Requests in sequence *)

Section Sequences.
Context (rt : runtime).

Ltac listed := apply list_elem_of_In; cbn; tauto.
Ltac not_listed :=
  let H := fresh in intros H; apply list_elem_of_In in H; cbn in H; intuition discriminate.

Lemma created_item_fields (tenant user task_id time : string) (b : gmap string json)
    (title : json) :
  created_item rt tenant user task_id time b title !! "task_id" = Some (JStr task_id)
  /\ created_item rt tenant user task_id time b title !! "tenant_id" = Some (JStr tenant)
  /\ created_item rt tenant user task_id time b title !! "title" = Some title
  /\ created_item rt tenant user task_id time b title !! "status"
     = Some (default (JStr "OPEN") (b !! "status"))
  /\ created_item rt tenant user task_id time b title !! "created_by" = Some (JStr user)
  /\ created_item rt tenant user task_id time b title !! "created_at" = Some (JStr time).
Proof. unfold created_item, CreateTask.task_item. repeat split; by simplify_map_eq. Qed.

Lemma response_task_ok (item : gmap string json) :
  is_Some (item !! "task_id") -> is_Some (item !! "tenant_id") ->
  is_Some (item !! "title") -> is_Some (item !! "status") ->
  is_Some (item !! "created_at") -> is_Some (item !! "updated_at") ->
  exists t, UpdateTask.response_task item = Ret t.
Proof.
  intros [? H1] [? H2] [? H3] [? H4] [? H5] [? H6].
  unfold UpdateTask.response_task, py_getitem.
  rewrite H1, H2, H3, H4, H5, H6. cbn [mbind outcome_bind]. eauto.
Qed.

Lemma created_item_updated_at (tenant user task_id time : string) (b : gmap string json)
    (title : json) :
  created_item rt tenant user task_id time b title !! "updated_at" = Some (JStr time).
Proof. unfold created_item, CreateTask.task_item. by simplify_map_eq. Qed.

(** X15.  Create followed by an ADMIN's delete of the new task restores the
    table: when the fresh id was free and the four service calls succeed, the
    create is answered 201, the delete 200 (500 when the title that was
    created holds a number, which the confirmation cannot carry), and in both
    cases the table is the one before the create. *)
Theorem create_then_delete_restores_table
    (create delete_ : api_event) (w : world) (a1 a2 p2 : gmap string string)
    (tenant user1 role1 user2 : string) (b : gmap string json) (title : json) :
  authorizer create = Some a1 ->
  a1 !! "tenant_id" = Some tenant -> a1 !! "user_id" = Some user1 ->
  a1 !! "role" = Some role1 ->
  event_body create = BodyJson (JObj b) ->
  b !! "title" = Some title -> truthy title = true ->
  let n := length (calls w) in
  let task_id := uuid4 rt n in
  authorizer delete_ = Some a2 ->
  a2 !! "tenant_id" = Some tenant -> a2 !! "user_id" = Some user2 ->
  a2 !! "role" = Some "ADMIN" ->
  pathParameters delete_ = Some p2 -> p2 !! "id" = Some task_id ->
  table w !! ("TENANT#" ++ tenant, "TASK#" ++ task_id) = None ->
  raises rt n = false -> raises rt (S n) = false -> bus_rejects rt (S n) = false ->
  raises rt (S (S n)) = false -> raises rt (S (S (S n))) = false ->
  exists r1 w1 r2 w2,
    CreateTask.handler rt create w = (Ret r1, w1)
    /\ DeleteTask.handler rt delete_ w1 = (Ret r2, w2)
    /\ Utils.statusCode r1 = 201%Z
    /\ Utils.statusCode r2 = (if holds_number title then 500 else 200)%Z
    /\ table w2 = table w.
Proof.
  intros Ha1 Ht1 Hu1 Hr1 Hb Htitle Htruthy n task_id Ha2 Ht2 Hu2 Hr2 Hp2 Hid2 Hfree
         Hok1 Hok2 Hok3 Hok4 Hok5.
  pose proof (create_runs rt create w a1 tenant user1 role1 b title
                Ha1 Ht1 Hu1 Hr1 Hb Htitle Htruthy Hok1 Hok2 Hok3) as Hcreate.
  fold n task_id in Hcreate.
  match type of Hcreate with _ = (Ret ?r, ?x) => set (r1 := r) in *; set (w1 := x) in * end.
  assert (length (calls w1) = S (S n)) as Hlen
    by (cbn; rewrite length_app; cbn; unfold n; lia).
  assert (table w1 !! ("TENANT#" ++ tenant, "TASK#" ++ task_id)
          = Some (created_item rt tenant user1 task_id (utcnow_isoformat rt n ++ "Z") b title))
    as Hex by apply lookup_insert_eq.
  pose proof (delete_runs rt delete_ w1 a2 p2 tenant user2 task_id _
                Ha2 Ht2 Hu2 Hr2 Hp2 Hid2 Hex
                ltac:(rewrite Hlen; exact Hok4) ltac:(rewrite Hlen; exact Hok5)) as Hdelete.
  eexists _, _, _, _. split; [exact Hcreate|]. split; [exact Hdelete|].
  split; [reflexivity|]. split; [|cbn [table w1]; by apply delete_insert_id].
  unfold delete_answer, deleted_title, deleted_at.
  rewrite created_item_updated_at.
  rewrite (proj1 (proj2 (proj2 (created_item_fields _ _ _ _ _ _)))).
  cbn [default from_option holds_number]. change (Datatypes.id title) with title.
  rewrite orb_false_r. destruct (holds_number title); reflexivity.
Qed.

(** X16.  A task written by create can be updated by its creator: after a
    successful create, an update of the new task by the same user, whatever
    the role, with any object body that holds no status and both service calls
    succeeding, stores the field-level merge of the created item with the
    body.  It is answered 200 with the merged task, and 500 when the merged
    task holds a number: the task is written all the same. *)
Theorem created_task_is_updatable_by_creator
    (create update : api_event) (w : world) (a1 a2 p2 : gmap string string)
    (tenant user role1 role2 : string) (b b2 : gmap string json) (title : json) :
  authorizer create = Some a1 ->
  a1 !! "tenant_id" = Some tenant -> a1 !! "user_id" = Some user ->
  a1 !! "role" = Some role1 ->
  event_body create = BodyJson (JObj b) ->
  b !! "title" = Some title -> truthy title = true ->
  let n := length (calls w) in
  let task_id := uuid4 rt n in
  let item := created_item rt tenant user task_id (utcnow_isoformat rt n ++ "Z") b title in
  let key := ("TENANT#" ++ tenant, "TASK#" ++ task_id) in
  authorizer update = Some a2 ->
  a2 !! "tenant_id" = Some tenant -> a2 !! "user_id" = Some user ->
  a2 !! "role" = Some role2 ->
  pathParameters update = Some p2 -> p2 !! "id" = Some task_id ->
  event_body update = BodyJson (JObj b2) -> b2 !! "status" = None ->
  raises rt n = false -> raises rt (S n) = false -> bus_rejects rt (S n) = false ->
  raises rt (S (S n)) = false -> raises rt (S (S (S n))) = false ->
  exists r1 w1 r2 w2 new task,
    CreateTask.handler rt create w = (Ret r1, w1)
    /\ UpdateTask.handler rt update w1 = (Ret r2, w2)
    /\ Utils.statusCode r1 = 201%Z
    /\ UpdateTask.response_task new = Ret task
    /\ r2 = update_answer task
    /\ table w2 = <[key := new]> (table w)
    /\ field_level_merge b2 item new (utcnow_isoformat rt (S (S (S n))) ++ "Z").
Proof.
  intros Ha1 Ht1 Hu1 Hr1 Hb Htitle Htruthy n task_id item key Ha2 Ht2 Hu2 Hr2 Hp2 Hid2 Hb2
         Hstatus2 Hok1 Hok2 Hok3 Hok4 Hok5.
  pose proof (create_runs rt create w a1 tenant user role1 b title
                Ha1 Ht1 Hu1 Hr1 Hb Htitle Htruthy Hok1 Hok2 Hok3) as Hcreate.
  fold n task_id item key in Hcreate.
  match type of Hcreate with _ = (Ret ?r, ?x) => set (r1 := r) in *; set (w1 := x) in * end.
  assert (length (calls w1) = S (S n)) as Hlen
    by (cbn; rewrite length_app; cbn; unfold n; lia).
  assert (table w1 !! key = Some item) as Hex by apply lookup_insert_eq.
  destruct (created_item_fields tenant user task_id (utcnow_isoformat rt n ++ "Z") b title)
    as (Hid & Htenant & Htitle' & Hstatus & Hcreator & Hcreated).
  fold item in Hid, Htenant, Htitle', Hstatus, Hcreator, Hcreated.
  destruct (update_merges_without_status rt update w1 a2 p2 tenant user role2 task_id b2 item
              Ha2 Ht2 Hu2 Hr2 Hp2 Hid2 Hb2 Hstatus2 Hex (fun _ => Hcreator)
              ltac:(rewrite Hlen; exact Hok4) ltac:(rewrite Hlen; exact Hok5))
    as (ue & ev & new & r2 & Hupdate & Hmerge & Hresp).
  rewrite Hlen in Hmerge.
  pose proof Hmerge as (Hfields & Hupdated & Hframe).
  assert (forall f v, f ∈ ["title"; "description"; "priority"; "assigned_to"] ->
                      item !! f = Some v -> is_Some (new !! f)) as Hkept.
  { intros f v Hf Hv. rewrite (Hfields f Hf), Hv. destruct (b2 !! f); eauto. }
  assert (forall f v, f ∉ ["title"; "description"; "priority"; "assigned_to"; "updated_at"] ->
                      item !! f = Some v -> is_Some (new !! f)) as Hsame.
  { intros f v H1 Hv. rewrite (Hframe f H1), Hv. eauto. }
  destruct (response_task_ok new) as [t Ht].
  - apply (Hsame "task_id" (JStr task_id)); [not_listed|exact Hid].
  - apply (Hsame "tenant_id" (JStr tenant)); [not_listed|exact Htenant].
  - apply (Hkept "title" title); [listed|exact Htitle'].
  - apply (Hsame "status" (default (JStr "OPEN") (b !! "status"))); [not_listed|exact Hstatus].
  - apply (Hsame "created_at" (JStr (utcnow_isoformat rt n ++ "Z")));
      [not_listed|exact Hcreated].
  - rewrite Hupdated. eauto.
  - rewrite Ht in Hresp. subst r2.
    eexists _, _, _, _, new, t. split; [exact Hcreate|]. split; [exact Hupdate|].
    split; [reflexivity|]. split; [exact Ht|]. split; [reflexivity|].
    split; [|exact Hmerge].
    cbn [table w1]. apply insert_insert_eq.
Qed.

End Sequences.

Lemma create_then_delete_restores_table_witness :
  exists r1 w1 r2 w2,
    CreateTask.handler rt_ok (create_request "MEMBER" ship_v1) two_tenant_world = (Ret r1, w1)
    /\ DeleteTask.handler rt_ok (request_for "task-456" "sara-malik" "ADMIN" BodyNull) w1
       = (Ret r2, w2)
    /\ Utils.statusCode r1 = 201%Z /\ Utils.statusCode r2 = 200%Z
    /\ table w2 = table two_tenant_world.
Proof.
  apply (create_then_delete_restores_table rt_ok (create_request "MEMBER" ship_v1)
           (request_for "task-456" "sara-malik" "ADMIN" BodyNull) two_tenant_world
           (context_of "ahmed-hassan" "MEMBER") (context_of "sara-malik" "ADMIN")
           {[ "id" := "task-456" ]} "karachi-tech" "ahmed-hassan" "MEMBER" "sara-malik"
           ship_v1 (JStr "Ship v1"));
    reflexivity.
Defined.

Lemma created_task_is_updatable_by_creator_witness :
  exists r1 w1 r2 w2 new task,
    CreateTask.handler rt_ok (create_request "MEMBER" ship_v1) empty_world = (Ret r1, w1)
    /\ UpdateTask.handler rt_ok
         (request_for "task-456" "ahmed-hassan" "MEMBER" (BodyJson (JObj priority_low))) w1
       = (Ret r2, w2)
    /\ Utils.statusCode r1 = 201%Z
    /\ UpdateTask.response_task new = Ret task
    /\ r2 = update_answer task
    /\ table w2 = <[task_456_key := new]> ∅
    /\ field_level_merge priority_low
         (created_item rt_ok "karachi-tech" "ahmed-hassan" "task-456" "2024-05-01T10:00:00Z"
            ship_v1 (JStr "Ship v1"))
         new "2024-05-01T10:00:03Z".
Proof.
  apply (created_task_is_updatable_by_creator rt_ok (create_request "MEMBER" ship_v1)
           (request_for "task-456" "ahmed-hassan" "MEMBER" (BodyJson (JObj priority_low)))
           empty_world (context_of "ahmed-hassan" "MEMBER")
           (context_of "ahmed-hassan" "MEMBER") {[ "id" := "task-456" ]}
           "karachi-tech" "ahmed-hassan" "MEMBER" "MEMBER" ship_v1
           priority_low (JStr "Ship v1"));
    reflexivity.
Defined.

(** ** The authorizer, the other paths *)

Section AuthorizerPaths.
Context (lib : Authorizer.library).

Lemma existsb_eq_str (s : string) (l : list json) :
  existsb (fun x => eq_str x s) l = true <-> JStr s ∈ l.
Proof.
  rewrite existsb_exists. split.
  - intros (x & Hin & Heq). destruct x; try discriminate.
    cbn in Heq. apply String.eqb_eq in Heq. subst. by apply list_elem_of_In.
  - intros Hin. exists (JStr s). split; [by apply list_elem_of_In|].
    cbn. apply String.eqb_refl.
Qed.

(** X17.  The role of the tenant context, for claims whose [cognito:groups]
    is a list (or absent): ADMIN when the list holds ["Administrators"],
    else MEMBER when it holds ["Members"], else the [custom:role] claim, and
    MEMBER when there is none.  The tenant defaults to [karachi-tech], the
    user is the [sub] claim or [None], the email defaults to the empty
    string. *)
Theorem extract_tenant_context_role (claims : gmap string json) (groups : list json) :
  default (JArr []) (claims !! "cognito:groups") = JArr groups ->
  exists role,
    Authorizer.extract_tenant_context claims
    = Ret (<["tenant_id" := default (JStr "karachi-tech") (claims !! "custom:tenant_id")]> (
           <["user_id" := default JNull (claims !! "sub")]> (
           <["email" := default (JStr "") (claims !! "email")]> (
           {[ "role" := role ]}))))
    /\ (JStr "Administrators" ∈ groups -> role = JStr "ADMIN")
    /\ (JStr "Administrators" ∉ groups -> JStr "Members" ∈ groups -> role = JStr "MEMBER")
    /\ (JStr "Administrators" ∉ groups -> JStr "Members" ∉ groups ->
        role = default (JStr "MEMBER") (claims !! "custom:role")).
Proof.
  intros Hgroups. unfold Authorizer.extract_tenant_context. rewrite Hgroups.
  cbn [py_in mbind outcome_bind].
  pose proof (existsb_eq_str "Administrators" groups) as Hadmin.
  pose proof (existsb_eq_str "Members" groups) as Hmember.
  destruct (existsb (fun x => eq_str x "Administrators") groups);
    cbn [mbind outcome_bind].
  - eexists. split; [reflexivity|]. split; [reflexivity|].
    split; intros Hn; destruct Hn; by apply Hadmin.
  - destruct (existsb (fun x => eq_str x "Members") groups); cbn [mbind outcome_bind].
    + eexists. split; [reflexivity|]. split; [|split; [reflexivity|]].
      * intros Hin. apply Hadmin in Hin. discriminate.
      * intros _ Hn. destruct Hn. by apply Hmember.
    + eexists. split; [reflexivity|]. split; [|split; [|reflexivity]].
      * intros Hin. apply Hadmin in Hin. discriminate.
      * intros _ Hin. apply Hmember in Hin. discriminate.
Qed.

Lemma find_key_skips (keys : list json) (key : json) (rest : list json)
    (token_header : gmap string json) (kid : string) :
  token_header !! "kid" = Some (JStr kid) ->
  Forall (has_other_kid kid) keys ->
  Authorizer.find_key lib (keys ++ key :: rest) token_header
  = Authorizer.find_key lib (key :: rest) token_header.
Proof.
  intros Hkid Hall.
  set (found := Authorizer.find_key lib (key :: rest) token_header).
  induction Hall as [|k ks (m & kid' & -> & Hk & Hne) _ IH]; [reflexivity|].
  cbn [app Authorizer.find_key py_getitem]. rewrite Hk, Hkid.
  cbn [mbind outcome_bind Authorizer.equal].
  apply String.eqb_neq in Hne. rewrite Hne. exact IH.
Qed.

(** X18.  The key of a token is looked up by key id, in the order of the
    key set: the first entry with the token's [kid] gives the public key
    (entries before it with other key ids are skipped), and when every entry
    has another key id the lookup raises [ValueError("Public key not found")]. *)
Theorem find_key_by_kid (token_header : gmap string json) (kid : string) (keys : list json) :
  token_header !! "kid" = Some (JStr kid) ->
  Forall (has_other_kid kid) keys ->
  Authorizer.find_key lib keys token_header = Raise (ValueError "Public key not found")
  /\ (forall key rest, has_kid kid key ->
        Authorizer.find_key lib (keys ++ key :: rest) token_header
        = Authorizer.from_jwk lib key).
Proof.
  intros Hkid Hall. split.
  - induction Hall as [|k ks (m & kid' & -> & Hk & Hne) _ IH]; [reflexivity|].
    cbn [Authorizer.find_key py_getitem]. rewrite Hk, Hkid.
    cbn [mbind outcome_bind Authorizer.equal].
    apply String.eqb_neq in Hne. rewrite Hne. exact IH.
  - intros key rest (m & -> & Hk).
    rewrite (find_key_skips keys (JObj m) rest token_header kid Hkid Hall).
    cbn [Authorizer.find_key py_getitem]. rewrite Hk, Hkid.
    cbn [mbind outcome_bind Authorizer.equal]. rewrite String.eqb_refl. reflexivity.
Qed.

(** X19.  [verify_token] returns claims only when [decode] returned them
    for this token and some key, and it never raises one of PyJWT's token
    exceptions: these leave as [ValueError]. *)
Theorem verify_token_sound (token : string) (cache : option json) :
  (forall claims cache',
      Authorizer.verify_token lib token cache = (Ret claims, cache') ->
      exists key, Authorizer.decode lib token key = Ret claims)
  /\ (forall e cache',
        Authorizer.verify_token lib token cache = (Raise e, cache') ->
        e <> ExpiredSignatureError /\ forall m, e <> InvalidTokenError m).
Proof.
  unfold Authorizer.verify_token.
  destruct (Authorizer.get_unverified_header lib token) as [header|e0].
  - destruct (Authorizer.get_public_key lib header cache) as [[key|e1] c1].
    + destruct (Authorizer.decode lib token key) as [claims|e2] eqn:Hdec.
      * split; [intros ? ? [= <- <-]; eauto | intros ? ? [=]].
      * split; [destruct e2; intros ? ? [=]|].
        destruct e2; intros ? ? [= <- <-]; split; congruence.
    + split; [destruct e1; intros ? ? [=]|].
      destruct e1; intros ? ? [= <- <-]; split; congruence.
  - split; [destruct e0; intros ? ? [=]|].
    destruct e0; intros ? ? [= <- <-]; split; congruence.
Qed.

Lemma verify_token_keeps_cache (token : string) (jwks : json) :
  (Authorizer.verify_token lib token (Some jwks)).2 = Some jwks.
Proof.
  unfold Authorizer.verify_token, Authorizer.get_public_key, Authorizer.get_jwks.
  destruct (Authorizer.get_unverified_header lib token) as [header|e0].
  - destruct (_ ≫= _) as [key|e1].
    + destruct (Authorizer.decode lib token key) as [claims|e2]; [reflexivity|].
      destruct e2; reflexivity.
    + destruct e1; reflexivity.
  - destruct e0; reflexivity.
Qed.

Lemma verify_token_fills_cache (token : string) :
  (Authorizer.verify_token lib token None).2 = None
  \/ exists jwks, Authorizer.fetch_jwks lib = Ret jwks
                  /\ (Authorizer.verify_token lib token None).2 = Some jwks.
Proof.
  unfold Authorizer.verify_token, Authorizer.get_public_key, Authorizer.get_jwks.
  destruct (Authorizer.get_unverified_header lib token) as [header|e0].
  - destruct (Authorizer.fetch_jwks lib) as [jwks|e] eqn:Hfetch.
    + right. exists jwks. split; [reflexivity|].
      destruct (_ ≫= _) as [key|e1].
      * destruct (Authorizer.decode lib token key) as [claims|e2]; [reflexivity|].
        destruct e2; reflexivity.
      * destruct e1; reflexivity.
    + left. destruct e; reflexivity.
  - left. destruct e0; reflexivity.
Qed.

(** X20.  The key-set cache is never invalidated: once it holds a key set,
    every call of the handler leaves that key set in it, whatever the event
    and the outcome; an empty cache stays empty or takes the key set the
    issuer returned. *)
Theorem handler_keeps_key_set_cache (event : json) :
  (forall jwks, (Authorizer.handler lib event (Some jwks)).2 = Some jwks)
  /\ ((Authorizer.handler lib event None).2 = None
      \/ exists jwks, Authorizer.fetch_jwks lib = Ret jwks
                      /\ (Authorizer.handler lib event None).2 = Some jwks).
Proof.
  assert (forall cache,
    (Authorizer.handler lib event cache).2 = cache
    \/ exists token, (Authorizer.handler lib event cache).2
                     = (Authorizer.verify_token lib token cache).2) as Hcases.
  { intros cache. unfold Authorizer.handler, Authorizer.handler_body.
    destruct (py_get event "authorizationToken" (JStr "")) as [[| | |s| |]|];
      try (left; reflexivity).
    destruct (negb (String.prefix "Bearer " s)); [left; reflexivity|].
    right. exists (remove_all "Bearer " 0 s).
    destruct (Authorizer.verify_token lib _ cache) as [[claims|e] c]; [|reflexivity].
    destruct (_ ≫= _); reflexivity. }
  split.
  - intros jwks. destruct (Hcases (Some jwks)) as [H|[token H]]; [exact H|].
    rewrite H. apply verify_token_keeps_cache.
  - destruct (Hcases None) as [H|[token H]]; [left; exact H|].
    rewrite H. apply verify_token_fills_cache.
Qed.

(** X21.  A request without a bearer token is denied before anything is
    verified: when [authorizationToken] is missing, is not a string, or is a
    string that does not start with ["Bearer "], the handler returns the Deny
    policy for the event's [methodArn] and leaves the key-set cache as it was
    (no key set is fetched). *)
Theorem missing_bearer_denied (m : gmap string json) (arn : json) (cache : option json) :
  m !! "methodArn" = Some arn ->
  (forall s, default (JStr "") (m !! "authorizationToken") = JStr s ->
             String.prefix "Bearer " s = false) ->
  Authorizer.handler lib (JObj m) cache
  = (Ret (Authorizer.generate_policy "Deny" arn None), cache).
Proof.
  intros Harn Hbearer.
  unfold Authorizer.handler, Authorizer.handler_body. cbn [py_get py_getitem].
  rewrite Harn. cbn [mbind outcome_bind].
  destruct (default (JStr "") (m !! "authorizationToken")) as [| | |s| |] eqn:Htoken;
    try reflexivity.
  rewrite (Hbearer s eq_refl). reflexivity.
Qed.

(** X22.  A verified token is allowed: when the token of the event starts
    with ["Bearer "], verification returns claims and the tenant context is
    built, the handler returns an Allow policy for the event's [methodArn]
    whose principal is the [sub] claim ([None] when the token has none) and
    whose context is the tenant context. *)
Theorem verified_token_allowed
    (m claims tenant_context : gmap string json) (token : string) (arn : json)
    (cache cache' : option json) :
  m !! "authorizationToken" = Some (JStr token) ->
  String.prefix "Bearer " token = true ->
  Authorizer.verify_token lib (remove_all "Bearer " 0 token) cache = (Ret claims, cache') ->
  Authorizer.extract_tenant_context claims = Ret tenant_context ->
  m !! "methodArn" = Some arn ->
  Authorizer.handler lib (JObj m) cache
  = (Ret {| Authorizer.principalId := default JNull (claims !! "sub");
            Authorizer.policyDocument :=
              {| Authorizer.Version := "2012-10-17";
                 Authorizer.Statement :=
                   [ {| Authorizer.Action := "execute-api:Invoke";
                        Authorizer.Effect := "Allow";
                        Authorizer.Resource := arn |} ] |};
            Authorizer.context := Some tenant_context |}, cache').
Proof.
  intros Htoken Hprefix Hverify Hcontext Harn.
  destruct (tenant_context_keys claims tenant_context Hcontext) as [_ Htruthy].
  assert (tenant_context !! "user_id" = Some (default JNull (claims !! "sub"))) as Huser.
  { revert Hcontext. unfold Authorizer.extract_tenant_context.
    destruct (py_in "Administrators" _) as [[|]|]; cbn [mbind outcome_bind]; [| |discriminate].
    2: destruct (py_in "Members" _) as [member|]; cbn [mbind outcome_bind]; [|discriminate].
    all: intros [= <-]; rewrite lookup_insert_ne by done; apply lookup_insert_eq. }
  unfold Authorizer.handler, Authorizer.handler_body. cbn [py_get py_getitem].
  rewrite Htoken. cbn [default from_option]. change (Datatypes.id (JStr token)) with (JStr token).
  cbv iota. rewrite Hprefix. cbn [negb]. rewrite Hverify, Hcontext, Harn.
  cbn [mbind outcome_bind]. unfold Authorizer.generate_policy.
  rewrite Htruthy, Huser. reflexivity.
Qed.

(** X23.  Without [methodArn] the handler returns no policy at all: for
    every event object that lacks the key, the handler raises
    [KeyError('methodArn')] out of its [except] clause, whatever the token. *)
Theorem handler_raises_without_method_arn (m : gmap string json) (cache : option json) :
  m !! "methodArn" = None ->
  exists cache',
    Authorizer.handler lib (JObj m) cache = (Raise (KeyError "methodArn"), cache').
Proof.
  intros Harn.
  unfold Authorizer.handler, Authorizer.handler_body. cbn [py_get py_getitem].
  rewrite Harn. cbn [mbind outcome_bind].
  destruct (default (JStr "") (m !! "authorizationToken")) as [| | |s| |]; eauto.
  destruct (negb (String.prefix "Bearer " s)); eauto.
  destruct (Authorizer.verify_token lib _ cache) as [[claims|e] c]; eauto.
  destruct (Authorizer.extract_tenant_context claims); cbn [mbind outcome_bind]; eauto.
Qed.

End AuthorizerPaths.

Lemma extract_tenant_context_role_witness :
  exists role,
    Authorizer.extract_tenant_context member_claims
    = Ret (<["tenant_id" := JStr "karachi-tech"]> (
           <["user_id" := JNull]> (
           <["email" := JStr ""]> (
           {[ "role" := role ]}))))
    /\ role = JStr "MEMBER".
Proof.
  destruct (extract_tenant_context_role member_claims [JStr "Members"] eq_refl)
    as (role & Hrun & _ & Hmember & _).
  exists role. split; [exact Hrun|].
  apply Hmember; [|apply list_elem_of_here].
  intros Hin. apply list_elem_of_In in Hin. cbn in Hin. intuition discriminate.
Defined.

Lemma find_key_by_kid_witness :
  Authorizer.find_key lib_valid [JObj (kid_entry "key-0"); JObj (kid_entry "key-1")]
    (kid_entry "key-1")
  = Ret ().
Proof.
  apply (proj2 (find_key_by_kid lib_valid (kid_entry "key-1") "key-1"
                  [JObj (kid_entry "key-0")] eq_refl
                  ltac:(repeat constructor; exists (kid_entry "key-0"), "key-0";
                        repeat split; discriminate))
           (JObj (kid_entry "key-1")) []).
  exists (kid_entry "key-1"). split; reflexivity.
Defined.

Lemma missing_bearer_denied_witness :
  Authorizer.handler lib_valid (JObj basic_auth_event) None
  = (Ret (Authorizer.generate_policy "Deny" method_arn None), None).
Proof.
  apply (missing_bearer_denied lib_valid basic_auth_event method_arn None eq_refl).
  intros s [= <-]. reflexivity.
Defined.

Lemma verified_token_allowed_witness :
  exists p cache',
    Authorizer.handler lib_valid (JObj bearer_event) None = (Ret p, cache')
    /\ Authorizer.principalId p = JStr "ahmed-hassan"
    /\ effects p = ["Allow"]
    /\ (Authorizer.context p ≫= (.!! "role")) = Some (JStr "ADMIN").
Proof.
  eexists _, _. split.
  - apply (verified_token_allowed lib_valid bearer_event
             _ _ "Bearer header.payload.signature" method_arn None _
             eq_refl eq_refl eq_refl eq_refl eq_refl).
  - repeat split.
Defined.

Lemma handler_raises_without_method_arn_witness :
  exists cache',
    Authorizer.handler lib_valid (JObj no_arn_event) None
    = (Raise (KeyError "methodArn"), cache').
Proof. apply (handler_raises_without_method_arn lib_valid no_arn_event None eq_refl). Defined.

(** ** The event fan-out, the other paths *)

Lemma yields_bind {A B} (P : B -> Prop) (c : M A) (f : A -> M B) :
  (forall a, yields P (f a)) -> yields P (c ≫= f).
Proof.
  intros H w. unfold mbind, M_bind.
  destruct (c w) as [[a|e] w']; [apply H | exact I].
Qed.

Lemma yields_ret {A} (P : A -> Prop) (a : A) : P a -> yields P (mret a).
Proof. intros H w. exact H. Qed.

Section FanOutPaths.
Context (rt : runtime).

Lemma contained_returns (step : M (gmap string json)) (w : world) :
  yields step_result step ->
  exists r w', TaskCreatedHandler.contained step w = (Ret r, w') /\ step_result r.
Proof.
  intros Hstep. unfold TaskCreatedHandler.contained, try_except.
  specialize (Hstep w). destruct (step w) as [[r|e] w']; cbn [fst] in Hstep.
  - eauto.
  - eexists _, _. split; [reflexivity|]. right. apply lookup_insert_eq.
Qed.

Ltac step_yields :=
  apply contained_returns; repeat (apply yields_bind; intros ?);
  apply yields_ret; left; apply lookup_insert_eq.

Lemma analytics_returns (detail : json) (w : world) :
  exists r w', TaskCreatedHandler.await_process_analytics rt detail w = (Ret r, w')
               /\ step_result r.
Proof. unfold TaskCreatedHandler.await_process_analytics. step_yields. Qed.

Lemma notifications_return (detail : json) (w : world) :
  exists r w', TaskCreatedHandler.await_send_notifications rt detail w = (Ret r, w')
               /\ step_result r.
Proof. unfold TaskCreatedHandler.await_send_notifications. step_yields. Qed.

Lemma audit_returns (detail : json) (w : world) :
  exists r w', TaskCreatedHandler.await_create_audit_log rt detail w = (Ret r, w')
               /\ step_result r.
Proof. unfold TaskCreatedHandler.await_create_audit_log. step_yields. Qed.

(** X24.  Each of the three projection steps contains its failures: for
    every event detail, every store and every failure of a service call, the
    step returns (it never raises) a result whose [status] is ["success"] or
    ["error"]. *)
Theorem projection_steps_contained (detail : json) (w : world) :
  (exists r w', TaskCreatedHandler.await_process_analytics rt detail w = (Ret r, w')
                /\ step_result r)
  /\ (exists r w', TaskCreatedHandler.await_send_notifications rt detail w = (Ret r, w')
                   /\ step_result r)
  /\ (exists r w', TaskCreatedHandler.await_create_audit_log rt detail w = (Ret r, w')
                   /\ step_result r).
Proof.
  split; [|split];
    [apply analytics_returns | apply notifications_return | apply audit_returns].
Qed.

Lemma process_record_foreign (record : json) (w : world) :
  foreign_record record ->
  TaskCreatedHandler.process_record rt record w = (Ret None, w).
Proof.
  intros (m & -> & Hsource). unfold TaskCreatedHandler.process_record.
  step (eq_refl : lift (py_get (JObj m) "source" JNull) w
                  = (Ret (default JNull (m !! "source")), w)).
  rewrite Hsource. reflexivity.
Qed.

Lemma process_record_readable (record : json) (w : world) :
  readable_record record ->
  exists o w',
    TaskCreatedHandler.process_record rt record w = (Ret o, w')
    /\ from_tasks record = match o with Some _ => true | None => false end.
Proof.
  intros (m & -> & Hdetail). unfold TaskCreatedHandler.process_record. cbn [from_tasks].
  step (eq_refl : lift (py_get (JObj m) "source" JNull) w
                  = (Ret (default JNull (m !! "source")), w)).
  destruct (eq_str (default JNull (m !! "source")) "saas.tasks");
    [|exists None, w; split; reflexivity].
  destruct (Hdetail eq_refl) as [d Hd].
  step (eq_refl : lift (py_get (JObj m) "detail" (JObj ∅)) w
                  = (Ret (default (JObj ∅) (m !! "detail")), w)).
  rewrite Hd.
  do 5 (unfold mbind at 1, M_bind at 1, lift at 1; cbn [py_get]).
  destruct (analytics_returns (JObj d) w) as (a & w1 & Ha & _). step Ha.
  destruct (notifications_return (JObj d) w1) as (n & w2 & Hn & _). step Hn.
  destruct (audit_returns (JObj d) w2) as (u & w3 & Hu & _). step Hu.
  eexists (Some _), _. split; reflexivity.
Qed.

(** X25.  Records from other sources are ignored: a batch of objects none
    of which has the source ["saas.tasks"] is answered 200 with no processed
    event, and the world is left as it was (no service is called). *)
Theorem foreign_records_ignored (e : gmap string json) (records : list json) (w : world) :
  default (JArr []) (e !! "Records") = JArr records ->
  Forall foreign_record records ->
  TaskCreatedHandler.handler rt (JObj e) w
  = ({| TaskCreatedHandler.statusCode := 200; TaskCreatedHandler.error := None;
        TaskCreatedHandler.processed_events := 0;
        TaskCreatedHandler.results := Some [] |}, w).
Proof.
  intros Hrecords Hforeign.
  assert (forall acc, TaskCreatedHandler.process_records rt records acc w = ((acc, None), w))
    as Hloop.
  { clear Hrecords.
    induction Hforeign as [|record rest Hrecord _ IH]; intros acc; [reflexivity|].
    cbn [TaskCreatedHandler.process_records].
    rewrite (process_record_foreign record w Hrecord). apply IH. }
  unfold TaskCreatedHandler.handler. cbn [py_get mbind outcome_bind].
  rewrite Hrecords. cbn [py_iter]. rewrite Hloop. reflexivity.
Qed.

(** X26.  A batch whose records can all be read is processed to its end:
    when every record is an object and every record from ["saas.tasks"] has
    an object (or nothing) as [detail], the handler answers 200 without an
    error, and lists one result per record from ["saas.tasks"], whatever the
    store holds and whichever service calls fail. *)
Theorem readable_batch_is_processed (e : gmap string json) (records : list json) (w : world) :
  default (JArr []) (e !! "Records") = JArr records ->
  Forall readable_record records ->
  exists processed w',
    TaskCreatedHandler.handler rt (JObj e) w
    = ({| TaskCreatedHandler.statusCode := 200; TaskCreatedHandler.error := None;
          TaskCreatedHandler.processed_events := length processed;
          TaskCreatedHandler.results := Some processed |}, w')
    /\ length processed = length (List.filter from_tasks records).
Proof.
  intros Hrecords Hreadable.
  assert (forall acc w0, exists out w',
            TaskCreatedHandler.process_records rt records acc w0 = ((out, None), w')
            /\ length out = length acc + length (List.filter from_tasks records)) as Hloop.
  { clear Hrecords.
    induction Hreadable as [|record rest Hrecord _ IH]; intros acc w0.
    - exists acc, w0. split; [reflexivity|]. cbn. lia.
    - cbn [TaskCreatedHandler.process_records List.filter].
      destruct (process_record_readable record w0 Hrecord) as (o & w1 & Hrun & Hfrom).
      rewrite Hrun. destruct o as [p|]; rewrite Hfrom.
      + destruct (IH (acc ++ [p])%list w1) as (out & w' & Hrest & Hlen).
        exists out, w'. split; [exact Hrest|].
        rewrite Hlen, length_app. cbn. lia.
      + apply IH. }
  destruct (Hloop [] w) as (out & w' & Hrun & Hlen).
  exists out, w'. split; [|exact Hlen].
  unfold TaskCreatedHandler.handler. cbn [py_get mbind outcome_bind].
  rewrite Hrecords. cbn [py_iter]. rewrite Hrun. reflexivity.
Qed.

End FanOutPaths.

Lemma foreign_records_ignored_witness :
  TaskCreatedHandler.handler rt_ok (JObj (batch_event [billing_record; billing_record]))
    world_with_task
  = ({| TaskCreatedHandler.statusCode := 200; TaskCreatedHandler.error := None;
        TaskCreatedHandler.processed_events := 0;
        TaskCreatedHandler.results := Some [] |}, world_with_task).
Proof.
  apply (foreign_records_ignored rt_ok (batch_event [billing_record; billing_record])
           [billing_record; billing_record] world_with_task eq_refl).
  repeat constructor; eexists; split; reflexivity.
Defined.

Lemma readable_batch_is_processed_witness :
  exists processed w',
    TaskCreatedHandler.handler rt_second_call_raises
      (JObj (batch_event [good_record; billing_record; good_record])) empty_world
    = ({| TaskCreatedHandler.statusCode := 200; TaskCreatedHandler.error := None;
          TaskCreatedHandler.processed_events := length processed;
          TaskCreatedHandler.results := Some processed |}, w')
    /\ length processed = 2.
Proof.
  apply (readable_batch_is_processed rt_second_call_raises
           (batch_event [good_record; billing_record; good_record])
           [good_record; billing_record; good_record] empty_world eq_refl).
  repeat constructor; eexists; (split; [reflexivity|]); intros _; eexists; reflexivity.
Defined.

(** ** Listing tasks *)

Lemma prefix_of_append (p x : string) : String.prefix p (p ++ x) = true.
Proof.
  induction p as [|c p IH]; [by destruct x|].
  change (String.prefix (String c p) (String c p ++ x))
    with (if Ascii.ascii_dec c c then String.prefix p (p ++ x) else false).
  destruct (Ascii.ascii_dec c c); [exact IH|done].
Qed.

Lemma string_append_assoc (a b c : string) : a ++ b ++ c = (a ++ b) ++ c.
Proof.
  induction a as [|x a IH]; [reflexivity|].
  change (String x (a ++ b ++ c) = String x ((a ++ b) ++ c)). by rewrite IH.
Qed.

Ltac required := apply list_elem_of_In; cbn; tauto.

Section ListPaths.
Context (lib : ListTasks.library).

Lemma request_query_inv (ev : ListTasks.event) (tenant : string) (status : option string)
    (k : ListTasks.query_kwargs) :
  ListTasks.request_query lib ev = Ret (tenant, status, k) ->
  exists a asked,
    ListTasks.authorizer ev = Some a
    /\ a !! "tenant_id" = Some tenant /\ complete_context a
    /\ status = default ∅ (ListTasks.queryStringParameters ev) !! "status"
    /\ match default ∅ (ListTasks.queryStringParameters ev) !! "limit" with
       | Some s => ListTasks.int_of lib s = Some asked
       | None => asked = 50%Z
       end
    /\ ListTasks.Limit k = Z.min asked 100
    /\ ListTasks.KeyConditionExpression k
       = match status with
         | Some s =>
           if String.eqb s "" then
             {| ListTasks.hash_key := "PK"; ListTasks.hash_value := "TENANT#" ++ tenant;
                ListTasks.range_key := "SK"; ListTasks.range_prefix := "TASK#" |}
           else
             {| ListTasks.hash_key := "GSI1PK"; ListTasks.hash_value := "TENANT#" ++ tenant;
                ListTasks.range_key := "GSI1SK";
                ListTasks.range_prefix := "STATUS#" ++ s ++ "#" |}
         | None =>
           {| ListTasks.hash_key := "PK"; ListTasks.hash_value := "TENANT#" ++ tenant;
              ListTasks.range_key := "SK"; ListTasks.range_prefix := "TASK#" |}
         end.
Proof.
  unfold ListTasks.request_query, ListTasks.item_of, complete_context.
  destruct (ListTasks.authorizer ev) as [a|]; [|discriminate]. cbn [mbind outcome_bind].
  destruct (a !! "tenant_id") as [t|] eqn:Ht; [|discriminate]. cbn [mbind outcome_bind].
  destruct (a !! "user_id") as [u|] eqn:Hu; [|discriminate]. cbn [mbind outcome_bind].
  destruct (a !! "role") as [r|] eqn:Hr; [|discriminate]. cbn [mbind outcome_bind].
  set (params := default ∅ (ListTasks.queryStringParameters ev)).
  intros H.
  assert (exists asked,
            match params !! "limit" with
            | Some s => ListTasks.int_of lib s = Some asked
            | None => asked = 50%Z
            end
            /\ tenant = t /\ status = params !! "status"
            /\ ListTasks.Limit k = (if (100 <? asked)%Z then 100 else asked)%Z
            /\ ListTasks.KeyConditionExpression k
               = match params !! "status" with
                 | Some s =>
                   if String.eqb s "" then
                     {| ListTasks.hash_key := "PK"; ListTasks.hash_value := "TENANT#" ++ t;
                        ListTasks.range_key := "SK"; ListTasks.range_prefix := "TASK#" |}
                   else
                     {| ListTasks.hash_key := "GSI1PK"; ListTasks.hash_value := "TENANT#" ++ t;
                        ListTasks.range_key := "GSI1SK";
                        ListTasks.range_prefix := "STATUS#" ++ s ++ "#" |}
                 | None =>
                   {| ListTasks.hash_key := "PK"; ListTasks.hash_value := "TENANT#" ++ t;
                      ListTasks.range_key := "SK"; ListTasks.range_prefix := "TASK#" |}
                 end) as (asked & Hasked & -> & -> & Hlimit & Hcond).
  { destruct (params !! "limit") as [s|].
    - destruct (ListTasks.int_of lib s) as [n|]; [|discriminate].
      cbn [mbind outcome_bind] in H. exists n. split; [reflexivity|].
      injection H as <- <- <-.
      destruct (params !! "last_key") as [text|], (params !! "status") as [st|];
        repeat match goal with
               | |- context [String.eqb ?x ""] => destruct (String.eqb x "")
               | |- context [ListTasks.loads lib ?x] => destruct (ListTasks.loads lib x)
               end; repeat split; reflexivity.
    - cbn [mbind outcome_bind] in H. exists 50%Z. split; [reflexivity|].
      injection H as <- <- <-.
      destruct (params !! "last_key") as [text|], (params !! "status") as [st|];
        repeat match goal with
               | |- context [String.eqb ?x ""] => destruct (String.eqb x "")
               | |- context [ListTasks.loads lib ?x] => destruct (ListTasks.loads lib x)
               end; repeat split; reflexivity. }
  exists a, asked. repeat split; eauto.
  rewrite Hlimit. destruct (Z.ltb_spec 100 asked); lia.
Qed.



Lemma collect_tasks_incomplete (items tasks : list (gmap string json)) :
  Exists (fun item => ListTasks.is_task item = true /\ ~ complete_task item) items ->
  exists k, ListTasks.collect_tasks items tasks = Raise (KeyError k).
Proof.
  intros Hitems. revert tasks.
  induction items as [|item rest IH]; intros tasks; [by apply Exists_nil in Hitems|].
  cbn [ListTasks.collect_tasks].
  destruct (ListTasks.is_task item) eqn:Htask.
  - unfold ListTasks.task_of, ListTasks.attribute.
    destruct (item !! "task_id") eqn:H1; [|eauto]. cbn [mbind outcome_bind].
    destruct (item !! "tenant_id") eqn:H2; [|eauto]. cbn [mbind outcome_bind].
    destruct (item !! "title") eqn:H3; [|eauto]. cbn [mbind outcome_bind].
    destruct (item !! "status") eqn:H4; [|eauto]. cbn [mbind outcome_bind].
    destruct (item !! "created_at") eqn:H5; [|eauto]. cbn [mbind outcome_bind].
    destruct (item !! "updated_at") eqn:H6; [|eauto]. cbn [mbind outcome_bind].
    apply IH. apply Exists_cons in Hitems as [[_ Hbad]|Hrest]; [|exact Hrest].
    exfalso. apply Hbad. intros f Hf. unfold required_attributes in Hf.
    repeat (apply elem_of_cons in Hf as [-> | Hf]); [..|by apply elem_of_nil in Hf]; eauto.
  - apply IH. apply Exists_cons in Hitems as [[Hyes _]|Hrest]; [congruence|exact Hrest].
Qed.

(** X27.  The page size of a listing: for a request with a complete
    authorizer context, the query is issued with [Limit] 50 when no limit is
    asked for and with the smaller of the asked limit and 100 otherwise (a
    zero or negative limit is passed on as it is); a limit that is not an
    integer is answered 400 Bad Request. *)
Theorem list_limit_defaults_and_caps (ev : ListTasks.event) (a : gmap string string) :
  ListTasks.authorizer ev = Some a -> complete_context a ->
  match default ∅ (ListTasks.queryStringParameters ev) !! "limit" with
  | None =>
    exists tenant status k,
      ListTasks.request_query lib ev = Ret (tenant, status, k) /\ ListTasks.Limit k = 50%Z
  | Some s =>
    match ListTasks.int_of lib s with
    | Some n =>
      exists tenant status k,
        ListTasks.request_query lib ev = Ret (tenant, status, k)
        /\ ListTasks.Limit k = Z.min n 100
    | None =>
      ListTasks.handler lib ev
      = error_response 400 "Bad Request"
          ("Invalid parameter: invalid literal for int() with base 10: "
           ++ ListTasks.repr lib s)
    end
  end.
Proof.
  intros Ha ([t Ht] & [u Hu] & [r Hr]).
  assert (forall asked,
            match default ∅ (ListTasks.queryStringParameters ev) !! "limit" with
            | Some s => ListTasks.int_of lib s = Some asked
            | None => asked = 50%Z
            end ->
            exists tenant status k,
              ListTasks.request_query lib ev = Ret (tenant, status, k)
              /\ ListTasks.Limit k = Z.min asked 100) as Hasked.
  { intros asked Hasked.
    destruct (ListTasks.request_query lib ev) as [[[tenant status] k]|e] eqn:Hq.
    - exists tenant, status, k. split; [reflexivity|].
      destruct (request_query_inv ev tenant status k Hq)
        as (a' & asked' & _ & _ & _ & _ & Hasked' & Hlimit & _).
      rewrite Hlimit. f_equal.
      destruct (default ∅ (ListTasks.queryStringParameters ev) !! "limit"); congruence.
    - exfalso. revert Hq. unfold ListTasks.request_query, ListTasks.item_of.
      rewrite Ha. cbn [mbind outcome_bind]. rewrite Ht, Hu, Hr. cbn [mbind outcome_bind].
      destruct (default ∅ (ListTasks.queryStringParameters ev) !! "limit") as [s|].
      + rewrite Hasked. discriminate.
      + discriminate. }
  destruct (default ∅ (ListTasks.queryStringParameters ev) !! "limit") as [s|] eqn:Hs.
  - destruct (ListTasks.int_of lib s) as [n|] eqn:Hn; [apply (Hasked n eq_refl)|].
    unfold ListTasks.handler, ListTasks.handler_body, ListTasks.request_query,
      ListTasks.item_of.
    rewrite Ha. cbn [mbind outcome_bind]. rewrite Ht, Hu, Hr. cbn [mbind outcome_bind].
    rewrite Hs, Hn. reflexivity.
  - apply (Hasked 50%Z eq_refl).
Qed.

(** X28.  Listing keeps to the caller's tenant and finds what create wrote:
    the key condition of the query is satisfied by no task item that create
    wrote for another tenant; it is satisfied by every task item create wrote
    for the caller's tenant when no status filter is given, and, under a
    status filter, by those whose status is the filter. *)
Theorem list_condition_selects_tenant_tasks
    (rt : runtime) (ev : ListTasks.event) (caller : string) (status : option string)
    (k : ListTasks.query_kwargs)
    (tenant user task_id time : string) (title task_status description priority assigned_to : json) :
  ListTasks.request_query lib ev = Ret (caller, status, k) ->
  let item := CreateTask.task_item rt tenant user task_id time
                title task_status description priority assigned_to in
  (ListTasks.satisfies (ListTasks.KeyConditionExpression k) item = true -> caller = tenant)
  /\ (caller = tenant -> status = None \/ status = Some "" ->
      ListTasks.satisfies (ListTasks.KeyConditionExpression k) item = true)
  /\ (caller = tenant -> from_option JStr JNull status = task_status ->
      ListTasks.satisfies (ListTasks.KeyConditionExpression k) item = true).
Proof.
  intros Hq item.
  destruct (request_query_inv ev caller status k Hq) as (a & asked & _ & _ & _ & _ & _ & _ & ->).
  assert (item !! "PK" = Some (JStr ("TENANT#" ++ tenant))) as Hpk by reflexivity.
  assert (item !! "SK" = Some (JStr ("TASK#" ++ task_id))) as Hsk by reflexivity.
  assert (item !! "GSI1PK" = Some (JStr ("TENANT#" ++ tenant))) as Hgpk by reflexivity.
  assert (item !! "GSI1SK"
          = Some (JStr ("STATUS#" ++ Services.format rt task_status ++ "#" ++ time)))
    as Hgsk by reflexivity.
  assert (forall x y, String.eqb ("TENANT#" ++ x) ("TENANT#" ++ y) = true -> y = x) as Hinj.
  { intros x y H. apply String.eqb_eq in H. by simplify_eq/=. }
  unfold ListTasks.satisfies. split; [|split].
  - destruct status as [s|]; [destruct (String.eqb s "")|];
      cbn [ListTasks.hash_key ListTasks.hash_value];
      rewrite ?Hpk, ?Hgpk; cbv [from_option id eq_str];
      intros H; apply andb_true_iff in H as [H _]; by apply Hinj in H.
  - intros -> [->| ->]; cbn [String.eqb ListTasks.hash_key ListTasks.hash_value
                              ListTasks.range_key ListTasks.range_prefix];
      rewrite Hpk, Hsk; cbv [from_option id eq_str]; rewrite String.eqb_refl;
      apply (prefix_of_append "TASK#").
  - intros -> Hstatus. destruct status as [s|]; cbn [from_option] in Hstatus.
    + destruct (String.eqb s "");
        cbn [ListTasks.hash_key ListTasks.hash_value
             ListTasks.range_key ListTasks.range_prefix];
        rewrite ?Hpk, ?Hsk, ?Hgpk, ?Hgsk; cbv [from_option id eq_str]; rewrite String.eqb_refl;
        [apply (prefix_of_append "TASK#")|].
      subst task_status. cbn [Services.format andb].
      rewrite (string_append_assoc s "#" time),
        (string_append_assoc "STATUS#" (s ++ "#") time).
      apply prefix_of_append.
    + cbn [ListTasks.hash_key ListTasks.hash_value
           ListTasks.range_key ListTasks.range_prefix];
        rewrite Hpk, Hsk; cbv [from_option id eq_str]; rewrite String.eqb_refl;
        apply (prefix_of_append "TASK#").
Qed.


(** X30.  What a listing answers 500: a request without a complete
    authorizer context (where create, update and delete answer 400), and a
    page that holds a TASK item lacking one of the six required attributes:
    the one item fails the whole listing. *)
Theorem list_failures_answer_500 (ev : ListTasks.event) :
  (forall a, ListTasks.authorizer ev = Some a -> ~ complete_context a)
  \/ (exists tenant status k page,
        ListTasks.request_query lib ev = Ret (tenant, status, k)
        /\ ListTasks.query lib k = Ret page
        /\ Exists (fun item => ListTasks.is_task item = true /\ ~ complete_task item)
                  (ListTasks.Items page)) ->
  ListTasks.handler lib ev
  = error_response 500 "Internal Server Error" "Failed to retrieve tasks".
Proof.
  intros [Hcontext|(tenant & status & k & page & Hq & Hquery & Hitems)].
  - unfold ListTasks.handler, ListTasks.handler_body, ListTasks.request_query,
      ListTasks.item_of.
    destruct (ListTasks.authorizer ev) as [a|]; [|reflexivity]. cbn [mbind outcome_bind].
    destruct (a !! "tenant_id") as [t|] eqn:Ht; [|reflexivity]. cbn [mbind outcome_bind].
    destruct (a !! "user_id") as [u|] eqn:Hu; [|reflexivity]. cbn [mbind outcome_bind].
    destruct (a !! "role") as [r|] eqn:Hr; [|reflexivity].
    destruct (Hcontext a eq_refl). unfold complete_context. eauto.
  - unfold ListTasks.handler, ListTasks.handler_body.
    rewrite Hq. cbn [mbind outcome_bind]. rewrite Hquery. cbn [mbind outcome_bind].
    destruct (collect_tasks_incomplete _ [] Hitems) as [key ->]. reflexivity.
Qed.

End ListPaths.

Example int_of_text_reads :
  int_of_text "500" = Some 500%Z /\ int_of_text "-5" = Some (-5)%Z
  /\ int_of_text " 7 " = Some 7%Z /\ int_of_text "+5" = Some 5%Z
  /\ int_of_text "0" = Some 0%Z /\ int_of_text "" = None
  /\ int_of_text "ten" = None /\ int_of_text "1 0" = None /\ int_of_text "-" = None.
Proof. vm_compute. repeat split; reflexivity. Qed.

(** A limit below 1 is passed on to the query as it is; the store refuses it
    and the listing is answered 500. *)
Example list_negative_limit :
  ListTasks.handler (library_over sample_items) (list_request {[ "limit" := "-5" ]})
  = error_response 500 "Internal Server Error" "Failed to retrieve tasks".
Proof. vm_compute. reflexivity. Qed.

Lemma context_of_complete (user role : string) : complete_context (context_of user role).
Proof. repeat split; eexists; reflexivity. Qed.

Lemma list_limit_defaults_and_caps_witness :
  exists tenant status k,
    ListTasks.request_query (library_over []) (list_request limit_500)
    = Ret (tenant, status, k)
    /\ ListTasks.Limit k = 100%Z.
Proof.
  exact (list_limit_defaults_and_caps (library_over []) (list_request limit_500)
           (context_of "ahmed-hassan" "MEMBER") eq_refl
           (context_of_complete "ahmed-hassan" "MEMBER")).
Defined.

Lemma list_condition_selects_tenant_tasks_witness :
  exists k,
    ListTasks.request_query (library_over []) (list_request open_only)
    = Ret ("karachi-tech", Some "OPEN", k)
    /\ ListTasks.satisfies (ListTasks.KeyConditionExpression k) task_123 = true
    /\ ListTasks.satisfies (ListTasks.KeyConditionExpression k) lahore_task = false.
Proof.
  eexists. split; [reflexivity|]. split.
  - refine (proj2 (proj2 (list_condition_selects_tenant_tasks (library_over []) rt_ok
              (list_request open_only) "karachi-tech" (Some "OPEN") _
              "karachi-tech" "ahmed-hassan" "task-123" "2024-04-30T09:00:00Z"
              (JStr "Setup Lahore office network infrastructure") (JStr "OPEN")
              (JStr "Configure routers and switches for Lahore branch") (JStr "HIGH")
              (JStr "") eq_refl)) eq_refl eq_refl).
  - match goal with |- ?b = false => destruct b eqn:Hb end; [|reflexivity].
    discriminate (proj1 (list_condition_selects_tenant_tasks (library_over []) rt_ok
              (list_request open_only) "karachi-tech" (Some "OPEN") _
              "lahore-soft" "bilal" "task-123" "2024-04-29T08:00:00Z"
              (JStr "Quarterly report") (JStr "OPEN") (JStr "") (JStr "LOW") (JStr "")
              eq_refl) Hb).
Defined.



Lemma list_failures_answer_500_witness :
  ListTasks.handler (library_over [untitled_task]) (list_request no_parameters)
  = error_response 500 "Internal Server Error" "Failed to retrieve tasks".
Proof.
  apply list_failures_answer_500. right.
  eexists "karachi-tech", None, _,
    {| ListTasks.Items := [untitled_task]; ListTasks.LastEvaluatedKey := None |}.
  split; [reflexivity|]. split; [reflexivity|].
  apply Exists_cons_hd. split; [reflexivity|].
  intros H. destruct (H "title") as [v Hv]; [required|]. discriminate Hv.
Defined.
